(** * Junction25: pump scheduling for a retention tunnel

    A shallow embedding of the Python sources (utils/helpers.py,
    agents/inflow_agent.py, agents/price_agent.py,
    agents/optimization_agent.py, main.py) and the properties of the
    specification checked against it.

    Conventions of the embedding.
    - A Python float is a real number ([R]); a missing cell of a pandas
      table (NaN) is [None] in an [option R].
    - A Python dict with string keys is a [gmap string _]; where the order
      of insertion matters it is an association list.
    - A call that may raise returns a [res]: [Ok v] or [Raise e].
    - What the program reads from outside (the two data files, the weather
      and price services) and the libraries it calls for numerical work
      (the LightGBM regressor, the GEKKO solve) enter as arguments; what it
      prints is left out.
    - Of a library object the embedding keeps what the program's control
      flow depends on: GEKKO refuses to fix anything but a parameter or a
      variable, so the kind of each declared object is recorded. *)

From Stdlib Require Import Reals Lra Lia ZArith List.
From stdpp Require Import base option list gmap strings pretty.

Local Open Scope R_scope.

(** ** Python exceptions and the result type *)

Inductive exn : Type :=
  | IndexError
  | KeyError (key : string)
  | NameError (name : string)
  | ValueError
  | TypeError
  | FileNotFoundError
  | OtherError.

Inductive res (A : Type) : Type :=
  | Ok (a : A)
  | Raise (e : exn).
Arguments Ok {A} a.
Arguments Raise {A} e.

Definition rbind {A B : Type} (c : res A) (k : A -> res B) : res B :=
  match c with
  | Ok a => k a
  | Raise e => Raise e
  end.

Notation "x <-- c ;; k" := (rbind c (fun x => k))
  (at level 100, c at next level, right associativity).

(** [try: body except Exception: handler] *)
Definition try_except {A : Type} (body : res A) (handler : exn -> res A) : res A :=
  match body with
  | Ok a => Ok a
  | Raise e => handler e
  end.

(** ** utils/helpers.py *)

Module TUNNEL_CONSTANTS.
Definition L1_MIN : R := 0.5.
Definition L1_MAX : R := 30.0.
Definition L2_LEVEL : R := 40.0.
Definition TIMESTEP_MINUTES : R := 15.
Definition TIME_STEPS_PER_HOUR : R := 4.
Definition NORDPOOL_AREA : string := "FI".
End TUNNEL_CONSTANTS.

(** [calculate_power(Q_total_m3h, L1_m)] *)
Definition calculate_power (Q_total_m3h L1_m : R) : R :=
  let rho := 1000 in
  let g := 9.81 in
  let L2 := TUNNEL_CONSTANTS.L2_LEVEL in
  let H_static := L2 - L1_m in
  let H_friction := 1.0 in
  let H_total := H_static + H_friction in
  let Q_m3_s := Q_total_m3h / 3600 in
  let ETA_TOTAL := 0.80 in
  let P_kW := (rho * g * Q_m3_s * H_total) / ETA_TOTAL / 1000 in
  P_kW.

(** *** scipy's [interp1d(x, y, kind='linear', fill_value='extrapolate')]

    The constructor sorts the samples by abscissa (a stable sort) and
    refuses an empty table.  A call locates the segment with
    [searchsorted], clips the index to [1 .. n-1] and evaluates the line
    through the two neighbouring samples, also outside the table's range.
    Where numpy would divide by zero (repeated abscissae, a single sample)
    and produce NaN, the real-number model has no NaN; the statements
    below only use tables with at least two strictly increasing samples. *)

Fixpoint insert_by_x (p : R * R) (ps : list (R * R)) : list (R * R) :=
  match ps with
  | [] => [p]
  | q :: qs => if Rle_dec (fst p) (fst q) then p :: q :: qs
               else q :: insert_by_x p qs
  end.

Fixpoint sort_by_x (ps : list (R * R)) : list (R * R) :=
  match ps with
  | [] => []
  | p :: qs => insert_by_x p (sort_by_x qs)
  end.

(** [np.searchsorted(xs, v)] on a sorted array: the first index whose
    entry is not below [v]. *)
Fixpoint searchsorted (xs : list R) (v : R) : nat :=
  match xs with
  | [] => O
  | x :: xs' => if Rlt_dec x v then S (searchsorted xs' v) else O
  end.

Definition clip (i lo hi : nat) : nat := Nat.min (Nat.max i lo) hi.

(** [interp1d._call_linear] *)
Definition call_linear (ps : list (R * R)) (x_new : R) : R :=
  let xs := map fst ps in
  let ys := map snd ps in
  let x_new_indices := clip (searchsorted xs x_new) 1 (length xs - 1) in
  let lo := (x_new_indices - 1)%nat in
  let hi := x_new_indices in
  let x_lo := nth lo xs 0 in
  let x_hi := nth hi xs 0 in
  let y_lo := nth lo ys 0 in
  let y_hi := nth hi ys 0 in
  let slope := (y_hi - y_lo) / (x_hi - x_lo) in
  slope * (x_new - x_lo) + y_lo.

Definition interp1d (x y : list R) : res (R -> R) :=
  if negb (length x =? length y)%nat then Raise ValueError
  else if (length x <? 1)%nat then Raise ValueError
  else Ok (call_linear (sort_by_x (combine x y))).

(** [get_level_volume_interpolator(volume_file)].  [volume_file] is what
    [pd.read_csv] finds: the rows (first column level, second column
    volume) or the exception it raises.  Only [FileNotFoundError] is
    handled; the result is the pair (level -> volume, volume -> level). *)
Definition get_level_volume_interpolator (volume_file : res (list (R * R)))
  : res ((R -> R) * (R -> R)) :=
  let body :=
    df_vol <-- volume_file ;;
    let level := map fst df_vol in
    let volume := map snd df_vol in
    interp_v_l <-- interp1d level volume ;;
    interp_l_v <-- interp1d volume level ;;
    Ok (interp_v_l, interp_l_v) in
  match body with
  | Raise FileNotFoundError =>
      let interp_v_l := fun L1 : R => 10000 * L1 + 350 in
      let interp_l_v := fun V : R => (V - 350) / 10000 in
      Ok (interp_v_l, interp_l_v)
  | other => other
  end.

(** ** The part of pandas the agents use

    A table is its row labels (timestamps, in seconds since the Unix
    epoch), its column labels and its cells; row [i] and column [c] meet
    in [cell i c].  A cell of type [option R] may be missing (NaN). *)

Module pd.

Record DataFrame (A : Type) : Type := mkDataFrame {
  index : list Z;
  columns : list string;
  cell : nat -> string -> A
}.
Arguments mkDataFrame {A} _ _ _.
Arguments index {A} _.
Arguments columns {A} _.
Arguments cell {A} _ _ _.

Record Series (A : Type) : Type := mkSeries {
  s_index : list Z;
  values : list A;
  name : string
}.
Arguments mkSeries {A} _ _ _.
Arguments s_index {A} _.
Arguments values {A} _.
Arguments name {A} _.

Section Frames.
Context {A : Type}.

(** [len(df)] *)
Definition nrows (df : DataFrame A) : nat := length (index df).

Definition col_values (df : DataFrame A) (c : string) : list A :=
  map (fun i => cell df i c) (seq 0 (nrows df)).

(** [df[c]] *)
Definition getitem (df : DataFrame A) (c : string) : res (list A) :=
  if bool_decide (c ∈ columns df) then Ok (col_values df c)
  else Raise (KeyError c).

(** [df[cols]] for a list of labels *)
Definition getitem_cols (df : DataFrame A) (cols : list string)
  : res (DataFrame A) :=
  match list_find (fun c => c ∉ columns df) cols with
  | Some (_, c) => Raise (KeyError c)
  | None => Ok (mkDataFrame (index df) cols (cell df))
  end.

(** [df[c] = vals]: an existing column is replaced in place, a new one
    is appended. *)
Definition setitem (df : DataFrame A) (c : string) (vals : list A)
  : DataFrame A :=
  mkDataFrame (index df)
    (if bool_decide (c ∈ columns df) then columns df
     else columns df ++ [c])
    (fun i k => if bool_decide (k = c)
                then default (cell df i k) (vals !! i)
                else cell df i k).

(** [xs.iloc[-1]] and [xs[-1]] *)
Definition iloc_last {B : Type} (xs : list B) : res B :=
  match last xs with
  | Some v => Ok v
  | None => Raise IndexError
  end.

(** [df.iloc[i].to_dict()] *)
Definition row_to_dict (df : DataFrame A) (i : nat) : gmap string A :=
  list_to_map (map (fun c => (c, cell df i c)) (columns df)).

(** [df.iloc[-1].to_dict()] *)
Definition iloc_last_to_dict (df : DataFrame A) : res (gmap string A) :=
  match nrows df with
  | O => Raise IndexError
  | S k => Ok (row_to_dict df k)
  end.

(** [pd.Series(data, index=index, name=name)] for a list [data] *)
Definition Series_of_list (data : list A) (idx : list Z) (nm : string)
  : res (Series A) :=
  if (length data =? length idx)%nat then Ok (mkSeries idx data nm)
  else Raise ValueError.

(** [pd.Series(scalar, index=index, name=name)] *)
Definition Series_of_scalar (scalar : A) (idx : list Z) (nm : string)
  : Series A :=
  mkSeries idx (replicate (length idx) scalar) nm.
End Frames.

(** [series.shift(lag)] *)
Definition shift (lag : nat) (xs : list (option R)) : list (option R) :=
  take (length xs) (replicate lag None ++ xs).

(** A cleaned table seen as a table that may hold NaN. *)
Definition copy (df : DataFrame R) : DataFrame (option R) :=
  mkDataFrame (index df) (columns df) (fun i c => Some (cell df i c)).

Definition row_complete (df : DataFrame (option R)) (i : nat) : bool :=
  forallb (fun c => bool_decide (is_Some (cell df i c))) (columns df).

(** [df.dropna()]: the rows without a missing cell, in order. *)
Definition dropna (df : DataFrame (option R)) : DataFrame R :=
  let kept := List.filter (row_complete df) (seq 0 (nrows df)) in
  mkDataFrame
    (map (fun i => nth i (index df) 0%Z) kept)
    (columns df)
    (fun k c => default 0 (kept !! k ≫= fun i => cell df i c)).

(** [index.hour] and [index.dayofweek] (Monday is 0; the epoch was a
    Thursday). *)
Definition hour (t : Z) : Z := ((t / 3600) mod 24)%Z.
Definition dayofweek (t : Z) : Z := ((t / 86400 + 3) mod 7)%Z.

(** [pd.date_range(start=start, periods=n, freq='15min')] *)
Definition date_range (start : Z) (periods : nat) : list Z :=
  map (fun i => (start + 900 * Z.of_nat i)%Z) (seq 0 periods).

(** [timedelta(minutes=15)] in seconds *)
Definition minutes15 : Z := 900%Z.

End pd.

(** ** Pieces of Python shared by the two forecasting agents *)

(** [for x in xs: body], threading the loop's variables; an exception
    leaves the loop. *)
Fixpoint for_each {S X : Type} (xs : list X) (body : X -> S -> res S) (s : S)
  : res S :=
  match xs with
  | [] => Ok s
  | x :: xs' => s' <-- body x s ;; for_each xs' body s'
  end.

(** [sub in s] for strings *)
Fixpoint contains (sub s : string) : bool :=
  String.prefix sub s ||
  match s with
  | EmptyString => false
  | String _ s' => contains sub s'
  end.

(** [sorted(xs, reverse=True)] *)
Fixpoint insert_desc (x : Z) (xs : list Z) : list Z :=
  match xs with
  | [] => [x]
  | y :: ys => if (y <? x)%Z then x :: y :: ys else y :: insert_desc x ys
  end.

Definition sorted_reverse (xs : list Z) : list Z := foldr insert_desc [] xs.

(** [max(0, x)]: Python keeps the first argument unless a later one is
    greater. *)
Definition py_max0 (x : R) : R := if Rlt_dec 0 x then x else 0.

(** [f'{target_col}_lag_{lag}'] *)
Definition lag_column (target_col : string) (lag : Z) : string :=
  target_col +:+ "_lag_" +:+ pretty lag.

(** [col for col in df.columns if 'lag' in col or col in ['hour', 'dayofweek']] *)
Definition is_feature (col : string) : bool :=
  contains "lag" col || bool_decide (col ∈ ["hour"; "dayofweek"]).

(** One pass of the lag update (inflow_agent.py lines 113-123 and
    price_agent.py lines 124-133, which differ in the names only). *)
Definition update_lags (target_col : string) (next_value : R)
    (last_values : gmap string R) : gmap string R :=
  let last_values :=
    foldl (fun (last_values : gmap string R) (lag : Z) =>
      let lag_key := lag_column target_col lag in
      let prev_lag_key :=
        if (1 <? lag)%Z then Some (lag_column target_col (lag - 1))
        else None in
      match prev_lag_key ≫= (fun k => last_values !! k) with
      | Some v => <[lag_key := v]> last_values
      | None =>
          match last_values !! lag_key with
          | Some _ => <[lag_key := next_value]> last_values
          | None => last_values
          end
      end)
      last_values (sorted_reverse [24; 4; 1]%Z) in
  <[lag_column target_col 1 := next_value]> last_values.

(** [d[k] = v] on a dict that keeps insertion order *)
Fixpoint dict_set {V : Type} (k : string) (v : V) (d : list (string * V))
  : list (string * V) :=
  match d with
  | [] => [(k, v)]
  | (k', v') :: d' => if bool_decide (k' = k) then (k', v) :: d'
                      else (k', v') :: dict_set k v d'
  end.

(** [{k: [last_values[k]] for k in features if 'lag' in k}] *)
Definition lag_features (features : list string) (last_values : gmap string R)
  : res (list (string * option R)) :=
  for_each (List.filter (contains "lag") features)
    (fun k d => match last_values !! k with
                | Some v => Ok (dict_set k (Some v) d)
                | None => Raise (KeyError k)
                end) [].

(** [X_pred.iloc[i][c]] *)
Definition iloc_cell (df : pd.DataFrame (option R)) (i : nat) (c : string)
  : res (option R) :=
  if (i <? pd.nrows df)%nat then
    if bool_decide (c ∈ pd.columns df) then Ok (pd.cell df i c)
    else Raise (KeyError c)
  else Raise IndexError.

(** The feature row of step [i]: the lag entries, then the two calendar
    entries of [X_pred.iloc[i]]. *)
Definition current_features (features : list string)
    (last_values : gmap string R) (X_pred : pd.DataFrame (option R)) (i : nat)
  : res (list (string * option R)) :=
  d <-- lag_features features last_values ;;
  h <-- iloc_cell X_pred i "hour" ;;
  let d := dict_set "hour" h d in
  w <-- iloc_cell X_pred i "dayofweek" ;;
  Ok (dict_set "dayofweek" w d).

(** The calendar columns of a table, from its row labels. *)
Definition with_calendar (df : pd.DataFrame (option R)) : pd.DataFrame (option R) :=
  let df := pd.setitem df "hour"
              (map (fun t => Some (IZR (pd.hour t))) (pd.index df)) in
  pd.setitem df "dayofweek"
    (map (fun t => Some (IZR (pd.dayofweek t))) (pd.index df)).

(** [for lag in [1, 4, 24]: df[f'{target}_lag_{lag}'] = df[target].shift(lag)] *)
Definition with_lags (target_col : string) (df : pd.DataFrame (option R))
  : res (pd.DataFrame (option R)) :=
  for_each [1; 4; 24]%Z
    (fun lag df =>
       col <-- pd.getitem df target_col ;;
       Ok (pd.setitem df (lag_column target_col lag)
                       (pd.shift (Z.to_nat lag) col)))
    df.

(** [series.sort_index()] on (time stamp, value) rows *)
Fixpoint insert_by_time (p : Z * R) (ps : list (Z * R)) : list (Z * R) :=
  match ps with
  | [] => [p]
  | q :: qs => if (fst p <=? fst q)%Z then p :: q :: qs
               else q :: insert_by_time p qs
  end.

Definition sort_index (ps : list (Z * R)) : list (Z * R) :=
  foldr insert_by_time [] ps.

(** ** The regressor

    [lgb.LGBMRegressor] is used through [fit] and [predict] only.  A
    fitted regressor maps a row of named features, some possibly missing,
    to a number; [fit] may raise. *)

Section Agents.
Variable Regressor : Type.
Variable fit : pd.DataFrame R -> list R -> res Regressor.
Variable predict : Regressor -> list (string * option R) -> R.

(** *** agents/inflow_agent.py *)

Record InflowAgent : Type := mkInflowAgent {
  inflow_history_df : pd.DataFrame R;
  inflow_target_col : string
}.

(** [InflowAgent(data_file)]; [data] is what [load_and_clean_data]
    returns or raises. *)
Definition InflowAgent_init (data : res (pd.DataFrame R)) : res InflowAgent :=
  history_df <-- data ;;
  Ok (mkInflowAgent history_df "inflow_to_tunnel_f1").

(** [X_pred[col] = weather_forecast[col]]: the values are aligned on
    the row labels; labels absent from the forecast give NaN, repeated
    labels in the forecast raise. *)
Definition align (idx w_index : list Z) (w_values : list R)
  : res (list (option R)) :=
  if bool_decide (NoDup w_index) then
    Ok (map (fun t => (list_find (fun u => u = t) w_index) ≫=
                        (fun iu => w_values !! fst iu)) idx)
  else Raise ValueError.

(** Lines 90-96: the weather columns are added when available; any
    exception is swallowed and leaves [X_pred] as it is at that point.
    [weather_forecast] is what [self.fetch_weather_forecast(n_steps)]
    returns (rows of time stamp, rain_mm, snow_cm) or raises. *)
Definition add_weather (X_pred : pd.DataFrame (option R))
    (weather_forecast : res (list (Z * (R * R)))) : pd.DataFrame (option R) :=
  match weather_forecast with
  | Raise _ => X_pred
  | Ok rows =>
      let w_index := map fst rows in
      match align (pd.index X_pred) w_index (map (fun r => fst (snd r)) rows) with
      | Raise _ => X_pred
      | Ok rain =>
          let X_pred := pd.setitem X_pred "rain_mm" rain in
          match align (pd.index X_pred) w_index (map (fun r => snd (snd r)) rows) with
          | Raise _ => X_pred
          | Ok snow => pd.setitem X_pred "snow_cm" snow
          end
      end
  end.

(** [forecast_inflow(self, n_steps)] *)
Definition forecast_inflow (self : InflowAgent)
    (weather_forecast : res (list (Z * (R * R)))) (n_steps : nat)
  : res (pd.Series R) :=
  let target_col := inflow_target_col self in
  let df_hist := with_calendar (pd.copy (inflow_history_df self)) in
  df_hist <-- with_lags target_col df_hist ;;
  let df_hist := pd.dropna df_hist in
  let features := List.filter is_feature (pd.columns df_hist) in
  X_train <-- pd.getitem_cols df_hist features ;;
  y_train <-- pd.getitem df_hist target_col ;;
  model <-- fit X_train y_train ;;
  last_op_time <-- pd.iloc_last (pd.index (inflow_history_df self)) ;;
  let forecast_index :=
    pd.date_range (last_op_time + pd.minutes15) n_steps in
  let X_pred :=
    with_calendar (pd.mkDataFrame forecast_index [] (fun _ _ => None)) in
  let X_pred := add_weather X_pred weather_forecast in
  X_last <-- pd.getitem_cols df_hist features ;;
  last_values <-- pd.iloc_last_to_dict X_last ;;
  loop <-- for_each (seq 0 n_steps)
    (fun i '(last_values, inflow_forecast) =>
       feats <-- current_features features last_values X_pred i ;;
       let next_inflow := predict model feats in
       let inflow_forecast := inflow_forecast ++ [py_max0 next_inflow] in
       Ok (update_lags target_col next_inflow last_values, inflow_forecast))
    (last_values, []) ;;
  pd.Series_of_list (snd loop) (pd.index X_pred) "inflow_forecast_m3_15min".

(** *** agents/price_agent.py *)

Record PriceAgent : Type := mkPriceAgent {
  price_history_df : pd.DataFrame R;
  price_target_col : string;
  area_code : string
}.

(** [PriceAgent(data_file)] *)
Definition PriceAgent_init (data : res (pd.DataFrame R)) : res PriceAgent :=
  history_df <-- data ;;
  Ok (mkPriceAgent history_df "electricity_price_1_high"
        TUNNEL_CONSTANTS.NORDPOOL_AREA).

(** [_create_features(self, df)] *)
Definition _create_features (self : PriceAgent) (df : pd.DataFrame R)
  : res (pd.DataFrame R) :=
  let df_new := with_calendar (pd.copy df) in
  df_new <-- with_lags (price_target_col self) df_new ;;
  Ok (pd.dropna df_new).

(** [_forecast_with_ml(self, n_steps)] *)
Definition _forecast_with_ml (self : PriceAgent) (n_steps : nat)
  : res (pd.Series R) :=
  let target_col := price_target_col self in
  df_features <-- _create_features self (price_history_df self) ;;
  let features := List.filter is_feature (pd.columns df_features) in
  X_train <-- pd.getitem_cols df_features features ;;
  y_train <-- pd.getitem df_features target_col ;;
  if (pd.nrows X_train =? 0)%nat then
    prices <-- pd.getitem (price_history_df self) target_col ;;
    last_price <-- pd.iloc_last prices ;;
    last_time <-- pd.iloc_last (pd.index (price_history_df self)) ;;
    let future_index := pd.date_range (last_time + pd.minutes15) n_steps in
    Ok (pd.Series_of_scalar last_price future_index "price_forecast_eur_kwh")
  else
    model <-- fit X_train y_train ;;
    last_time <-- pd.iloc_last (pd.index df_features) ;;
    let X_pred :=
      with_calendar
        (pd.mkDataFrame (pd.date_range (last_time + pd.minutes15) n_steps)
           [] (fun _ _ => None)) in
    X_last <-- pd.getitem_cols df_features features ;;
    last_values <-- pd.iloc_last_to_dict X_last ;;
    loop <-- for_each (seq 0 n_steps)
      (fun i '(last_values, price_forecast) =>
         feats <-- current_features features last_values X_pred i ;;
         let next_price := predict model feats in
         let price_forecast := price_forecast ++ [next_price] in
         Ok (update_lags target_col next_price last_values, price_forecast))
      (last_values, []) ;;
    pd.Series_of_list (snd loop) (pd.index X_pred) "price_forecast_eur_kwh".

(** [fetch_nordpool_prices(self, n_steps)].  [nordpool] is what the Nord
    Pool client delivers for the area, the start time (local) and the
    value in EUR/MWh of each entry, or the exception raised while fetching
    or checking it.  Any exception, also one of the fallback started
    inside the [try], leads to the fallback forecast. *)
Definition fetch_nordpool_prices (self : PriceAgent)
    (nordpool : res (list (Z * R))) (n_steps : nat) : res (pd.Series R) :=
  try_except
    (values <-- nordpool ;;
     let price_list := map (fun item => (fst item, snd item / 1000.0)) values in
     prices_15min <-- match price_list with
                      | [] => Raise (KeyError "timestamp")
                      | _ :: _ => Ok (sort_index price_list)
                      end ;;
     let forecast := take n_steps prices_15min in
     if (length forecast <? n_steps)%nat then _forecast_with_ml self n_steps
     else Ok (pd.mkSeries (map fst forecast) (map snd forecast)
                "price_forecast_eur_kwh"))
    (fun e => _forecast_with_ml self n_steps).

End Agents.

(** ** The part of GEKKO the optimizer uses

    [solve_mpc] declares a dynamic optimisation model, asks for one value
    to be fixed and hands the model to [m.solve].  The model below records
    what is declared; the numerical solve itself (APMonitor and IPOPT) is
    outside the repository and enters as a function from models to
    solutions. *)

Module gekko.

(** The classes of the objects a model hands out: [m.Param] gives a
    [GKParameter], [m.Var] and [m.MV] a [GKVariable], [m.Intermediate] an
    expression that is neither. *)
Inductive kind : Type :=
  | GKParameter
  | GKVariable
  | GK_Intermediate.

(** The objects [solve_mpc] declares, by the name it binds them to. *)
Inductive object : Type :=
  | obj_Price_t
  | obj_F1_t
  | obj_V
  | obj_F2
  | obj_L1
  | obj_P.

(** How each was declared (lines 40, 41, 45, 49, 56 and 59). *)
Definition kind_of (o : object) : kind :=
  match o with
  | obj_Price_t | obj_F1_t => GKParameter
  | obj_V | obj_F2 => GKVariable
  | obj_L1 | obj_P => GK_Intermediate
  end.

(** [m.Var(value, lb, ub)] and [m.MV(value, lb, ub)] *)
Record Var : Type := mkVar { value : R; lb : R; ub : R }.

Record Model : Type := mkModel {
  time : list R;                  (* m.time *)
  Price_t : list R;               (* m.Param *)
  F1_t : list R;                  (* m.Param *)
  V : Var;                        (* m.Var: the tunnel volume *)
  F2 : Var;                       (* m.MV: the pumped flow *)
  F2_DCOST : R;
  F2_STATUS : Z;
  L1 : R -> R;                    (* m.Intermediate, a function of V *)
  P : R -> R -> R;                (* m.Intermediate, of F2 and L1 *)
  dV_dt : R -> R -> R;            (* m.Equation(V.dt() == F1_t - F2) *)
  fixed : list (object * (Z * R)); (* accepted m.fix(var, val, pos): (var, (pos, val)) *)
  Obj : R -> R -> R;              (* integrand of m.Obj(m.integral(..)) *)
  IMODE : Z;
  SOLVER : Z;
  CV_TYPE : Z
}.

(** [m.fix(var, val, pos)]: the value of a parameter or a variable is
    fixed at one position of the horizon; for any other object GEKKO
    raises TypeError. *)
Definition m_fix (m : Model) (var : object) (val : R) (pos : Z) : res Model :=
  match kind_of var with
  | GKParameter | GKVariable =>
      Ok (mkModel (time m) (Price_t m) (F1_t m) (V m) (F2 m) (F2_DCOST m)
            (F2_STATUS m) (L1 m) (P m) (dV_dt m)
            ((var, (pos, val)) :: fixed m)
            (Obj m) (IMODE m) (SOLVER m) (CV_TYPE m))
  | GK_Intermediate => Raise TypeError
  end.

(** What is read back after a solve: [V.value], [F2.value], [P.value]. *)
Record Solution : Type := mkSolution {
  V_value : list R;
  F2_value : list R;
  P_value : list R
}.

End gekko.

(** [np.linspace(start, stop, num)] *)
Definition linspace (start stop : R) (num : nat) : list R :=
  map (fun i => start + INR i * ((stop - start) / (INR num - 1))) (seq 0 num).

(** ** Python name lookup

    A name that is not local to a function is looked up, when the line
    runs, in the globals of the module that defines the function. *)

Inductive pyobj : Type :=
  | PyModule (name : string)
  | PyClass (name : string)
  | PyFunction (name : string)
  | PyDict
  | PySeries (s : pd.Series R).

Definition load_global (globals : gmap string pyobj) (name : string) : res pyobj :=
  match globals !! name with
  | Some o => Ok o
  | None => Raise (NameError name)
  end.

(** [o.index] *)
Definition attr_index (o : pyobj) : res (list Z) :=
  match o with
  | PySeries s => Ok (pd.s_index s)
  | _ => Raise OtherError
  end.

(** The names agents/optimization_agent.py binds at module level: its
    four imports and the class it defines. *)
Definition optimization_agent_globals : gmap string pyobj :=
  list_to_map
    [ ("np", PyModule "numpy");
      ("pd", PyModule "pandas");
      ("GEKKO", PyClass "GEKKO");
      ("TUNNEL_CONSTANTS", PyDict);
      ("get_level_volume_interpolator", PyFunction "get_level_volume_interpolator");
      ("calculate_power", PyFunction "calculate_power");
      ("OptimizationAgent", PyClass "OptimizationAgent") ].

(** [pd.DataFrame({name: list, ...}, index=index)]: every list must be as
    long as the index. *)
Definition DataFrame_of_dict (data : list (string * list R)) (idx : list Z)
  : res (pd.DataFrame R) :=
  if forallb (fun kv => (length (snd kv) =? length idx)%nat) data then
    Ok (pd.mkDataFrame idx (map fst data)
          (fun i c => match list_find (fun kv => fst kv = c) data with
                      | Some (_, kv) => nth i (snd kv) 0
                      | None => 0
                      end))
  else Raise ValueError.

(** ** agents/optimization_agent.py *)

Record OptimizationAgent : Type := mkOptimizationAgent {
  L1_start : R;
  prices : list R;
  inflow_15min : list R;
  horizon : nat;
  dt_h : R;
  V_interp : R -> R;
  L_interp : R -> R
}.

(** [OptimizationAgent(current_L1, price_forecast, inflow_forecast, horizon)];
    [volume_file] is what reading data/tunnel_volume_table.csv gives. *)
Definition OptimizationAgent_init (volume_file : res (list (R * R)))
    (current_L1 : R) (price_forecast inflow_forecast : pd.Series R)
    (horizon : nat) : res OptimizationAgent :=
  interp <-- get_level_volume_interpolator volume_file ;;
  Ok (mkOptimizationAgent current_L1
        (pd.values price_forecast)
        (pd.values inflow_forecast)
        horizon
        (TUNNEL_CONSTANTS.TIMESTEP_MINUTES / 60.0)
        (fst interp) (snd interp)).

(** What lines 20-64 and 76-81 of [solve_mpc] declare: the time grid,
    the parameters, the variables with their bounds, the two
    intermediates, the equation, the objective and the options.  None of
    these calls raises.  [F1_h_0] is [F1_h[0]]. *)
Definition mpc_model (self : OptimizationAgent) (F1_h : list R) (F1_h_0 : R)
  : gekko.Model :=
  let L1_min := TUNNEL_CONSTANTS.L1_MIN in
  let L1_max := TUNNEL_CONSTANTS.L1_MAX in
  let V_start := V_interp self (L1_start self) in
  let V_min := V_interp self L1_min in
  let V_max := V_interp self L1_max in
  gekko.mkModel
    (linspace 0 ((INR (horizon self) - 1) * dt_h self) (horizon self))
    (prices self)
    F1_h
    (gekko.mkVar V_start V_min V_max)
    (gekko.mkVar F1_h_0 100 10000)
    0.01
    1
    (fun V => L1_min + (L1_max - L1_min) * (V - V_min) / (V_max - V_min))
    (fun F2 L1 => calculate_power F2 L1)
    (fun F1_t F2 => F1_t - F2)
    []
    (fun P Price_t => P * Price_t)
    6 3 1.

Section Solve.
(** [m.solve(disp=False)]: the solution, or the exception it raises. *)
Variable solve : gekko.Model -> res gekko.Solution.

(** Lines 83-102 of [solve_mpc], the [try] block and its handler, run on
    the model [m] with [globals] as the globals of the module.  The result
    is [Some] table, or [None] where the handler returns [None]. *)
Definition solve_and_report (globals : gmap string pyobj)
    (self : OptimizationAgent) (m : gekko.Model)
  : res (option (pd.DataFrame R)) :=
  try_except
    (sol <-- solve m ;;
     let final_L1_values := map (L_interp self) (gekko.V_value sol) in
     inflow_forecast <-- load_global globals "inflow_forecast" ;;
     idx <-- attr_index inflow_forecast ;;
     results <-- DataFrame_of_dict
       [ ("L1_m_Optimal", final_L1_values);
         ("V_m3_Optimal", gekko.V_value sol);
         ("F2_m3/h_Optimal", gekko.F2_value sol);
         ("P_kW_Optimal", gekko.P_value sol);
         ("Price_EUR/kWh", gekko.Price_t m);
         ("Inflow_m3/h", gekko.F1_t m) ] idx ;;
     Ok (Some results))
    (fun e => Ok None).

(** [solve_mpc(self)], run with [globals] as the globals of its module.
    [F1_h[0]] (line 49) and [m.fix(L1, val=0.5, pos=self.horizon - 1)]
    (line 71) stand before the [try]: what they raise propagates.  [L1]
    is the intermediate of line 56. *)
Definition solve_mpc (globals : gmap string pyobj) (self : OptimizationAgent)
  : res (option (pd.DataFrame R)) :=
  let F1_h := map (fun x => x * TUNNEL_CONSTANTS.TIME_STEPS_PER_HOUR)
                  (inflow_15min self) in
  F1_h_0 <-- match F1_h !! O with
             | Some x => Ok x
             | None => Raise IndexError
             end ;;
  let m := mpc_model self F1_h F1_h_0 in
  m <-- gekko.m_fix m gekko.obj_L1 0.5 (Z.of_nat (horizon self) - 1) ;;
  solve_and_report globals self m.
End Solve.

(** ** main.py *)

(** How far a cycle got before the optimisation: the initialisation
    failed (lines 19-21), or the optimizer was built (lines 41-46). *)
Inductive cycle_state : Type :=
  | InitFailed (e : exn)
  | Ready (optimizer : OptimizationAgent).

Inductive cycle_outcome : Type :=
  | InitError (e : exn)
  | Optimized (optimizer : OptimizationAgent)
              (optimal_f2_profile : option (pd.DataFrame R)).

Section Cycle.
Variable Regressor : Type.
Variable fit : pd.DataFrame R -> list R -> res Regressor.
Variable predict : Regressor -> list (string * option R) -> R.
Variable solve : gekko.Model -> res gekko.Solution.

(** Lines 14-46 of [run_optimization_cycle()]: the current level, the
    two forecasts and the construction of the optimizer.  [data] and
    [volume_file] are what the two data files give, [nordpool] and
    [weather_forecast] what the two services give.  Both agents return a
    series or raise, so the test for a missing forecast never fires. *)
Definition cycle_optimizer (data : res (pd.DataFrame R))
    (volume_file : res (list (R * R)))
    (nordpool : res (list (Z * R)))
    (weather_forecast : res (list (Z * (R * R))))
  : res cycle_state :=
  let init :=
    hist_df <-- data ;;
    level <-- pd.getitem hist_df "water_level_in_tunnel_l2" ;;
    pd.iloc_last level in
  match init with
  | Raise e => Ok (InitFailed e)
  | Ok current_L1 =>
      price_agent <-- PriceAgent_init data ;;
      price_forecast <--
        fetch_nordpool_prices Regressor fit predict price_agent nordpool 96 ;;
      inflow_agent <-- InflowAgent_init data ;;
      inflow_forecast <--
        forecast_inflow Regressor fit predict inflow_agent weather_forecast 96 ;;
      optimizer <-- OptimizationAgent_init volume_file current_L1
                      price_forecast inflow_forecast
                      (length (pd.values price_forecast)) ;;
      Ok (Ready optimizer)
  end.

(** [run_optimization_cycle()]: the optimizer of lines 14-46 is handed to
    [solve_mpc] (line 48), whose exceptions nothing catches.  The outcome
    records the optimizer and what it returned; the printing is left
    out. *)
Definition run_optimization_cycle (data : res (pd.DataFrame R))
    (volume_file : res (list (R * R)))
    (nordpool : res (list (Z * R)))
    (weather_forecast : res (list (Z * (R * R))))
  : res cycle_outcome :=
  state <-- cycle_optimizer data volume_file nordpool weather_forecast ;;
  match state with
  | InitFailed e => Ok (InitError e)
  | Ready optimizer =>
      optimal_f2_profile <--
        solve_mpc solve optimization_agent_globals optimizer ;;
      match optimal_f2_profile with
      | Some profile =>
          if (pd.nrows profile =? 0)%nat then Raise IndexError
          else Ok (Optimized optimizer optimal_f2_profile)
      | None => Ok (Optimized optimizer optimal_f2_profile)
      end
  end.
End Cycle.

(** ** Statements of the specification used for comparison *)

(** The lag shift as the specification words it for the lag set
    {1, 4, 24}: lag 24 receives what lag 4 held, lag 4 receives what lag 1
    held, and lag 1 receives the fresh prediction. *)
Definition shifts_within_lag_set (target_col : string) (next_value : R)
    (before after : gmap string R) : Prop :=
  after !! lag_column target_col 24 = before !! lag_column target_col 4 /\
  after !! lag_column target_col 4 = before !! lag_column target_col 1 /\
  after !! lag_column target_col 1 = Some next_value.

(** The calibration table of the specification's data model: levels and
    volumes both strictly increasing from row to row. *)
Fixpoint increasing_table (ps : list (R * R)) : Prop :=
  match ps with
  | p :: (q :: _) as tl => fst p < fst q /\ snd p < snd q /\ increasing_table tl
  | _ => True
  end.

(** The same rows read as (volume, level). *)
Definition swap_table (ps : list (R * R)) : list (R * R) :=
  map (fun p => (snd p, fst p)) ps.

(** The line through two samples. *)
Definition segment (p q : R * R) (x : R) : R :=
  (snd q - snd p) / (fst q - fst p) * (x - fst p) + snd p.

(** What the calibration file may give for the geometry to be the one of
    the data model: no file (the affine fallback), or a table of at least
    two rows that is strictly increasing in both columns. *)
Definition calibration_ok (volume_file : res (list (R * R))) : Prop :=
  match volume_file with
  | Ok tbl => increasing_table tbl /\ (2 <= length tbl)%nat
  | Raise FileNotFoundError => True
  | Raise _ => False
  end.

(** ** Concrete inputs used to run the definitions *)

(** A lag state as the inflow forecaster builds it: the three lag
    columns and the two calendar columns of the last training row. *)
Definition lag_state_example : gmap string R :=
  list_to_map
    [ ("hour", 23); ("dayofweek", 6);
      ("inflow_to_tunnel_f1_lag_1", 1);
      ("inflow_to_tunnel_f1_lag_4", 2);
      ("inflow_to_tunnel_f1_lag_24", 3) ].

(** A cleaned history table of two rows with the level column. *)
Definition history_two_rows : pd.DataFrame R :=
  pd.mkDataFrame [0; 900]%Z
    ["water_level_in_tunnel_l2"; "inflow_to_tunnel_f1"]
    (fun i c => if bool_decide (c = "water_level_in_tunnel_l2")
                then nth i [3.5; 0.5] 0
                else nth i [500; 600] 0).

Definition price_two_steps : pd.Series R :=
  pd.mkSeries [1800; 2700]%Z [0.05; 0.04] "price_forecast_eur_kwh".

Definition inflow_two_steps : pd.Series R :=
  pd.mkSeries [1800; 2700]%Z [600; 600] "inflow_forecast_m3_15min".

(** A solve that succeeds on every model: the plan that pumps the inflow
    away and holds the volume of the 0.5 m level. *)
Definition solve_holding (m : gekko.Model) : res gekko.Solution :=
  Ok (gekko.mkSolution
        (map (fun _ => gekko.lb (gekko.V m)) (gekko.time m))
        (gekko.F1_t m)
        (map (fun f => gekko.P m f (gekko.L1 m (gekko.lb (gekko.V m))))
             (gekko.F1_t m))).

(** An inflow agent whose history has two rows, and a regressor that
    accepts any training table and always predicts [-1]. *)
Definition inflow_agent_two_rows : InflowAgent :=
  mkInflowAgent history_two_rows "inflow_to_tunnel_f1".

Definition fit_any (X_train : pd.DataFrame R) (y_train : list R) : res unit :=
  Ok tt.

Definition predict_minus_one (model : unit) (feats : list (string * option R)) : R :=
  -1.

(** An inflow agent with 25 rows of history (one training row), a weather
    forecast of a single row, and the series the forecast then returns
    for three steps: every prediction of -1 is clamped. *)
Definition inflow_agent_25_rows : InflowAgent :=
  mkInflowAgent
    (pd.mkDataFrame (pd.date_range 0 25) ["inflow_to_tunnel_f1"]
       (fun i c => 500))
    "inflow_to_tunnel_f1".


Definition weather_one_row : res (list (Z * (R * R))) :=
  Ok [(22500%Z, (0.2, 0))].

Definition inflow_forecast_three_steps : pd.Series R :=
  pd.mkSeries [22500; 23400; 24300]%Z
    [py_max0 (-1); py_max0 (-1); py_max0 (-1)]
    "inflow_forecast_m3_15min".

(** The calibration table of the specification's first scenario and the
    optimizer built with it for two steps. *)
Definition calibration_two_rows : list (R * R) := [(0, 0); (30, 300000)].

Definition optimizer_calibrated : OptimizationAgent :=
  mkOptimizationAgent 0.5 [0.05; 0.04] [600; 600] 2
    (TUNNEL_CONSTANTS.TIMESTEP_MINUTES / 60.0)
    (call_linear calibration_two_rows)
    (call_linear (swap_table calibration_two_rows)).

(** A cleaned history of 25 rows with the level, inflow and price
    columns, the agents over it, and a Nord Pool answer of 96 entries with
    the forecast it yields. *)
Definition history_25_rows : pd.DataFrame R :=
  pd.mkDataFrame (pd.date_range 0 25)
    ["water_level_in_tunnel_l2"; "inflow_to_tunnel_f1";
     "electricity_price_1_high"]
    (fun i c => if bool_decide (c = "water_level_in_tunnel_l2") then 0.5
                else if bool_decide (c = "inflow_to_tunnel_f1") then 500
                else 0.05).

Definition nordpool_96 : res (list (Z * R)) :=
  Ok (map (fun t => (t, 50)) (pd.date_range 22500 96)).

Definition price_forecast_96 : pd.Series R :=
  pd.mkSeries (pd.date_range 22500 96) (replicate 96 (50 / 1000.0))
    "price_forecast_eur_kwh".

(** ** More of the sources *)

From Stdlib Require Import Sorted.

(** *** [clean_col_name] of [load_and_clean_data] (utils/helpers.py)

    The header is a list of characters with codes below 128; on such
    headers Python's [lower], [replace], [split] and [strip] act character
    by character as below. *)

Definition code (c : Ascii.ascii) : nat := Ascii.nat_of_ascii c.

Definition is_ascii (s : list Ascii.ascii) : Prop :=
  Forall (fun c => (code c < 128)%nat) s.

(** [s.lower()] *)
Definition lower_char (c : Ascii.ascii) : Ascii.ascii :=
  if ((65 <=? code c) && (code c <=? 90))%nat
  then Ascii.ascii_of_nat (code c + 32) else c.

Definition str_lower (s : list Ascii.ascii) : list Ascii.ascii :=
  map lower_char s.

(** [s.replace(old, new)] for single characters, given by their codes *)
Definition str_replace (old new : nat) (s : list Ascii.ascii) : list Ascii.ascii :=
  map (fun c => if (code c =? old)%nat then Ascii.ascii_of_nat new else c) s.

(** [s.replace(old, '')] *)
Definition str_remove (old : nat) (s : list Ascii.ascii) : list Ascii.ascii :=
  List.filter (fun c => negb (code c =? old)%nat) s.

(** [s.split(sep)[0]] *)
Fixpoint str_before (sep : nat) (s : list Ascii.ascii) : list Ascii.ascii :=
  match s with
  | [] => []
  | c :: s' => if (code c =? sep)%nat then [] else c :: str_before sep s'
  end.

(** The characters [strip] removes: tab, line feed, vertical tab, form
    feed, carriage return, the four separators 28..31 and the space. *)
Definition is_space (c : Ascii.ascii) : bool :=
  (((9 <=? code c) && (code c <=? 13)) || ((28 <=? code c) && (code c <=? 32)))%nat.

Fixpoint str_lstrip (s : list Ascii.ascii) : list Ascii.ascii :=
  match s with
  | [] => []
  | c :: s' => if is_space c then str_lstrip s' else s
  end.

(** [s.strip()] *)
Definition str_strip (s : list Ascii.ascii) : list Ascii.ascii :=
  rev (str_lstrip (rev (str_lstrip s))).

(** [clean_col_name(col)]:
    [col.lower().replace(' ', '_').replace(':', '').replace('.', '')
        .replace('-', '_').split('(')[0].strip()] *)
Definition clean_col_chars (col : list Ascii.ascii) : list Ascii.ascii :=
  str_strip
    (str_before 40
       (str_replace 45 95
          (str_remove 46
             (str_remove 58
                (str_replace 32 95 (str_lower col)))))).

Definition clean_col_name (col : string) : string :=
  String.string_of_list_ascii (clean_col_chars (String.list_ascii_of_string col)).

(** The character codes a cleaned name is made of: ASCII, no upper-case
    letter, none of the space, ':', '.', '-' and '('. *)
Definition clean_code (n : nat) : Prop :=
  (n < 128 /\ ~ (65 <= n <= 90) /\
   n <> 32 /\ n <> 58 /\ n <> 46 /\ n <> 45 /\ n <> 40)%nat.

(** *** [fetch_weather_forecast] (agents/inflow_agent.py)

    [weather_15min] is what the request, the resampling to 15 minutes and
    the [dropna] give: rows of time stamp, rain_mm and snow_cm, or the
    exception raised on the way.  The handler builds the zero forecast;
    it reads the last time stamp of the history again and so raises itself
    on an empty history. *)
Definition fetch_weather_forecast (self : InflowAgent)
    (weather_15min : res (list (Z * (R * R)))) (n_steps : nat)
  : res (list (Z * (R * R))) :=
  try_except
    (rows <-- weather_15min ;;
     last_op_time <-- pd.iloc_last (pd.index (inflow_history_df self)) ;;
     let future_index :=
       pd.date_range (last_op_time + pd.minutes15) n_steps in
     Ok (take n_steps
           (List.filter (fun r => bool_decide (fst r ∈ future_index)) rows)))
    (fun e =>
     last_op_time <-- pd.iloc_last (pd.index (inflow_history_df self)) ;;
     let future_index :=
       pd.date_range (last_op_time + pd.minutes15) n_steps in
     Ok (map (fun t => (t, (0, 0))) future_index)).

(** *** The recursion the forecast loops amount to

    The feature row of a forecast step for given lag values, and the
    series obtained by feeding each prediction back as all three lags. *)
Definition step_features (target_col : string) (a b c : R) (t : Z)
  : list (string * option R) :=
  [ (lag_column target_col 1, Some a);
    (lag_column target_col 4, Some b);
    (lag_column target_col 24, Some c);
    ("hour", Some (IZR (pd.hour t)));
    ("dayofweek", Some (IZR (pd.dayofweek t))) ].

Fixpoint fed_back (predict1 : list (string * option R) -> R)
    (target_col : string) (v : R) (ts : list Z) : list R :=
  match ts with
  | [] => []
  | t :: ts' =>
      let v' := predict1 (step_features target_col v v v t) in
      v' :: fed_back predict1 target_col v' ts'
  end.

Definition first_then_fed_back (predict1 : list (string * option R) -> R)
    (target_col : string) (a b c : R) (ts : list Z) : list R :=
  match ts with
  | [] => []
  | t :: ts' =>
      let v := predict1 (step_features target_col a b c t) in
      v :: fed_back predict1 target_col v ts'
  end.

(** A cleaned history of 26 rows whose inflow and price in row [i] are
    both [i], the agents over it, and a regressor that predicts the first
    feature of the row it is given plus one. *)
Definition history_26_rows : pd.DataFrame R :=
  pd.mkDataFrame (pd.date_range 0 26)
    ["inflow_to_tunnel_f1"; "electricity_price_1_high"]
    (fun i c => INR i).

Definition price_agent_26_rows : PriceAgent :=
  mkPriceAgent history_26_rows "electricity_price_1_high"
    TUNNEL_CONSTANTS.NORDPOOL_AREA.

Definition inflow_agent_26_rows : InflowAgent :=
  mkInflowAgent history_26_rows "inflow_to_tunnel_f1".

Definition predict_first_plus_one (model : unit)
    (feats : list (string * option R)) : R :=
  match feats with
  | (_, Some v) :: _ => v + 1
  | _ => 0
  end.

(** The feature columns of a training table built from a history that
    has no feature column of its own. *)
Definition feature_columns (target_col : string) : list string :=
  [ "hour"; "dayofweek"; lag_column target_col 1; lag_column target_col 4;
    lag_column target_col 24 ].

(** A calibration table of three rows that do not lie on one line, and
    the optimizer built with it for two steps. *)
Definition calibration_three_rows : list (R * R) :=
  [(0, 0); (10, 1000); (30, 300000)].

Definition optimizer_three_rows : OptimizationAgent :=
  mkOptimizationAgent 0.5 [0.05; 0.04] [600; 600] 2
    (TUNNEL_CONSTANTS.TIMESTEP_MINUTES / 60.0)
    (call_linear calibration_three_rows)
    (call_linear (swap_table calibration_three_rows)).

(** * Properties *)

(** ** The power model *)

Lemma affine_derivable (f : R -> R) (a b x : R) :
  (forall t, f t = a * t + b) -> derivable_pt_lim f x a.
Proof.
  intros Hf eps Heps. exists (mkposreal 1 Rlt_0_1). intros h Hh _.
  rewrite !Hf.
  replace ((a * (x + h) + b - (a * x + b)) / h - a) with 0
    by (field; exact Hh).
  rewrite Rabs_R0. exact Heps.
Qed.

(** C9: for every flow and level, [calculate_power] is the single formula
    rho g (Q/3600) ((L2 - L1) + H_friction) / (eta 1000) with rho = 1000,
    g = 9.81, L2 = 40, H_friction = 1 and eta = 0.80; it is a polynomial
    in the flow and the level, with the partial derivatives shown, so no
    level makes it fail or jump. *)
Theorem calculate_power_single_formula :
  (forall Q L1 : R,
     calculate_power Q L1
     = 1000 * 9.81 * (Q / 3600) * ((40 - L1) + 1) / (0.80 * 1000)) /\
  (forall Q L1 : R, calculate_power Q L1 = 0.00340625 * Q * (41 - L1)) /\
  (forall Q L1 : R,
     derivable_pt_lim (fun q => calculate_power q L1) Q (0.00340625 * (41 - L1))) /\
  (forall Q L1 : R,
     derivable_pt_lim (fun l => calculate_power Q l) L1 (- (0.00340625 * Q))).
Proof.
  assert (Hpoly : forall Q L1 : R,
             calculate_power Q L1 = 0.00340625 * Q * (41 - L1)).
  { intros Q L1. unfold calculate_power, TUNNEL_CONSTANTS.L2_LEVEL. lra. }
  repeat split; try exact Hpoly.
  - intros Q L1. rewrite Hpoly. lra.
  - intros Q L1. apply affine_derivable with (b := 0).
    intros t. rewrite Hpoly. lra.
  - intros Q L1. apply affine_derivable with (b := 0.00340625 * Q * 41).
    intros t. rewrite Hpoly. lra.
Qed.

(** ** The tank geometry without a calibration table *)

(** C8: when the calibration file is not found,
    [get_level_volume_interpolator] returns volume_of(L) = 10000 L + 350
    and level_of(V) = (V - 350) / 10000; the two are inverse to each other
    at every real and both are strictly increasing. *)
Theorem fallback_geometry_affine_inverse :
  exists volume_of level_of : R -> R,
    get_level_volume_interpolator (Raise FileNotFoundError)
      = Ok (volume_of, level_of) /\
    (forall L : R, volume_of L = 10000 * L + 350) /\
    (forall V : R, level_of V = (V - 350) / 10000) /\
    (forall x : R, level_of (volume_of x) = x) /\
    (forall x : R, volume_of (level_of x) = x) /\
    (forall x y : R, x < y -> volume_of x < volume_of y) /\
    (forall x y : R, x < y -> level_of x < level_of y).
Proof.
  exists (fun L1 => 10000 * L1 + 350), (fun V => (V - 350) / 10000).
  repeat split; intros; try lra.
Qed.

(** ** The lag update of the recursive forecast *)

Lemma lag_column_inj (target_col : string) (a b : Z) :
  lag_column target_col a = lag_column target_col b -> a = b.
Proof.
  unfold lag_column. intros H.
  apply (inj (String.app target_col)) in H.
  apply (inj (String.app "_lag_")) in H.
  apply (inj pretty) in H. exact H.
Qed.

Lemma sorted_reverse_lags : sorted_reverse [24; 4; 1]%Z = [24; 4; 1]%Z.
Proof. reflexivity. Qed.

(** With no key for lag 23 or lag 3 in the state, every lag that has a
    key receives the fresh prediction. *)
Lemma update_lags_no_predecessor (target_col : string) (next_value : R)
    (last_values : gmap string R) :
  last_values !! lag_column target_col 23 = None ->
  last_values !! lag_column target_col 3 = None ->
  is_Some (last_values !! lag_column target_col 24) ->
  is_Some (last_values !! lag_column target_col 4) ->
  update_lags target_col next_value last_values
  = <[lag_column target_col 1 := next_value]>
      (<[lag_column target_col 4 := next_value]>
         (<[lag_column target_col 24 := next_value]> last_values)).
Proof.
  intros H23 H3 [v24 H24] [v4 H4].
  unfold update_lags. rewrite sorted_reverse_lags. cbn [foldl].
  replace (24 - 1)%Z with 23%Z by lia. replace (4 - 1)%Z with 3%Z by lia.
  change (1 <? 24)%Z with true. change (1 <? 4)%Z with true.
  change (1 <? 1)%Z with false. cbn [mbind option_bind].
  rewrite H23, H24.
  assert (N3 : lag_column target_col 24 <> lag_column target_col 3)
    by (intros E; apply lag_column_inj in E; lia).
  assert (N4 : lag_column target_col 24 <> lag_column target_col 4)
    by (intros E; apply lag_column_inj in E; lia).
  rewrite (lookup_insert_ne _ _ _ _ N3), H3.
  rewrite (lookup_insert_ne _ _ _ _ N4), H4.
  destruct (<[lag_column target_col 4:=next_value]>
              (<[lag_column target_col 24:=next_value]> last_values)
            !! lag_column target_col 1) eqn:E1.
  - rewrite insert_insert_eq. reflexivity.
  - reflexivity.
Qed.

(** The code's rule for one lag [L > 1], run on a state [m]. *)
Lemma update_lags_unfold (target_col : string) (next_value : R)
    (last_values : gmap string R) :
  let step (L : Z) (m : gmap string R) : gmap string R :=
    match m !! lag_column target_col (L - 1) with
    | Some v => <[lag_column target_col L := v]> m
    | None => match m !! lag_column target_col L with
              | Some _ => <[lag_column target_col L := next_value]> m
              | None => m
              end
    end in
  update_lags target_col next_value last_values
  = <[lag_column target_col 1 := next_value]> (step 4%Z (step 24%Z last_values)).
Proof.
  intros step. unfold update_lags. rewrite sorted_reverse_lags. cbn [foldl].
  change (1 <? 24)%Z with true. change (1 <? 4)%Z with true.
  change (1 <? 1)%Z with false. cbn [mbind option_bind].
  fold (step 24%Z last_values). fold (step 4%Z (step 24%Z last_values)).
  destruct (step 4%Z (step 24%Z last_values) !! lag_column target_col 1) eqn:E.
  - rewrite insert_insert_eq. reflexivity.
  - reflexivity.
Qed.

Ltac lag_ne :=
  let E := fresh in
  intros E; apply lag_column_inj in E; lia.

(** C2 (as amended): in one pass of the lag update, with lags taken as
    24, 4, 1, the value at lag L becomes the value the state holds under
    the key of lag L-1 when it holds one, and the fresh prediction
    otherwise; lag 1 receives the fresh prediction and no other key
    changes.  A state with keys for lags 24 and 4 and none for lags 23
    and 3, as both forecasters build it, therefore has the fresh
    prediction at all three lags after the pass. *)
Theorem update_lags_rule (target_col : string) (next_value : R)
    (last_values : gmap string R) :
  let after := update_lags target_col next_value last_values in
  (forall v, last_values !! lag_column target_col 23 = Some v ->
             after !! lag_column target_col 24 = Some v) /\
  (forall v, last_values !! lag_column target_col 3 = Some v ->
             after !! lag_column target_col 4 = Some v) /\
  (last_values !! lag_column target_col 23 = None ->
   is_Some (last_values !! lag_column target_col 24) ->
   after !! lag_column target_col 24 = Some next_value) /\
  (last_values !! lag_column target_col 3 = None ->
   is_Some (last_values !! lag_column target_col 4) ->
   after !! lag_column target_col 4 = Some next_value) /\
  after !! lag_column target_col 1 = Some next_value /\
  (forall k, k <> lag_column target_col 24 -> k <> lag_column target_col 4 ->
             k <> lag_column target_col 1 -> after !! k = last_values !! k).
Proof.
  intros after. subst after. rewrite update_lags_unfold. cbv zeta.
  replace (24 - 1)%Z with 23%Z by lia. replace (4 - 1)%Z with 3%Z by lia.
  assert (N1_4 : lag_column target_col 1 <> lag_column target_col 4) by lag_ne.
  assert (N1_24 : lag_column target_col 1 <> lag_column target_col 24) by lag_ne.
  assert (N4_24 : lag_column target_col 4 <> lag_column target_col 24) by lag_ne.
  assert (N24_3 : lag_column target_col 24 <> lag_column target_col 3) by lag_ne.
  assert (N24_4 : lag_column target_col 24 <> lag_column target_col 4) by lag_ne.
  repeat split.
  - intros v H23. rewrite H23.
    rewrite lookup_insert_ne by exact N1_24.
    destruct (<[lag_column target_col 24:=v]> last_values
              !! lag_column target_col 3) eqn:E3.
    + rewrite lookup_insert_ne by exact N4_24. apply lookup_insert_eq.
    + destruct (<[lag_column target_col 24:=v]> last_values
                !! lag_column target_col 4) eqn:E4.
      * rewrite lookup_insert_ne by exact N4_24. apply lookup_insert_eq.
      * apply lookup_insert_eq.
  - intros v H3. rewrite lookup_insert_ne by exact N1_4.
    assert (E : forall m : gmap string R,
               m !! lag_column target_col 3 = Some v ->
               match m !! lag_column target_col 3 with
               | Some v0 => <[lag_column target_col 4:=v0]> m
               | None => match m !! lag_column target_col 4 with
                         | Some _ => <[lag_column target_col 4:=next_value]> m
                         | None => m
                         end
               end !! lag_column target_col 4 = Some v).
    { intros m Hm. rewrite Hm. apply lookup_insert_eq. }
    apply E.
    destruct (last_values !! lag_column target_col 23);
      [rewrite lookup_insert_ne by exact N24_3; exact H3 |].
    destruct (last_values !! lag_column target_col 24);
      [rewrite lookup_insert_ne by exact N24_3; exact H3 | exact H3].
  - intros H23 [v24 H24]. rewrite H23, H24.
    rewrite lookup_insert_ne by exact N1_24.
    destruct (<[lag_column target_col 24:=next_value]> last_values
              !! lag_column target_col 3) eqn:E3.
    + rewrite lookup_insert_ne by exact N4_24. apply lookup_insert_eq.
    + destruct (<[lag_column target_col 24:=next_value]> last_values
                !! lag_column target_col 4) eqn:E4.
      * rewrite lookup_insert_ne by exact N4_24. apply lookup_insert_eq.
      * apply lookup_insert_eq.
  - intros H3 [v4 H4]. rewrite lookup_insert_ne by exact N1_4.
    assert (E : forall m : gmap string R,
               m !! lag_column target_col 3 = None ->
               m !! lag_column target_col 4 = Some v4 ->
               match m !! lag_column target_col 3 with
               | Some v0 => <[lag_column target_col 4:=v0]> m
               | None => match m !! lag_column target_col 4 with
                         | Some _ => <[lag_column target_col 4:=next_value]> m
                         | None => m
                         end
               end !! lag_column target_col 4 = Some next_value).
    { intros m Hm3 Hm4. rewrite Hm3, Hm4. apply lookup_insert_eq. }
    apply E.
    + destruct (last_values !! lag_column target_col 23);
        [rewrite lookup_insert_ne by exact N24_3; exact H3 |].
      destruct (last_values !! lag_column target_col 24);
        [rewrite lookup_insert_ne by exact N24_3; exact H3 | exact H3].
    + destruct (last_values !! lag_column target_col 23);
        [rewrite lookup_insert_ne by exact N24_4; exact H4 |].
      destruct (last_values !! lag_column target_col 24);
        [rewrite lookup_insert_ne by exact N24_4; exact H4 | exact H4].
  - apply lookup_insert_eq.
  - intros k K24 K4 K1.
    rewrite lookup_insert_ne by (intros E; apply K1; symmetry; exact E).
    assert (S : forall (L : Z) (m : gmap string R),
               k <> lag_column target_col L ->
               match m !! lag_column target_col (L - 1) with
               | Some v0 => <[lag_column target_col L:=v0]> m
               | None => match m !! lag_column target_col L with
                         | Some _ => <[lag_column target_col L:=next_value]> m
                         | None => m
                         end
               end !! k = m !! k).
    { intros L m Hk.
      destruct (m !! lag_column target_col (L - 1));
        [apply lookup_insert_ne; intros E; apply Hk; symmetry; exact E |].
      destruct (m !! lag_column target_col L);
        [apply lookup_insert_ne; intros E; apply Hk; symmetry; exact E
        | reflexivity]. }
    change 3%Z with (4 - 1)%Z. rewrite (S 4%Z) by exact K4.
    change 23%Z with (24 - 1)%Z. rewrite (S 24%Z) by exact K24.
    reflexivity.
Qed.

(** On the example state the pass gives lag 24 the prediction 9, not the
    value 2 that lag 4 held: the update is not a shift within the lag
    set. *)
Lemma update_lags_not_shift_within_lag_set :
  ~ shifts_within_lag_set "inflow_to_tunnel_f1" 9 lag_state_example
      (update_lags "inflow_to_tunnel_f1" 9 lag_state_example).
Proof.
  intros [H24 _].
  rewrite update_lags_no_predecessor in H24;
    [| reflexivity | reflexivity | exists 3; reflexivity
     | exists 2; reflexivity].
  rewrite lookup_insert_ne in H24 by lag_ne.
  rewrite lookup_insert_ne in H24 by lag_ne.
  rewrite lookup_insert_eq in H24.
  assert (E : lag_state_example !! lag_column "inflow_to_tunnel_f1" 4 = Some 2)
    by reflexivity.
  rewrite E in H24. injection H24 as H24. lra.
Qed.

Lemma update_lags_rule_witness :
  update_lags "inflow_to_tunnel_f1" 9 lag_state_example
    !! lag_column "inflow_to_tunnel_f1" 24 = Some 9 /\
  update_lags "inflow_to_tunnel_f1" 9 lag_state_example
    !! lag_column "inflow_to_tunnel_f1" 4 = Some 9 /\
  update_lags "inflow_to_tunnel_f1" 9 lag_state_example
    !! lag_column "inflow_to_tunnel_f1" 1 = Some 9.
Proof.
  destruct (update_lags_rule "inflow_to_tunnel_f1" 9 lag_state_example)
    as (_ & _ & R24 & R4 & R1 & _).
  split; [| split].
  - apply R24; [reflexivity | exists 3; reflexivity].
  - apply R4; [reflexivity | exists 2; reflexivity].
  - exact R1.
Defined.

(** ** The optimizer never returns *)

Lemma inflow_forecast_unbound :
  load_global optimization_agent_globals "inflow_forecast"
  = Raise (NameError "inflow_forecast").
Proof. reflexivity. Qed.

(** The level is an intermediate, so the request to fix it is refused,
    whatever the model, the value and the position. *)
Lemma fix_L1_refused (m : gekko.Model) (val : R) (pos : Z) :
  gekko.m_fix m gekko.obj_L1 val pos = Raise TypeError.
Proof. reflexivity. Qed.

(** [solve_mpc] raises before its [try]: on [F1_h[0]] for an empty inflow
    forecast, on the fix of the level otherwise. *)
Lemma solve_mpc_raises (solve : gekko.Model -> res gekko.Solution)
    (globals : gmap string pyobj) (self : OptimizationAgent) :
  solve_mpc solve globals self
  = match inflow_15min self with
    | [] => Raise IndexError
    | _ :: _ => Raise TypeError
    end.
Proof.
  unfold solve_mpc. destruct (inflow_15min self) as [| x rest]; reflexivity.
Qed.

(** The [try] block itself, run with the globals of its module on any
    model, returns [None] whatever the solve does: building the result
    table looks up the name inflow_forecast, which the module does not
    bind, and the handler catches the NameError. *)
Lemma solve_and_report_module_globals
    (solve : gekko.Model -> res gekko.Solution) (self : OptimizationAgent)
    (m : gekko.Model) :
  solve_and_report solve optimization_agent_globals self m = Ok None.
Proof.
  unfold solve_and_report, try_except.
  destruct (solve m) as [sol | e]; cbn [rbind]; [| reflexivity].
  rewrite inflow_forecast_unbound. reflexivity.
Qed.

(** C1 (the code departs from it): the method should return the
    trajectory when the solve succeeds and the failure signal otherwise.
    [solve_mpc] returns neither, for every solver (also one that succeeds
    on every model), all module globals and every agent: it raises
    IndexError for an empty inflow forecast and TypeError otherwise, before
    the solver is called. *)
Theorem solve_mpc_never_returns_trajectory
    (solve : gekko.Model -> res gekko.Solution) (globals : gmap string pyobj)
    (self : OptimizationAgent) :
  match inflow_15min self with
  | [] => solve_mpc solve globals self = Raise IndexError
  | _ :: _ => solve_mpc solve globals self = Raise TypeError
  end /\
  forall r, solve_mpc solve globals self <> Ok r.
Proof.
  rewrite solve_mpc_raises.
  destruct (inflow_15min self) as [| x rest]; split;
    first [reflexivity | intros r E; discriminate].
Qed.

(** The optimizer of two steps with a solve that succeeds on every
    model. *)
Lemma solve_mpc_never_returns_trajectory_witness :
  (forall m, exists sol, solve_holding m = Ok sol) /\
  solve_mpc solve_holding optimization_agent_globals optimizer_calibrated
  = Raise TypeError.
Proof.
  split; [intros m; eexists; reflexivity |].
  exact (proj1 (solve_mpc_never_returns_trajectory solve_holding
                  optimization_agent_globals optimizer_calibrated)).
Defined.

(** C7 (the code departs from it): the level at the last step should be
    held at the drawdown target 0.5.  The code asks GEKKO to fix the level
    at position [horizon - 1], but the level is an intermediate and GEKKO
    fixes parameters and variables only: for every agent with an inflow
    forecast the request raises TypeError, and so does [solve_mpc],
    whatever the solver and the module globals.  No model with the
    terminal level fixed is ever solved. *)
Theorem terminal_level_fix_raises
    (solve : gekko.Model -> res gekko.Solution) (globals : gmap string pyobj)
    (self : OptimizationAgent) (x : R) (rest : list R) :
  inflow_15min self = x :: rest ->
  let m := mpc_model self (map (fun x => x * 4) (inflow_15min self)) (x * 4) in
  gekko.kind_of gekko.obj_L1 = gekko.GK_Intermediate /\
  gekko.fixed m = [] /\
  gekko.m_fix m gekko.obj_L1 0.5 (Z.of_nat (horizon self) - 1) = Raise TypeError /\
  solve_mpc solve globals self = Raise TypeError.
Proof.
  intros Hin. cbv zeta. rewrite solve_mpc_raises, Hin.
  repeat split.
Qed.

Lemma terminal_level_fix_raises_witness :
  gekko.m_fix (mpc_model optimizer_calibrated [600 * 4; 600 * 4] (600 * 4))
    gekko.obj_L1 0.5 (Z.of_nat 2 - 1) = Raise TypeError /\
  solve_mpc solve_holding optimization_agent_globals optimizer_calibrated
  = Raise TypeError.
Proof.
  destruct (terminal_level_fix_raises solve_holding optimization_agent_globals
              optimizer_calibrated 600 [600] eq_refl)
    as (_ & _ & Hfix & Hrun).
  split; [exact Hfix | exact Hrun].
Defined.

(** ** Sequencing *)

Lemma rbind_Ok {A B : Type} (c : res A) (k : A -> res B) (b : B) :
  rbind c k = Ok b -> exists a, c = Ok a /\ k a = Ok b.
Proof.
  destruct c as [a | e]; cbn; intros H; [exists a; auto | discriminate].
Qed.

(** ** Tables: lag construction and [dropna] *)

Lemma col_values_length {A : Type} (df : pd.DataFrame A) (c : string) :
  length (pd.col_values df c) = pd.nrows df.
Proof. unfold pd.col_values. rewrite length_map, length_seq. reflexivity. Qed.

Lemma shift_lookup_None (lag i : nat) (xs : list (option R)) :
  (i < lag)%nat -> (i < length xs)%nat -> pd.shift lag xs !! i = Some None.
Proof.
  intros Hlag Hlen. unfold pd.shift.
  rewrite lookup_take_lt by exact Hlen.
  rewrite lookup_app_l by (rewrite length_replicate; exact Hlag).
  apply lookup_replicate_2. exact Hlag.
Qed.

Lemma setitem_columns_new {A : Type} (df : pd.DataFrame A) c vals :
  c ∈ pd.columns (pd.setitem df c vals).
Proof.
  unfold pd.setitem. cbn. case_bool_decide as Hc; [exact Hc |].
  apply elem_of_app. right. apply list_elem_of_singleton. reflexivity.
Qed.

Lemma setitem_columns_old {A : Type} (df : pd.DataFrame A) c vals k :
  k ∈ pd.columns df -> k ∈ pd.columns (pd.setitem df c vals).
Proof.
  intros Hk. unfold pd.setitem. cbn. case_bool_decide; [exact Hk |].
  apply elem_of_app. left. exact Hk.
Qed.

Lemma setitem_cell_other {A : Type} (df : pd.DataFrame A) c vals i k :
  k <> c -> pd.cell (pd.setitem df c vals) i k = pd.cell df i k.
Proof.
  intros Hk. unfold pd.setitem. cbn. rewrite bool_decide_eq_false_2 by exact Hk.
  reflexivity.
Qed.

Lemma setitem_cell_same {A : Type} (df : pd.DataFrame A) c vals i v :
  vals !! i = Some v -> pd.cell (pd.setitem df c vals) i c = v.
Proof.
  intros Hv. unfold pd.setitem. cbn. rewrite bool_decide_eq_true_2 by reflexivity.
  rewrite Hv. reflexivity.
Qed.

Lemma with_calendar_index df : pd.index (with_calendar df) = pd.index df.
Proof. reflexivity. Qed.

Lemma with_calendar_columns df k :
  k ∈ pd.columns df -> k ∈ pd.columns (with_calendar df).
Proof.
  intros Hk. unfold with_calendar. do 2 apply setitem_columns_old. exact Hk.
Qed.

Lemma with_calendar_has_hour df : "hour" ∈ pd.columns (with_calendar df).
Proof.
  unfold with_calendar. apply setitem_columns_old, setitem_columns_new.
Qed.

Lemma with_calendar_has_dayofweek df :
  "dayofweek" ∈ pd.columns (with_calendar df).
Proof. unfold with_calendar. apply setitem_columns_new. Qed.

(** The lag construction fails only for a missing target column; when it
    succeeds the table keeps its rows and columns, gains the three lag
    columns, and the lag-24 cell of each of the first 24 rows is missing. *)
Lemma with_lags_Ok (target_col : string) (df : pd.DataFrame (option R)) :
  target_col ∈ pd.columns df ->
  exists df',
    with_lags target_col df = Ok df' /\
    pd.index df' = pd.index df /\
    (forall k, k ∈ pd.columns df -> k ∈ pd.columns df') /\
    lag_column target_col 1 ∈ pd.columns df' /\
    lag_column target_col 4 ∈ pd.columns df' /\
    lag_column target_col 24 ∈ pd.columns df' /\
    (forall i, (i < 24)%nat -> (i < pd.nrows df)%nat ->
               pd.cell df' i (lag_column target_col 24) = None).
Proof.
  intros Ht. unfold with_lags. cbn [for_each].
  set (df1 := pd.setitem df (lag_column target_col 1)
                (pd.shift (Z.to_nat 1) (pd.col_values df target_col))).
  set (df2 := pd.setitem df1 (lag_column target_col 4)
                (pd.shift (Z.to_nat 4) (pd.col_values df1 target_col))).
  set (df3 := pd.setitem df2 (lag_column target_col 24)
                (pd.shift (Z.to_nat 24) (pd.col_values df2 target_col))).
  assert (H1 : target_col ∈ pd.columns df1) by (apply setitem_columns_old; exact Ht).
  assert (H2 : target_col ∈ pd.columns df2) by (apply setitem_columns_old; exact H1).
  exists df3. split.
  { unfold pd.getitem at 1. rewrite bool_decide_eq_true_2 by exact Ht.
    cbn [rbind]. fold df1.
    unfold pd.getitem at 1. rewrite bool_decide_eq_true_2 by exact H1.
    cbn [rbind]. fold df2.
    unfold pd.getitem at 1. rewrite bool_decide_eq_true_2 by exact H2.
    cbn [rbind]. reflexivity. }
  split; [reflexivity |].
  split; [intros k Hk; do 3 apply setitem_columns_old; exact Hk |].
  split; [do 2 apply setitem_columns_old; apply setitem_columns_new |].
  split; [apply setitem_columns_old, setitem_columns_new |].
  split; [apply setitem_columns_new |].
  intros i Hi Hn. apply setitem_cell_same.
  apply shift_lookup_None; [exact Hi |].
  rewrite col_values_length. exact Hn.
Qed.

Lemma with_lags_missing_target (target_col : string) (df : pd.DataFrame (option R)) :
  target_col ∉ pd.columns df ->
  with_lags target_col df = Raise (KeyError target_col).
Proof.
  intros Ht. unfold with_lags. cbn [for_each].
  unfold pd.getitem at 1. rewrite bool_decide_eq_false_2 by exact Ht.
  reflexivity.
Qed.

Lemma filter_nil_of_all_false {X : Type} (f : X -> bool) (xs : list X) :
  (forall x, In x xs -> f x = false) -> List.filter f xs = [].
Proof.
  induction xs as [| x xs IH]; intros H; [reflexivity |].
  cbn. rewrite (H x) by (left; reflexivity).
  apply IH. intros y Hy. apply H. right. exact Hy.
Qed.

(** A row with a missing cell in one of the table's columns is dropped;
    if that holds for every row, nothing is left. *)
Lemma dropna_empty (df : pd.DataFrame (option R)) (c : string) :
  c ∈ pd.columns df ->
  (forall i, (i < pd.nrows df)%nat -> pd.cell df i c = None) ->
  pd.nrows (pd.dropna df) = O.
Proof.
  intros Hc Hnone. unfold pd.dropna, pd.nrows at 1. cbn [pd.index].
  rewrite filter_nil_of_all_false; [reflexivity |].
  intros i Hi. apply in_seq in Hi.
  unfold pd.row_complete. apply not_true_is_false. intros Hall.
  rewrite forallb_forall in Hall.
  specialize (Hall c). rewrite Hnone in Hall by lia.
  assert (Hin : In c (pd.columns df)) by (apply list_elem_of_In; exact Hc).
  specialize (Hall Hin). apply bool_decide_eq_true_1 in Hall.
  destruct Hall as [x Hx]. discriminate.
Qed.

Lemma getitem_cols_filter {A : Type} (df : pd.DataFrame A) (f : string -> bool) :
  pd.getitem_cols df (List.filter f (pd.columns df))
  = Ok (pd.mkDataFrame (pd.index df) (List.filter f (pd.columns df)) (pd.cell df)).
Proof.
  unfold pd.getitem_cols.
  destruct (list_find _ _) as [[i c] |] eqn:E; [| reflexivity].
  apply list_find_Some in E. destruct E as (Hc & Hnot & _).
  exfalso. apply Hnot.
  apply list_elem_of_lookup_2 in Hc. apply list_elem_of_In in Hc.
  apply filter_In in Hc. apply list_elem_of_In. tauto.
Qed.

Lemma copy_columns df k : k ∈ pd.columns df -> k ∈ pd.columns (pd.copy df).
Proof. intros H. exact H. Qed.

(** With at most 24 rows no row survives the lag construction. *)
Lemma lagged_history_no_rows (target_col : string) (df : pd.DataFrame (option R)) :
  target_col ∈ pd.columns df ->
  (pd.nrows df <= 24)%nat ->
  exists df',
    with_lags target_col df = Ok df' /\
    pd.index df' = pd.index df /\
    target_col ∈ pd.columns df' /\
    pd.nrows (pd.dropna df') = O.
Proof.
  intros Ht Hn.
  destruct (with_lags_Ok target_col df Ht)
    as (df' & Hok & Hidx & Hcols & _ & _ & H24 & Hnone).
  exists df'. split; [exact Hok |]. split; [exact Hidx |].
  split; [apply Hcols, Ht |].
  apply (dropna_empty df' (lag_column target_col 24) H24).
  intros i Hi. unfold pd.nrows in Hi. rewrite Hidx in Hi.
  apply Hnone; [unfold pd.nrows in Hn; lia | exact Hi].
Qed.

Section ForecastFallback.
Variable Regressor : Type.
Variable fit : pd.DataFrame R -> list R -> res Regressor.
Variable predict : Regressor -> list (string * option R) -> R.

(** C3 (the inflow forecaster departs from it): with a history too short
    to give one training row the forecast should be H copies of the last
    known value; [forecast_inflow] has no such branch and raises, whatever
    the regressor does with the empty training table. *)
Theorem forecast_inflow_short_history_raises (self : InflowAgent)
    (weather_forecast : res (list (Z * (R * R)))) (n_steps : nat) :
  (pd.nrows (inflow_history_df self) <= 24)%nat ->
  exists e : exn,
    forecast_inflow Regressor fit predict self weather_forecast n_steps
    = Raise e.
Proof.
  intros Hn. unfold forecast_inflow.
  set (df := with_calendar (pd.copy (inflow_history_df self))).
  destruct (decide (inflow_target_col self ∈ pd.columns df)) as [Ht | Ht].
  - destruct (lagged_history_no_rows _ df Ht Hn)
      as (df' & Hok & _ & Htc & Hempty).
    rewrite Hok. cbn [rbind].
    rewrite getitem_cols_filter. cbn [rbind].
    destruct (pd.getitem _ _) as [y_train | e]; cbn [rbind];
      [| exists e; reflexivity].
    destruct (fit _ _) as [model | e]; cbn [rbind]; [| exists e; reflexivity].
    destruct (pd.iloc_last _) as [last_op_time | e]; cbn [rbind];
      [| exists e; reflexivity].
    unfold pd.iloc_last_to_dict.
    change (pd.nrows (pd.mkDataFrame (pd.index (pd.dropna df')) ?c ?f))
      with (pd.nrows (pd.dropna df')).
    rewrite Hempty. cbn [rbind]. exists IndexError. reflexivity.
  - rewrite with_lags_missing_target by exact Ht.
    cbn [rbind]. eexists. reflexivity.
Qed.

(** The price forecaster has the branch: with a history too short to
    give one training row, but not empty, it returns [n_steps] copies of
    the last known price. *)
Lemma price_forecast_short_history_constant (self : PriceAgent)
    (n_steps : nat) (last_price : R) :
  price_target_col self ∈ pd.columns (price_history_df self) ->
  (pd.nrows (price_history_df self) <= 24)%nat ->
  last (pd.col_values (price_history_df self) (price_target_col self))
    = Some last_price ->
  exists s,
    _forecast_with_ml Regressor fit predict self n_steps = Ok s /\
    pd.values s = replicate n_steps last_price /\
    length (pd.s_index s) = n_steps.
Proof.
  intros Ht Hn Hlast. unfold _forecast_with_ml, _create_features.
  set (df := with_calendar (pd.copy (price_history_df self))).
  assert (Htd : price_target_col self ∈ pd.columns df)
    by (apply with_calendar_columns, copy_columns, Ht).
  destruct (lagged_history_no_rows _ df Htd Hn)
    as (df' & Hok & _ & Htc & Hempty).
  rewrite Hok. cbn [rbind].
  rewrite getitem_cols_filter. cbn [rbind].
  unfold pd.getitem at 1.
  rewrite bool_decide_eq_true_2 by exact Htc. cbn [rbind].
  change (pd.nrows (pd.mkDataFrame (pd.index (pd.dropna df')) ?c ?f))
    with (pd.nrows (pd.dropna df')).
  rewrite Hempty. cbn [Nat.eqb].
  unfold pd.getitem. rewrite bool_decide_eq_true_2 by exact Ht. cbn [rbind].
  unfold pd.iloc_last at 1. rewrite Hlast. cbn [rbind].
  assert (Hidx : is_Some (last (pd.index (price_history_df self)))).
  { apply last_is_Some. intros Hnil.
    assert (Hcol : pd.col_values (price_history_df self) (price_target_col self)
                   = []).
    { unfold pd.col_values, pd.nrows. rewrite Hnil. reflexivity. }
    rewrite Hcol in Hlast. discriminate. }
  destruct Hidx as [t Hidx]. unfold pd.iloc_last. rewrite Hidx. cbn [rbind].
  eexists. split; [reflexivity |].
  unfold pd.Series_of_scalar, pd.date_range. cbn [pd.values pd.s_index].
  rewrite length_map, length_seq. split; reflexivity.
Qed.
End ForecastFallback.

(** On a concrete short history, with a regressor that accepts the empty
    training table, the inflow forecast fails on the last training row. *)
Example forecast_inflow_two_rows_IndexError :
  forecast_inflow unit fit_any predict_minus_one inflow_agent_two_rows
    (Raise OtherError) 96
  = Raise IndexError.
Proof. vm_compute. reflexivity. Qed.

Lemma forecast_inflow_short_history_raises_witness :
  exists e : exn,
    forecast_inflow unit fit_any predict_minus_one inflow_agent_two_rows
      (Raise OtherError) 96
    = Raise e.
Proof.
  apply (forecast_inflow_short_history_raises unit fit_any predict_minus_one
           inflow_agent_two_rows (Raise OtherError) 96).
  vm_compute. lia.
Defined.

(** ** The forecast loop *)

Lemma for_each_appends {X L : Type} (P : R -> Prop)
    (body : X -> L * list R -> res (L * list R)) :
  (forall x lv acc r, body x (lv, acc) = Ok r ->
                      exists v, snd r = acc ++ [v] /\ P v) ->
  forall xs lv acc r,
    for_each xs body (lv, acc) = Ok r ->
    exists out, snd r = acc ++ out /\ length out = length xs /\ Forall P out.
Proof.
  intros Hbody xs. induction xs as [| x xs IH]; intros lv acc r H.
  - cbn in H. injection H as <-. exists []. cbn.
    rewrite app_nil_r. repeat split. constructor.
  - cbn [for_each] in H. apply rbind_Ok in H. destruct H as ([lv' acc'] & Hx & H).
    apply Hbody in Hx. destruct Hx as (v & Hacc & Hv). cbn in Hacc. subst acc'.
    apply IH in H. destruct H as (out & Hout & Hlen & Hall).
    exists (v :: out). rewrite Hout, <- app_assoc. cbn.
    repeat split; [lia |]. constructor; assumption.
Qed.

Lemma py_max0_nonneg (x : R) : 0 <= py_max0 x.
Proof. unfold py_max0. destruct (Rlt_dec 0 x); lra. Qed.

Lemma add_weather_index X_pred weather_forecast :
  pd.index (add_weather X_pred weather_forecast) = pd.index X_pred.
Proof.
  unfold add_weather. destruct weather_forecast as [rows | e]; [| reflexivity].
  destruct (align _ _ _); [| reflexivity].
  destruct (align _ _ _); reflexivity.
Qed.

Lemma date_range_length start periods :
  length (pd.date_range start periods) = periods.
Proof. unfold pd.date_range. rewrite length_map, length_seq. reflexivity. Qed.

Section InflowForecast.
Variable Regressor : Type.
Variable fit : pd.DataFrame R -> list R -> res Regressor.
Variable predict : Regressor -> list (string * option R) -> R.

(** A series returned by [forecast_inflow(n_steps)] has [n_steps] values,
    one per forecast time stamp, none of them negative. *)
Lemma forecast_inflow_shape (self : InflowAgent)
    (weather_forecast : res (list (Z * (R * R)))) (n_steps : nat)
    (s : pd.Series R) :
  forecast_inflow Regressor fit predict self weather_forecast n_steps = Ok s ->
  length (pd.values s) = n_steps /\
  length (pd.s_index s) = n_steps /\
  Forall (fun v => 0 <= v) (pd.values s).
Proof.
  unfold forecast_inflow. intros H.
  apply rbind_Ok in H. destruct H as (df_hist & _ & H).
  apply rbind_Ok in H. destruct H as (X_train & _ & H).
  apply rbind_Ok in H. destruct H as (y_train & _ & H).
  apply rbind_Ok in H. destruct H as (model & _ & H).
  apply rbind_Ok in H. destruct H as (last_op_time & _ & H).
  apply rbind_Ok in H. destruct H as (X_last & _ & H).
  apply rbind_Ok in H. destruct H as (last_values & _ & H).
  apply rbind_Ok in H. destruct H as (loop & Hloop & H).
  apply for_each_appends with (P := fun v => 0 <= v) in Hloop.
  - destruct Hloop as (out & Hout & Hlen & Hall). cbn in Hout.
    rewrite length_seq in Hlen.
    unfold pd.Series_of_list in H.
    destruct (_ =? _)%nat; [| discriminate].
    injection H as <-. cbn [pd.values pd.s_index].
    rewrite Hout, add_weather_index, with_calendar_index. cbn [pd.index].
    rewrite date_range_length. auto.
  - intros i lv acc r Hr.
    apply rbind_Ok in Hr. destruct Hr as (feats & _ & Hr).
    injection Hr as <-. cbn [snd].
    eexists. split; [reflexivity | apply py_max0_nonneg].
Qed.
End InflowForecast.

(** ** Linear interpolation on a calibration table *)

Lemma clip_two (i : nat) : clip i 1 1 = 1%nat.
Proof. unfold clip. lia. Qed.

(** Walking the table: the first segment is used up to its right end,
    and beyond it the rest of the table decides. *)
Lemma call_linear_step (p0 p1 : R * R) (rest : list (R * R)) (x : R) :
  fst p0 <= fst p1 ->
  call_linear (p0 :: p1 :: rest) x
  = match rest with
    | [] => segment p0 p1 x
    | _ :: _ => if Rlt_dec (fst p1) x then call_linear (p1 :: rest) x
                else segment p0 p1 x
    end.
Proof.
  intros Hle. destruct rest as [| p2 rest].
  - unfold call_linear. cbn [map length Nat.sub]. rewrite clip_two. reflexivity.
  - unfold call_linear. cbn [map length searchsorted fst Nat.sub].
    destruct (Rlt_dec (fst p1) x) as [H1 | H1].
    + destruct (Rlt_dec (fst p0) x) as [H0 | H0]; [| lra].
      set (s := match Rlt_dec (fst p2) x with
                | left _ => S (searchsorted (map fst rest) x)
                | right _ => O
                end).
      assert (E : clip (S (S s)) 1 (S (S (length (map fst rest))))
                  = S (clip (S s) 1 (S (length (map fst rest))))).
      { unfold clip. lia. }
      rewrite E.
      assert (Hpos : exists j, clip (S s) 1 (S (length (map fst rest))) = S j).
      { unfold clip. exists (Nat.min s (length (map fst rest))). lia. }
      destruct Hpos as [j Hj]. rewrite Hj.
      cbn [Nat.sub nth]. rewrite Nat.sub_0_r. reflexivity.
    + assert (E : forall i, (i <= 1)%nat ->
                    clip i 1 (S (S (length (map fst rest)))) = 1%nat).
      { intros i Hi. unfold clip. lia. }
      destruct (Rlt_dec (fst p0) x); rewrite E by lia; reflexivity.
Qed.

Lemma segment_right_of_start (p q : R * R) (x : R) :
  fst p < fst q -> snd p < snd q -> fst p < x -> snd p < segment p q x.
Proof.
  intros Hx Hy Hlt. unfold segment.
  assert (0 < (snd q - snd p) / (fst q - fst p))
    by (apply Rdiv_lt_0_compat; lra).
  nra.
Qed.

Lemma segment_left_of_end (p q : R * R) (x : R) :
  fst p < fst q -> snd p < snd q -> x <= fst q -> segment p q x <= snd q.
Proof.
  intros Hx Hy Hle. unfold segment.
  set (k := (snd q - snd p) / (fst q - fst p)).
  assert (Hk : 0 < k) by (apply Rdiv_lt_0_compat; lra).
  assert (Hq : k * (fst q - fst p) = snd q - snd p)
    by (unfold k; field; lra).
  nra.
Qed.

Lemma segment_increasing (p q : R * R) (x y : R) :
  fst p < fst q -> snd p < snd q -> x < y -> segment p q x < segment p q y.
Proof.
  intros Hx Hy Hlt. unfold segment.
  assert (0 < (snd q - snd p) / (fst q - fst p))
    by (apply Rdiv_lt_0_compat; lra).
  nra.
Qed.

Lemma segment_inverse (p q : R * R) (x : R) :
  fst p < fst q -> snd p < snd q ->
  segment (snd p, fst p) (snd q, fst q) (segment p q x) = x.
Proof.
  intros Hx Hy. unfold segment. cbn [fst snd]. field. lra.
Qed.

(** Right of the first sample the interpolant is above its value. *)
Lemma call_linear_above_first (rest : list (R * R)) :
  forall (p0 p1 : R * R) (x : R),
    increasing_table (p0 :: p1 :: rest) ->
    fst p0 < x -> snd p0 < call_linear (p0 :: p1 :: rest) x.
Proof.
  induction rest as [| p2 rest IH]; intros p0 p1 x Hinc Hx.
  - cbn in Hinc. destruct Hinc as (Hl & Hv & _).
    rewrite call_linear_step by lra. apply segment_right_of_start; lra.
  - destruct Hinc as (Hl & Hv & Hinc).
    rewrite call_linear_step by lra.
    destruct (Rlt_dec (fst p1) x) as [H1 | H1].
    + specialize (IH p1 p2 x Hinc H1). lra.
    + apply segment_right_of_start; lra.
Qed.

(** On a calibration table the interpolant is strictly increasing, also
    outside the table's range. *)
Lemma call_linear_increasing (rest : list (R * R)) :
  forall (p0 p1 : R * R) (x y : R),
    increasing_table (p0 :: p1 :: rest) ->
    x < y ->
    call_linear (p0 :: p1 :: rest) x < call_linear (p0 :: p1 :: rest) y.
Proof.
  induction rest as [| p2 rest IH]; intros p0 p1 x y Hinc Hxy.
  - cbn in Hinc. destruct Hinc as (Hl & Hv & _).
    rewrite !call_linear_step by lra. apply segment_increasing; lra.
  - destruct Hinc as (Hl & Hv & Hinc).
    rewrite (call_linear_step p0 p1 (p2 :: rest) x) by lra.
    rewrite (call_linear_step p0 p1 (p2 :: rest) y) by lra.
    destruct (Rlt_dec (fst p1) x) as [Hx | Hx];
      destruct (Rlt_dec (fst p1) y) as [Hy | Hy].
    + apply IH; assumption.
    + lra.
    + pose proof (call_linear_above_first rest p1 p2 y Hinc Hy).
      pose proof (segment_left_of_end p0 p1 x Hl Hv ltac:(lra)). lra.
    + apply segment_increasing; lra.
Qed.

Lemma increasing_swap (ps : list (R * R)) :
  increasing_table ps -> increasing_table (swap_table ps).
Proof.
  induction ps as [| p [| q tl] IH]; intros H; cbn; try exact I.
  destruct H as (Hl & Hv & H). cbn [fst snd]. repeat split; try lra.
  apply IH. exact H.
Qed.

(** The interpolant of the swapped table undoes the interpolant of the
    table. *)
Lemma call_linear_inverse (rest : list (R * R)) :
  forall (p0 p1 : R * R) (x : R),
    increasing_table (p0 :: p1 :: rest) ->
    call_linear (swap_table (p0 :: p1 :: rest))
      (call_linear (p0 :: p1 :: rest) x) = x.
Proof.
  induction rest as [| p2 rest IH]; intros p0 p1 x Hinc.
  - cbn in Hinc. destruct Hinc as (Hl & Hv & _). cbn [swap_table map].
    rewrite (call_linear_step p0 p1 []) by lra.
    rewrite call_linear_step by (cbn; lra).
    apply segment_inverse; lra.
  - pose proof Hinc as (Hl & Hv & Hinc').
    rewrite (call_linear_step p0 p1 (p2 :: rest)) by lra.
    cbn [swap_table map].
    rewrite call_linear_step by (cbn; lra). cbn [fst snd].
    destruct (Rlt_dec (fst p1) x) as [Hx | Hx].
    + pose proof (call_linear_above_first rest p1 p2 x Hinc' Hx) as Habove.
      destruct (Rlt_dec (snd p1) (call_linear (p1 :: p2 :: rest) x)); [| lra].
      apply (IH p1 p2 x Hinc').
    + pose proof (segment_left_of_end p0 p1 x Hl Hv ltac:(lra)) as Hbelow.
      destruct (Rlt_dec (snd p1) (segment p0 p1 x)); [lra |].
      apply segment_inverse; lra.
Qed.

Lemma sort_by_x_sorted (ps : list (R * R)) :
  increasing_table ps -> sort_by_x ps = ps.
Proof.
  induction ps as [| p [| q tl] IH]; intros H; try reflexivity.
  destruct H as (Hl & _ & H).
  change (sort_by_x (p :: q :: tl)) with (insert_by_x p (sort_by_x (q :: tl))).
  rewrite (IH H). cbn [insert_by_x].
  destruct (Rle_dec (fst p) (fst q)); [reflexivity | lra].
Qed.

Lemma combine_fst_snd (ps : list (R * R)) :
  combine (map fst ps) (map snd ps) = ps.
Proof.
  induction ps as [| [a b] ps IH]; [reflexivity |]. cbn. rewrite IH. reflexivity.
Qed.

Lemma combine_snd_fst (ps : list (R * R)) :
  combine (map snd ps) (map fst ps) = swap_table ps.
Proof.
  induction ps as [| [a b] ps IH]; [reflexivity |].
  cbn. rewrite IH. reflexivity.
Qed.

(** With a calibration table the two interpolants are those of the table
    and of the swapped table. *)
Lemma geometry_of_table (tbl : list (R * R)) :
  increasing_table tbl -> (2 <= length tbl)%nat ->
  get_level_volume_interpolator (Ok tbl)
  = Ok (call_linear tbl, call_linear (swap_table tbl)).
Proof.
  intros Hinc Hlen. unfold get_level_volume_interpolator, interp1d.
  cbn [rbind]. rewrite !length_map, Nat.eqb_refl. cbn [negb].
  destruct (length tbl <? 1)%nat eqn:E; [apply Nat.ltb_lt in E; lia |].
  cbn [rbind].
  rewrite combine_fst_snd, combine_snd_fst.
  rewrite (sort_by_x_sorted tbl Hinc).
  rewrite (sort_by_x_sorted (swap_table tbl) (increasing_swap tbl Hinc)).
  reflexivity.
Qed.

(** The geometry the optimizer gets from an admissible calibration file:
    the level map undoes the volume map and the volume map is strictly
    increasing. *)
Lemma geometry_consistent (volume_file : res (list (R * R)))
    (volume_of level_of : R -> R) :
  calibration_ok volume_file ->
  get_level_volume_interpolator volume_file = Ok (volume_of, level_of) ->
  (forall x, level_of (volume_of x) = x) /\
  (forall x y, x < y -> volume_of x < volume_of y).
Proof.
  intros Hok Hget. destruct volume_file as [tbl | e].
  - destruct Hok as (Hinc & Hlen).
    rewrite (geometry_of_table tbl Hinc Hlen) in Hget.
    injection Hget as <- <-.
    destruct tbl as [| p0 [| p1 rest]]; cbn in Hlen; try lia.
    split.
    + intros x. apply call_linear_inverse. exact Hinc.
    + intros x y. apply call_linear_increasing. exact Hinc.
  - destruct e; try contradiction.
    cbn in Hget. injection Hget as <- <-.
    split; intros; lra.
Qed.

(** ** The calibrated optimizer *)

Lemma calibration_two_rows_increasing : increasing_table calibration_two_rows.
Proof. cbn. repeat split; lra. Qed.

(** The first scenario of the specification: on the table
    (0, 0), (30, 300000) the level 15 has volume 150000 and back. *)
Example calibration_two_rows_midpoint :
  call_linear calibration_two_rows 15 = 150000 /\
  call_linear (swap_table calibration_two_rows) 150000 = 15.
Proof.
  unfold calibration_two_rows. cbn [swap_table map fst snd].
  rewrite !call_linear_step by (cbn; lra).
  unfold segment. cbn [fst snd]. split; field.
Qed.

Lemma optimizer_calibrated_init :
  OptimizationAgent_init (Ok calibration_two_rows) 0.5 price_two_steps
    inflow_two_steps 2 = Ok optimizer_calibrated.
Proof.
  unfold OptimizationAgent_init.
  rewrite geometry_of_table;
    [reflexivity | exact calibration_two_rows_increasing | cbn; lia].
Qed.

(** ** The inflow forecast returns when there is a training row *)

Lemma append_empty_r (s : string) : s +:+ "" = s.
Proof.
  induction s as [| c s IH]; [reflexivity |].
  change (String c (s +:+ "") = String c s). rewrite IH. reflexivity.
Qed.

Lemma lag_column_ne_target (target_col : string) (lag : Z) :
  lag_column target_col lag <> target_col.
Proof.
  unfold lag_column. intros E.
  rewrite <- (append_empty_r target_col) in E at 2.
  apply (inj (String.app target_col)) in E. discriminate.
Qed.

Lemma contains_append (sub a b : string) :
  contains sub b = true -> contains sub (a +:+ b) = true.
Proof.
  intros Hb. induction a as [| c a IH]; [exact Hb |].
  change (contains sub (String c (a +:+ b)) = true).
  cbn [contains]. rewrite IH. apply orb_true_r.
Qed.

Lemma lag_column_is_feature (target_col : string) (lag : Z) :
  is_feature (lag_column target_col lag) = true.
Proof.
  unfold is_feature, lag_column. rewrite contains_append; [reflexivity |].
  reflexivity.
Qed.

Lemma map_lookup_Some {A B : Type} (f : A -> B) (l : list A) (i : nat) (y : B) :
  map f l !! i = Some y -> exists x, l !! i = Some x /\ y = f x.
Proof.
  revert i. induction l as [| a l IH]; intros i H; [destruct i; discriminate |].
  destruct i as [| i]; cbn in H.
  - injection H as <-. exists a. split; reflexivity.
  - apply IH in H. exact H.
Qed.

Lemma setitem_cell_is_Some (df : pd.DataFrame (option R)) c vals i :
  (forall k, is_Some (pd.cell df i k)) ->
  (forall v, vals !! i = Some v -> is_Some v) ->
  forall k, is_Some (pd.cell (pd.setitem df c vals) i k).
Proof.
  intros Hdf Hvals k. unfold pd.setitem. cbn [pd.cell].
  case_bool_decide; [| apply Hdf].
  destruct (vals !! i) as [v |] eqn:E; cbn; [apply Hvals; reflexivity | apply Hdf].
Qed.

Lemma with_calendar_cell_is_Some (df : pd.DataFrame (option R)) i :
  (forall k, is_Some (pd.cell df i k)) ->
  forall k, is_Some (pd.cell (with_calendar df) i k).
Proof.
  intros Hdf. unfold with_calendar.
  apply setitem_cell_is_Some; [apply setitem_cell_is_Some; [exact Hdf |] |];
    intros v Hv; apply map_lookup_Some in Hv;
    destruct Hv as (t & _ & ->); eexists; reflexivity.
Qed.

Lemma shift_lookup_ge (lag i : nat) (xs : list (option R)) (v : option R) :
  (lag <= i)%nat -> pd.shift lag xs !! i = Some v -> xs !! (i - lag)%nat = Some v.
Proof.
  intros Hle H. unfold pd.shift in H.
  apply lookup_take_Some in H. destruct H as (H & _).
  rewrite lookup_app_r in H by (rewrite length_replicate; exact Hle).
  rewrite length_replicate in H. exact H.
Qed.

Lemma col_values_lookup {A : Type} (df : pd.DataFrame A) (c : string) (i : nat) (v : A) :
  pd.col_values df c !! i = Some v -> v = pd.cell df i c.
Proof.
  unfold pd.col_values. intros H.
  apply map_lookup_Some in H. destruct H as (j & Hj & ->).
  apply lookup_seq in Hj. destruct Hj as (-> & _). reflexivity.
Qed.

(** One lag column: rows from [lag] on stay complete when the target
    column is complete everywhere. *)
Lemma lag_column_complete (df : pd.DataFrame (option R)) (target_col c : string)
    (lag i : nat) :
  (forall j, is_Some (pd.cell df j target_col)) ->
  (forall k, is_Some (pd.cell df i k)) ->
  (lag <= i)%nat ->
  forall k, is_Some (pd.cell (pd.setitem df c
                                (pd.shift lag (pd.col_values df target_col))) i k).
Proof.
  intros Ht Hi Hle. apply setitem_cell_is_Some; [exact Hi |].
  intros v Hv. apply shift_lookup_ge in Hv; [| exact Hle].
  apply col_values_lookup in Hv. subst v. apply Ht.
Qed.

Lemma with_lags_rows_complete (target_col : string)
    (df df' : pd.DataFrame (option R)) :
  (forall i k, is_Some (pd.cell df i k)) ->
  with_lags target_col df = Ok df' ->
  forall i, (24 <= i)%nat -> forall k, is_Some (pd.cell df' i k).
Proof.
  intros Hdf H i Hi. unfold with_lags in H. cbn [for_each] in H.
  apply rbind_Ok in H. destruct H as (df1 & H1 & H).
  apply rbind_Ok in H1. destruct H1 as (col1 & Hc1 & H1). injection H1 as <-.
  apply rbind_Ok in H. destruct H as (df2 & H2 & H).
  apply rbind_Ok in H2. destruct H2 as (col2 & Hc2 & H2). injection H2 as <-.
  apply rbind_Ok in H. destruct H as (df3 & H3 & H).
  apply rbind_Ok in H3. destruct H3 as (col3 & Hc3 & H3). injection H3 as <-.
  injection H as <-.
  unfold pd.getitem in Hc1, Hc2, Hc3.
  destruct (bool_decide _) in Hc1; [injection Hc1 as <- | discriminate].
  destruct (bool_decide _) in Hc2; [injection Hc2 as <- | discriminate].
  destruct (bool_decide _) in Hc3; [injection Hc3 as <- | discriminate].
  set (df1 := pd.setitem df (lag_column target_col 1)
                (pd.shift (Z.to_nat 1) (pd.col_values df target_col))) in *.
  set (df2 := pd.setitem df1 (lag_column target_col 4)
                (pd.shift (Z.to_nat 4) (pd.col_values df1 target_col))) in *.
  assert (T1 : forall j, is_Some (pd.cell df1 j target_col)).
  { intros j. unfold df1. rewrite setitem_cell_other; [apply Hdf |].
    intros E. symmetry in E. exact (lag_column_ne_target _ _ E). }
  assert (T2 : forall j, is_Some (pd.cell df2 j target_col)).
  { intros j. unfold df2. rewrite setitem_cell_other; [apply T1 |].
    intros E. symmetry in E. exact (lag_column_ne_target _ _ E). }
  apply lag_column_complete; [exact T2 | | lia].
  apply lag_column_complete; [exact T1 | | lia].
  apply lag_column_complete; [intros j; apply Hdf | apply Hdf | lia].
Qed.

Lemma dropna_nonempty (df : pd.DataFrame (option R)) (i : nat) :
  (i < pd.nrows df)%nat ->
  (forall k, is_Some (pd.cell df i k)) ->
  (0 < pd.nrows (pd.dropna df))%nat.
Proof.
  intros Hi Hrow. unfold pd.dropna, pd.nrows at 1. cbn [pd.index].
  rewrite length_map.
  assert (Hin : In i (List.filter (pd.row_complete df) (seq 0 (pd.nrows df)))).
  { apply filter_In. split; [apply in_seq; lia |].
    unfold pd.row_complete. apply forallb_forall. intros c _.
    apply bool_decide_eq_true_2, Hrow. }
  destruct (List.filter _ _); [contradiction | cbn; lia].
Qed.

Lemma for_each_total {S X : Type} (I : S -> Prop) (Q : X -> Prop)
    (body : X -> S -> res S) :
  (forall x s, Q x -> I s -> exists s', body x s = Ok s' /\ I s') ->
  forall xs s, Forall Q xs -> I s -> exists s', for_each xs body s = Ok s'.
Proof.
  intros Hbody xs. induction xs as [| x xs IH]; intros s HQ HI.
  - exists s. reflexivity.
  - inversion HQ as [| ? ? Hx Hxs]; subst.
    destruct (Hbody x s Hx HI) as (s1 & E1 & I1).
    destruct (IH s1 Hxs I1) as (s2 & E2).
    exists s2. cbn [for_each]. rewrite E1. exact E2.
Qed.

Lemma lag_features_Ok (features : list string) (last_values : gmap string R) :
  (forall k, In k features -> is_Some (last_values !! k)) ->
  exists d, lag_features features last_values = Ok d.
Proof.
  intros Hkeys. unfold lag_features.
  apply (for_each_total (fun _ => True) (fun k => is_Some (last_values !! k)));
    [| | exact I].
  - intros k d [v Hv] _. rewrite Hv. eexists. split; [reflexivity | exact I].
  - apply List.Forall_forall. intros k Hk. apply filter_In in Hk.
    apply Hkeys. tauto.
Qed.

Lemma update_lags_keeps_keys (target_col : string) (next_value : R)
    (last_values : gmap string R) (k : string) :
  is_Some (last_values !! k) ->
  is_Some (update_lags target_col next_value last_values !! k).
Proof.
  intros Hk. rewrite update_lags_unfold. cbv zeta.
  assert (S : forall (L : Z) (m : gmap string R),
             is_Some (m !! k) ->
             is_Some (match m !! lag_column target_col (L - 1) with
                      | Some v0 => <[lag_column target_col L:=v0]> m
                      | None => match m !! lag_column target_col L with
                                | Some _ => <[lag_column target_col L:=next_value]> m
                                | None => m
                                end
                      end !! k)).
  { intros L m Hm.
    destruct (m !! lag_column target_col (L - 1));
      [apply lookup_insert_is_Some'; right; exact Hm |].
    destruct (m !! lag_column target_col L);
      [apply lookup_insert_is_Some'; right; exact Hm | exact Hm]. }
  apply lookup_insert_is_Some'. right. apply S, S, Hk.
Qed.

Lemma row_to_dict_is_Some {A : Type} (df : pd.DataFrame A) (i : nat) (k : string) :
  In k (pd.columns df) -> is_Some (pd.row_to_dict df i !! k).
Proof.
  unfold pd.row_to_dict. induction (pd.columns df) as [| c cs IH]; intros Hk.
  - contradiction.
  - cbn [map list_to_map foldr]. apply lookup_insert_is_Some'.
    destruct Hk as [-> | Hk]; [left; reflexivity | right; apply IH, Hk].
Qed.

Lemma add_weather_columns X_pred weather_forecast k :
  k ∈ pd.columns X_pred -> k ∈ pd.columns (add_weather X_pred weather_forecast).
Proof.
  intros Hk. unfold add_weather.
  destruct weather_forecast as [rows | e]; [| exact Hk].
  destruct (align _ _ _); [| exact Hk].
  destruct (align _ _ _); [do 2 apply setitem_columns_old | apply setitem_columns_old];
    exact Hk.
Qed.

Lemma iloc_cell_Ok (df : pd.DataFrame (option R)) (i : nat) (c : string) :
  (i < pd.nrows df)%nat -> c ∈ pd.columns df ->
  iloc_cell df i c = Ok (pd.cell df i c).
Proof.
  intros Hi Hc. unfold iloc_cell.
  destruct (i <? pd.nrows df)%nat eqn:E; [| apply Nat.ltb_ge in E; lia].
  rewrite bool_decide_eq_true_2 by exact Hc. reflexivity.
Qed.

Section InflowForecastReturns.
Variable Regressor : Type.
Variable fit : pd.DataFrame R -> list R -> res Regressor.
Variable predict : Regressor -> list (string * option R) -> R.

(** With the target column in the history, at least 25 rows of it, and a
    regressor that fits every non-empty training table, the inflow
    forecast returns a series, whatever the weather forecast gave. *)
Lemma forecast_inflow_returns (self : InflowAgent)
    (weather_forecast : res (list (Z * (R * R)))) (n_steps : nat) :
  inflow_target_col self ∈ pd.columns (inflow_history_df self) ->
  (25 <= pd.nrows (inflow_history_df self))%nat ->
  (forall X y, (0 < pd.nrows X)%nat -> exists model, fit X y = Ok model) ->
  exists s,
    forecast_inflow Regressor fit predict self weather_forecast n_steps = Ok s.
Proof.
  intros Ht Hn Hfit. unfold forecast_inflow.
  set (df := with_calendar (pd.copy (inflow_history_df self))).
  assert (Htd : inflow_target_col self ∈ pd.columns df)
    by (apply with_calendar_columns, copy_columns, Ht).
  destruct (with_lags_Ok _ df Htd) as (df' & Hok & Hidx & Hcols & _).
  rewrite Hok. cbn [rbind].
  assert (Hrows : (0 < pd.nrows (pd.dropna df'))%nat).
  { apply (dropna_nonempty df' 24).
    - unfold pd.nrows. rewrite Hidx. exact Hn.
    - apply (with_lags_rows_complete (inflow_target_col self) df df');
        [| exact Hok | lia].
      intros i k. apply with_calendar_cell_is_Some.
      intros k'. eexists. reflexivity. }
  rewrite getitem_cols_filter. cbn [rbind].
  unfold pd.getitem.
  rewrite bool_decide_eq_true_2 by (apply Hcols, Htd). cbn [rbind].
  set (X_train := pd.mkDataFrame _ _ _).
  destruct (Hfit X_train (pd.col_values (pd.dropna df') (inflow_target_col self)))
    as [model Hmodel]; [exact Hrows |].
  rewrite Hmodel. cbn [rbind].
  assert (Hlast : is_Some (last (pd.index (inflow_history_df self)))).
  { apply last_is_Some. intros E. unfold pd.nrows in Hn. rewrite E in Hn.
    cbn in Hn. lia. }
  destruct Hlast as [last_op_time Hlast].
  unfold pd.iloc_last. rewrite Hlast. cbn [rbind].
  unfold pd.iloc_last_to_dict.
  change (pd.nrows X_train) with (pd.nrows (pd.dropna df')).
  destruct (pd.nrows (pd.dropna df')) as [| k] eqn:Ek; [lia |]. cbn [rbind].
  set (X_pred := add_weather _ _).
  set (features := List.filter is_feature (pd.columns (pd.dropna df'))).
  assert (HX : pd.nrows X_pred = n_steps).
  { unfold X_pred, pd.nrows.
    rewrite add_weather_index, with_calendar_index. apply date_range_length. }
  match goal with
  | |- context [for_each ?l ?body ?s0] =>
      assert (Hloop : exists loop, for_each l body s0 = Ok loop)
  end.
  { apply (for_each_total
             (fun st : gmap string R * list R =>
                forall c, In c features -> is_Some (fst st !! c))
             (fun i => (i < n_steps)%nat)).
    - intros i [lv acc] Hi Hinv. cbn [fst] in Hinv.
      unfold current_features.
      destruct (lag_features_Ok features lv Hinv) as [d Hd]. rewrite Hd.
      cbn [rbind].
      rewrite !iloc_cell_Ok;
        try (rewrite HX; exact Hi);
        try (apply add_weather_columns;
             first [apply with_calendar_has_hour
                   | apply with_calendar_has_dayofweek]).
      cbn [rbind]. eexists. split; [reflexivity |].
      intros c Hc. cbn [fst]. apply update_lags_keeps_keys, Hinv, Hc.
    - apply List.Forall_forall. intros i Hi. apply in_seq in Hi. lia.
    - intros c Hc. cbn [fst]. apply row_to_dict_is_Some. exact Hc. }
  destruct Hloop as [loop Hloop]. rewrite Hloop. cbn [rbind].
  destruct loop as [lv out].
  apply for_each_appends with (P := fun _ => True) in Hloop.
  - destruct Hloop as (out' & Hout & Hlen & _). cbn in Hout. subst out.
    unfold pd.Series_of_list. cbn [snd].
    fold (pd.nrows X_pred). rewrite HX, Hlen, length_seq, Nat.eqb_refl.
    eexists. reflexivity.
  - intros i lv' acc r Hr.
    apply rbind_Ok in Hr. destruct Hr as (feats & _ & Hr).
    injection Hr as <-. eexists. split; [reflexivity | exact I].
Qed.
End InflowForecastReturns.

(** C4: for every horizon [n_steps], every weather forecast (any number
    of rows, or a failed fetch) and every regressor, a series returned by
    the inflow forecaster has exactly [n_steps] values, one per forecast
    time stamp, and none of them is negative; and a series is returned
    whenever the history has the target column and at least 25 rows and
    the regressor fits non-empty training tables. *)
Theorem forecast_inflow_length_nonneg (Regressor : Type)
    (fit : pd.DataFrame R -> list R -> res Regressor)
    (predict : Regressor -> list (string * option R) -> R)
    (self : InflowAgent) (weather_forecast : res (list (Z * (R * R))))
    (n_steps : nat) :
  (forall s,
     forecast_inflow Regressor fit predict self weather_forecast n_steps = Ok s ->
     length (pd.values s) = n_steps /\
     length (pd.s_index s) = n_steps /\
     Forall (fun v => 0 <= v) (pd.values s)) /\
  (inflow_target_col self ∈ pd.columns (inflow_history_df self) ->
   (25 <= pd.nrows (inflow_history_df self))%nat ->
   (forall X y, (0 < pd.nrows X)%nat -> exists model, fit X y = Ok model) ->
   exists s,
     forecast_inflow Regressor fit predict self weather_forecast n_steps = Ok s).
Proof.
  split.
  - intros s. apply forecast_inflow_shape.
  - apply forecast_inflow_returns.
Qed.

Lemma forecast_inflow_length_nonneg_witness :
  forecast_inflow unit fit_any predict_minus_one inflow_agent_25_rows
    weather_one_row 3 = Ok inflow_forecast_three_steps /\
  length (pd.values inflow_forecast_three_steps) = 3%nat /\
  length (pd.s_index inflow_forecast_three_steps) = 3%nat /\
  Forall (fun v => 0 <= v) (pd.values inflow_forecast_three_steps).
Proof.
  assert (E : forecast_inflow unit fit_any predict_minus_one
                inflow_agent_25_rows weather_one_row 3
              = Ok inflow_forecast_three_steps)
    by (vm_compute; reflexivity).
  split; [exact E |].
  exact (proj1 (forecast_inflow_length_nonneg unit fit_any predict_minus_one
                  inflow_agent_25_rows weather_one_row 3)
           inflow_forecast_three_steps E).
Defined.

(** ** The lag state of the forecasters *)

Lemma update_lags_other_keys (target_col : string) (next_value : R)
    (last_values : gmap string R) (k : string) :
  k <> lag_column target_col 24 -> k <> lag_column target_col 4 ->
  k <> lag_column target_col 1 ->
  update_lags target_col next_value last_values !! k = last_values !! k.
Proof.
  intros K24 K4 K1. rewrite update_lags_unfold. cbv zeta.
  rewrite lookup_insert_ne by (intros E; apply K1; symmetry; exact E).
  assert (S : forall (L : Z) (m : gmap string R),
             k <> lag_column target_col L ->
             match m !! lag_column target_col (L - 1) with
             | Some v0 => <[lag_column target_col L:=v0]> m
             | None => match m !! lag_column target_col L with
                       | Some _ => <[lag_column target_col L:=next_value]> m
                       | None => m
                       end
             end !! k = m !! k).
  { intros L m Hk.
    destruct (m !! lag_column target_col (L - 1));
      [apply lookup_insert_ne; intros E; apply Hk; symmetry; exact E |].
    destruct (m !! lag_column target_col L);
      [apply lookup_insert_ne; intros E; apply Hk; symmetry; exact E
      | reflexivity]. }
  rewrite (S 4%Z) by exact K4. rewrite (S 24%Z) by exact K24. reflexivity.
Qed.

(** A state with keys for lags 24 and 4 and none for lags 23 and 3 stays
    so under the update: the fallback is taken in every iteration. *)
Lemma update_lags_keeps_shape (target_col : string) (next_value : R)
    (last_values : gmap string R) :
  last_values !! lag_column target_col 23 = None ->
  last_values !! lag_column target_col 3 = None ->
  is_Some (last_values !! lag_column target_col 24) ->
  is_Some (last_values !! lag_column target_col 4) ->
  let after := update_lags target_col next_value last_values in
  after !! lag_column target_col 23 = None /\
  after !! lag_column target_col 3 = None /\
  is_Some (after !! lag_column target_col 24) /\
  is_Some (after !! lag_column target_col 4).
Proof.
  intros H23 H3 H24 H4. cbv zeta.
  rewrite !update_lags_other_keys by lag_ne.
  repeat split; try assumption; apply update_lags_keeps_keys; assumption.
Qed.

Lemma setitem_columns_inv {A : Type} (df : pd.DataFrame A) c vals k :
  k ∈ pd.columns (pd.setitem df c vals) -> k ∈ pd.columns df \/ k = c.
Proof.
  unfold pd.setitem. cbn [pd.columns]. case_bool_decide; [tauto |].
  intros Hin. apply elem_of_app in Hin. destruct Hin as [Hin | Hin]; [tauto |].
  apply list_elem_of_singleton in Hin. tauto.
Qed.

Lemma with_lags_columns_inv (target_col : string)
    (df df' : pd.DataFrame (option R)) (k : string) :
  with_lags target_col df = Ok df' ->
  k ∈ pd.columns df' ->
  k ∈ pd.columns df \/ exists lag, k = lag_column target_col lag /\
                                   (lag = 1 \/ lag = 4 \/ lag = 24)%Z.
Proof.
  intros H Hk. unfold with_lags in H. cbn [for_each] in H.
  apply rbind_Ok in H. destruct H as (df1 & H1 & H).
  apply rbind_Ok in H1. destruct H1 as (col1 & _ & H1). injection H1 as <-.
  apply rbind_Ok in H. destruct H as (df2 & H2 & H).
  apply rbind_Ok in H2. destruct H2 as (col2 & _ & H2). injection H2 as <-.
  apply rbind_Ok in H. destruct H as (df3 & H3 & H).
  apply rbind_Ok in H3. destruct H3 as (col3 & _ & H3). injection H3 as <-.
  injection H as <-.
  apply setitem_columns_inv in Hk. destruct Hk as [Hk | ->]; [| right; eauto].
  apply setitem_columns_inv in Hk. destruct Hk as [Hk | ->]; [| right; eauto].
  apply setitem_columns_inv in Hk. destruct Hk as [Hk | ->]; [| right; eauto].
  left. exact Hk.
Qed.

Lemma lag_column_contains_lag (target_col : string) (lag : Z) :
  contains "lag" (lag_column target_col lag) = true.
Proof. unfold lag_column. apply contains_append. reflexivity. Qed.

Lemma row_to_dict_None {A : Type} (df : pd.DataFrame A) (i : nat) (k : string) :
  ~ In k (pd.columns df) -> pd.row_to_dict df i !! k = None.
Proof.
  unfold pd.row_to_dict. induction (pd.columns df) as [| c cs IH]; intros Hk.
  - reflexivity.
  - cbn [map list_to_map foldr fst snd].
    rewrite lookup_insert_ne by (intros ->; apply Hk; left; reflexivity).
    apply IH. intros Hin. apply Hk. right. exact Hin.
Qed.

(** The lag state both forecasters start from, the last training row
    restricted to the feature columns, has keys for lags 1, 4 and 24 and,
    for a history without columns so named, none for lags 23 and 3. *)
Lemma forecaster_lag_state (target_col : string) (history_df : pd.DataFrame R)
    (df' : pd.DataFrame (option R)) (i : nat) :
  with_lags target_col (with_calendar (pd.copy history_df)) = Ok df' ->
  lag_column target_col 23 ∉ pd.columns history_df ->
  lag_column target_col 3 ∉ pd.columns history_df ->
  let df_hist := pd.dropna df' in
  let features := List.filter is_feature (pd.columns df_hist) in
  let last_values :=
    pd.row_to_dict (pd.mkDataFrame (pd.index df_hist) features (pd.cell df_hist)) i in
  last_values !! lag_column target_col 23 = None /\
  last_values !! lag_column target_col 3 = None /\
  is_Some (last_values !! lag_column target_col 24) /\
  is_Some (last_values !! lag_column target_col 4) /\
  is_Some (last_values !! lag_column target_col 1).
Proof.
  intros Hok N23 N3. cbv zeta.
  assert (Habsent : forall lag, (lag = 23 \/ lag = 3)%Z ->
            lag_column target_col lag ∉ pd.columns history_df ->
            ~ In (lag_column target_col lag)
                 (List.filter is_feature (pd.columns (pd.dropna df')))).
  { intros lag Hlag Hnot Hin. apply filter_In in Hin. destruct Hin as (Hin & _).
    apply list_elem_of_In in Hin. cbn [pd.dropna pd.columns] in Hin.
    apply (with_lags_columns_inv _ _ _ _ Hok) in Hin.
    destruct Hin as [Hin | (l & E & Hl)].
    - unfold with_calendar in Hin.
      apply setitem_columns_inv in Hin. destruct Hin as [Hin | E].
      + apply setitem_columns_inv in Hin. destruct Hin as [Hin | E].
        * apply Hnot. exact Hin.
        * pose proof (lag_column_contains_lag target_col lag) as C.
          rewrite E in C. discriminate.
      + pose proof (lag_column_contains_lag target_col lag) as C.
        rewrite E in C. discriminate.
    - apply lag_column_inj in E. lia. }
  assert (Hpresent : forall lag, (lag = 1 \/ lag = 4 \/ lag = 24)%Z ->
            In (lag_column target_col lag)
               (List.filter is_feature (pd.columns (pd.dropna df')))).
  { intros lag Hlag. apply filter_In. split; [| apply lag_column_is_feature].
    apply list_elem_of_In. cbn [pd.dropna pd.columns].
    destruct (decide (target_col ∈ pd.columns (with_calendar (pd.copy history_df))))
      as [Ht | Ht].
    - destruct (with_lags_Ok _ _ Ht) as (df'' & Hok' & _ & _ & H1 & H4 & H24 & _).
      rewrite Hok in Hok'. injection Hok' as <-.
      destruct Hlag as [-> | [-> | ->]]; assumption.
    - rewrite with_lags_missing_target in Hok by exact Ht. discriminate. }
  repeat split.
  - apply row_to_dict_None. cbn [pd.columns]. apply Habsent; [lia | exact N23].
  - apply row_to_dict_None. cbn [pd.columns]. apply Habsent; [lia | exact N3].
  - apply row_to_dict_is_Some. cbn [pd.columns]. apply Hpresent. lia.
  - apply row_to_dict_is_Some. cbn [pd.columns]. apply Hpresent. lia.
  - apply row_to_dict_is_Some. cbn [pd.columns]. apply Hpresent. lia.
Qed.

(** ** The level handed to the optimizer *)

Section CycleLevel.
Variable Regressor : Type.
Variable fit : pd.DataFrame R -> list R -> res Regressor.
Variable predict : Regressor -> list (string * option R) -> R.

(** Whenever the cycle builds the optimizer, the level it is built with
    is the last value of the history column named
    water_level_in_tunnel_l2. *)
Lemma cycle_optimizer_level (data : res (pd.DataFrame R))
    (volume_file : res (list (R * R))) (nordpool : res (list (Z * R)))
    (weather_forecast : res (list (Z * (R * R))))
    (optimizer : OptimizationAgent) :
  cycle_optimizer Regressor fit predict data volume_file nordpool
    weather_forecast = Ok (Ready optimizer) ->
  exists hist_df level,
    data = Ok hist_df /\
    pd.getitem hist_df "water_level_in_tunnel_l2" = Ok level /\
    last level = Some (L1_start optimizer).
Proof.
  unfold cycle_optimizer. intros H.
  destruct data as [hist_df | e]; cbn [rbind] in H; [| discriminate].
  destruct (pd.getitem hist_df "water_level_in_tunnel_l2") as [level | e]
    eqn:Hlevel; cbn [rbind] in H; [| discriminate].
  unfold pd.iloc_last in H.
  destruct (last level) as [current_L1 |] eqn:Hlast; [| discriminate].
  exists hist_df, level. split; [reflexivity |]. split; [exact Hlevel |].
  apply rbind_Ok in H. destruct H as (price_agent & _ & H).
  apply rbind_Ok in H. destruct H as (pf & _ & H).
  apply rbind_Ok in H. destruct H as (inflow_agent & _ & H).
  apply rbind_Ok in H. destruct H as (inf & _ & H).
  apply rbind_Ok in H. destruct H as (opt & Hopt & H).
  injection H as <-.
  unfold OptimizationAgent_init in Hopt.
  apply rbind_Ok in Hopt. destruct Hopt as (interp & _ & Hopt).
  injection Hopt as <-. exact Hlast.
Qed.

(** With the level column and a last row in the history, a geometry, and
    both forecasts returned, the cycle builds the optimizer with that
    level. *)
Lemma cycle_reaches_optimizer (hist_df : pd.DataFrame R) (level : list R)
    (current_L1 : R) (volume_file : res (list (R * R)))
    (interp : (R -> R) * (R -> R)) (nordpool : res (list (Z * R)))
    (weather_forecast : res (list (Z * (R * R))))
    (prices inflow : pd.Series R) :
  pd.getitem hist_df "water_level_in_tunnel_l2" = Ok level ->
  last level = Some current_L1 ->
  get_level_volume_interpolator volume_file = Ok interp ->
  fetch_nordpool_prices Regressor fit predict
    (mkPriceAgent hist_df "electricity_price_1_high" TUNNEL_CONSTANTS.NORDPOOL_AREA)
    nordpool 96 = Ok prices ->
  forecast_inflow Regressor fit predict
    (mkInflowAgent hist_df "inflow_to_tunnel_f1") weather_forecast 96
    = Ok inflow ->
  exists optimizer,
    cycle_optimizer Regressor fit predict (Ok hist_df) volume_file
      nordpool weather_forecast = Ok (Ready optimizer) /\
    L1_start optimizer = current_L1.
Proof.
  intros Hlevel Hlast Hget Hprices Hinflow. unfold cycle_optimizer.
  cbn [rbind]. rewrite Hlevel. cbn [rbind].
  unfold pd.iloc_last. rewrite Hlast. cbn [rbind].
  unfold PriceAgent_init, InflowAgent_init. cbn [rbind].
  rewrite Hprices. cbn [rbind]. rewrite Hinflow. cbn [rbind].
  unfold OptimizationAgent_init. rewrite Hget. cbn [rbind].
  eexists. split; reflexivity.
Qed.

(** C10: the level the orchestration cycle hands to the optimizer is the
    last value of the history column named water_level_in_tunnel_l2:
    whenever the cycle builds the optimizer its level is that value, and
    for a history with that column and a last row the cycle does build
    it, given a geometry and both forecasts.  The optimizer so built is
    the one the cycle calls [solve_mpc] on. *)
Theorem cycle_level_is_last_l2_value (data : res (pd.DataFrame R))
    (volume_file : res (list (R * R))) (nordpool : res (list (Z * R)))
    (weather_forecast : res (list (Z * (R * R)))) :
  (forall optimizer,
     cycle_optimizer Regressor fit predict data volume_file nordpool
       weather_forecast = Ok (Ready optimizer) ->
     (exists hist_df level,
        data = Ok hist_df /\
        pd.getitem hist_df "water_level_in_tunnel_l2" = Ok level /\
        last level = Some (L1_start optimizer)) /\
     forall solve,
       run_optimization_cycle Regressor fit predict solve data volume_file
         nordpool weather_forecast
       = (profile <-- solve_mpc solve optimization_agent_globals optimizer ;;
          match profile with
          | Some results =>
              if (pd.nrows results =? 0)%nat then Raise IndexError
              else Ok (Optimized optimizer profile)
          | None => Ok (Optimized optimizer profile)
          end)) /\
  (forall hist_df level current_L1 interp prices inflow,
     data = Ok hist_df ->
     pd.getitem hist_df "water_level_in_tunnel_l2" = Ok level ->
     last level = Some current_L1 ->
     get_level_volume_interpolator volume_file = Ok interp ->
     fetch_nordpool_prices Regressor fit predict
       (mkPriceAgent hist_df "electricity_price_1_high"
          TUNNEL_CONSTANTS.NORDPOOL_AREA)
       nordpool 96 = Ok prices ->
     forecast_inflow Regressor fit predict
       (mkInflowAgent hist_df "inflow_to_tunnel_f1") weather_forecast 96
       = Ok inflow ->
     exists optimizer,
       cycle_optimizer Regressor fit predict data volume_file nordpool
         weather_forecast = Ok (Ready optimizer) /\
       L1_start optimizer = current_L1).
Proof.
  split.
  - intros optimizer Hready. split.
    + eapply cycle_optimizer_level. exact Hready.
    + intros solve. unfold run_optimization_cycle. rewrite Hready. reflexivity.
  - intros hist_df level current_L1 interp prices inflow -> Hl Hlast Hg Hp Hi.
    eapply cycle_reaches_optimizer; eassumption.
Qed.
End CycleLevel.

Lemma fetch_nordpool_prices_96 :
  fetch_nordpool_prices unit fit_any predict_minus_one
    (mkPriceAgent history_25_rows "electricity_price_1_high"
       TUNNEL_CONSTANTS.NORDPOOL_AREA)
    nordpool_96 96 = Ok price_forecast_96.
Proof. vm_compute. reflexivity. Qed.

Lemma forecast_inflow_25_rows_returns :
  exists inflow,
    forecast_inflow unit fit_any predict_minus_one
      (mkInflowAgent history_25_rows "inflow_to_tunnel_f1") weather_one_row 96
    = Ok inflow.
Proof.
  apply forecast_inflow_returns.
  - cbn. set_solver.
  - unfold pd.nrows. cbn [inflow_history_df history_25_rows pd.index].
    rewrite date_range_length. lia.
  - intros X y _. exists tt. reflexivity.
Qed.

Lemma cycle_level_is_last_l2_value_witness :
  exists optimizer,
    cycle_optimizer unit fit_any predict_minus_one
      (Ok history_25_rows) (Raise FileNotFoundError) nordpool_96
      weather_one_row = Ok (Ready optimizer) /\
    L1_start optimizer = 0.5 /\
    exists hist_df level,
      Ok history_25_rows = Ok hist_df /\
      pd.getitem hist_df "water_level_in_tunnel_l2" = Ok level /\
      last level = Some (L1_start optimizer).
Proof.
  destruct forecast_inflow_25_rows_returns as [inflow Hinflow].
  destruct (cycle_level_is_last_l2_value unit fit_any predict_minus_one
              (Ok history_25_rows) (Raise FileNotFoundError)
              nordpool_96 weather_one_row) as [Hlevel Hreach].
  destruct (Hreach history_25_rows
              (pd.col_values history_25_rows "water_level_in_tunnel_l2") 0.5
              (fun L1 => 10000 * L1 + 350, fun V => (V - 350) / 10000)
              price_forecast_96 inflow)
    as (optimizer & Hrun & HL1).
  - reflexivity.
  - reflexivity.
  - vm_compute. reflexivity.
  - reflexivity.
  - exact fetch_nordpool_prices_96.
  - exact Hinflow.
  - exists optimizer. split; [exact Hrun |]. split; [exact HL1 |].
    exact (proj1 (Hlevel optimizer Hrun)).
Defined.

(** * Further properties of the code *)

(** ** utils/helpers.py: the power model and the tank geometry *)

(** X1: the power is proportional to the flow; for a positive flow it
    falls strictly as the level rises, it is positive exactly below 41 m
    (the level of the plant plus the friction head) and negative above,
    since nothing clamps it; for a flow in 100..10000 and a level in
    0.5..30 it lies between 3.746875 and 1379.53125 kW. *)
Theorem calculate_power_shape :
  (forall a Q L : R, calculate_power (a * Q) L = a * calculate_power Q L) /\
  (forall Q L L' : R, 0 < Q -> L < L' ->
                      calculate_power Q L' < calculate_power Q L) /\
  (forall Q L : R, 0 < Q -> (0 < calculate_power Q L <-> L < 41)) /\
  (forall Q L : R, 0 < Q -> 41 < L -> calculate_power Q L < 0) /\
  (forall Q L : R, 100 <= Q <= 10000 -> 0.5 <= L <= 30 ->
                   3.746875 <= calculate_power Q L <= 1379.53125).
Proof.
  assert (Hpoly : forall Q L : R,
             calculate_power Q L = 0.00340625 * Q * (41 - L)).
  { intros Q L. unfold calculate_power, TUNNEL_CONSTANTS.L2_LEVEL. lra. }
  split; [| split; [| split; [| split]]].
  - intros a Q L. rewrite !Hpoly. lra.
  - intros Q L L' HQ HL. rewrite !Hpoly. nra.
  - intros Q L HQ. rewrite Hpoly. split.
    + intros HP. destruct (Rlt_dec L 41); [assumption | nra].
    + intros HL. nra.
  - intros Q L HQ HL. rewrite Hpoly. nra.
  - intros Q L HQ HL. rewrite Hpoly. split; nra.
Qed.

Lemma calculate_power_shape_witness :
  calculate_power 3600 0.5 < calculate_power 3600 0.25 /\
  0 < calculate_power 3600 30 /\
  calculate_power 3600 42 < 0 /\
  3.746875 <= calculate_power 3600 0.5 <= 1379.53125.
Proof.
  destruct calculate_power_shape as (_ & Hdec & Hpos & Hneg & Hrange).
  split; [apply Hdec; lra |].
  split; [apply Hpos; lra |].
  split; [apply Hneg; lra |].
  apply Hrange; lra.
Defined.

Lemma increasing_table_head_lt (p : R * R) (ps : list (R * R)) (row : R * R) :
  increasing_table (p :: ps) -> In row ps ->
  fst p < fst row /\ snd p < snd row.
Proof.
  revert p. induction ps as [| q ps IH]; intros p Hinc Hin; [contradiction |].
  destruct Hinc as (Hl & Hv & Hinc).
  destruct Hin as [<- | Hin]; [split; assumption |].
  destruct (IH q Hinc Hin). split; lra.
Qed.

(** The interpolant takes each sample of the table to its partner. *)
Lemma call_linear_at_sample (rest : list (R * R)) :
  forall (p0 p1 row : R * R),
    increasing_table (p0 :: p1 :: rest) ->
    In row (p0 :: p1 :: rest) ->
    call_linear (p0 :: p1 :: rest) (fst row) = snd row.
Proof.
  induction rest as [| p2 rest IH]; intros p0 p1 row Hinc Hin.
  - cbn in Hinc. destruct Hinc as (Hl & Hv & _).
    rewrite call_linear_step by lra. unfold segment.
    destruct Hin as [<- | [<- | []]]; field; lra.
  - pose proof Hinc as (Hl & Hv & Hinc').
    rewrite call_linear_step by lra.
    destruct Hin as [<- | [<- | Hin]].
    + destruct (Rlt_dec (fst p1) (fst p0)); [lra |].
      unfold segment. field. lra.
    + destruct (Rlt_dec (fst p1) (fst p1)); [lra |].
      unfold segment. field. lra.
    + destruct (increasing_table_head_lt p1 (p2 :: rest) row Hinc' Hin) as (H1 & _).
      destruct (Rlt_dec (fst p1) (fst row)); [| lra].
      apply IH; [exact Hinc' | right; exact Hin].
Qed.

Lemma swap_table_involutive (ps : list (R * R)) : swap_table (swap_table ps) = ps.
Proof.
  induction ps as [| [a b] ps IH]; [reflexivity |].
  cbn. f_equal. exact IH.
Qed.

(** X2: for a calibration table of at least two rows, strictly increasing
    in both columns, the two interpolants returned by
    [get_level_volume_interpolator] pass through every row of the table,
    undo each other at every real, inside and outside the table's range,
    and are strictly increasing. *)
Theorem table_geometry_round_trip (tbl : list (R * R)) :
  increasing_table tbl -> (2 <= length tbl)%nat ->
  exists volume_of level_of : R -> R,
    get_level_volume_interpolator (Ok tbl) = Ok (volume_of, level_of) /\
    (forall row, In row tbl ->
                 volume_of (fst row) = snd row /\ level_of (snd row) = fst row) /\
    (forall x, level_of (volume_of x) = x) /\
    (forall v, volume_of (level_of v) = v) /\
    (forall x y, x < y -> volume_of x < volume_of y) /\
    (forall u v, u < v -> level_of u < level_of v).
Proof.
  intros Hinc Hlen.
  exists (call_linear tbl), (call_linear (swap_table tbl)).
  split; [apply geometry_of_table; assumption |].
  pose proof (increasing_swap tbl Hinc) as Hswap.
  destruct tbl as [| p0 [| p1 rest]]; cbn in Hlen; try lia.
  repeat split.
  - apply call_linear_at_sample; assumption.
  - change (fst row) with (snd (snd row, fst row)).
    change (snd row) with (fst (snd row, fst row)) at 1.
    apply (call_linear_at_sample (swap_table rest) (snd p0, fst p0)
             (snd p1, fst p1) (snd row, fst row) Hswap).
    change (In (snd row, fst row) (swap_table (p0 :: p1 :: rest))).
    unfold swap_table. apply in_map_iff. exists row. split; [reflexivity | assumption].
  - intros x. apply call_linear_inverse. exact Hinc.
  - intros v.
    pose proof (call_linear_inverse (swap_table rest) (snd p0, fst p0)
                  (snd p1, fst p1) v Hswap) as E.
    change ((snd p0, fst p0) :: (snd p1, fst p1) :: swap_table rest)
      with (swap_table (p0 :: p1 :: rest)) in E.
    rewrite swap_table_involutive in E. exact E.
  - intros x y. apply call_linear_increasing. exact Hinc.
  - intros u v. apply (call_linear_increasing (swap_table rest) (snd p0, fst p0)
                         (snd p1, fst p1) u v Hswap).
Qed.

Lemma table_geometry_round_trip_witness :
  exists volume_of level_of : R -> R,
    get_level_volume_interpolator (Ok calibration_two_rows)
      = Ok (volume_of, level_of) /\
    (forall row, In row calibration_two_rows ->
                 volume_of (fst row) = snd row /\ level_of (snd row) = fst row) /\
    (forall x, level_of (volume_of x) = x) /\
    (forall v, volume_of (level_of v) = v) /\
    (forall x y, x < y -> volume_of x < volume_of y) /\
    (forall u v, u < v -> level_of u < level_of v).
Proof.
  apply (table_geometry_round_trip calibration_two_rows).
  - exact calibration_two_rows_increasing.
  - cbn. lia.
Defined.

(** ** agents/optimization_agent.py: the declared model and the result *)

Lemma init_fields (volume_file : res (list (R * R))) (current_L1 : R)
    (price_forecast inflow_forecast : pd.Series R) (H : nat)
    (self : OptimizationAgent) :
  OptimizationAgent_init volume_file current_L1 price_forecast inflow_forecast H
    = Ok self ->
  exists volume_of level_of,
    get_level_volume_interpolator volume_file = Ok (volume_of, level_of) /\
    self = mkOptimizationAgent current_L1 (pd.values price_forecast)
             (pd.values inflow_forecast) H
             (TUNNEL_CONSTANTS.TIMESTEP_MINUTES / 60.0) volume_of level_of.
Proof.
  unfold OptimizationAgent_init. intros Hinit.
  apply rbind_Ok in Hinit. destruct Hinit as ([volume_of level_of] & Hget & Hinit).
  injection Hinit as <-. exists volume_of, level_of. split; [exact Hget | reflexivity].
Qed.

(** X3: the time grid handed to the solver has one point per step of the
    horizon, starting at 0 and 0.25 h apart, for every horizon (also 0
    and 1). *)
Theorem mpc_time_grid (volume_file : res (list (R * R))) (current_L1 : R)
    (price_forecast inflow_forecast : pd.Series R) (H : nat)
    (self : OptimizationAgent) (F1_h : list R) (F1_h_0 : R) :
  OptimizationAgent_init volume_file current_L1 price_forecast inflow_forecast H
    = Ok self ->
  gekko.time (mpc_model self F1_h F1_h_0)
  = map (fun k => INR k * 0.25) (seq 0 H).
Proof.
  intros Hinit. apply init_fields in Hinit.
  destruct Hinit as (volume_of & level_of & _ & ->).
  cbn [mpc_model gekko.time horizon dt_h]. unfold linspace.
  apply map_ext_in. intros k Hk. apply in_seq in Hk.
  unfold TUNNEL_CONSTANTS.TIMESTEP_MINUTES.
  destruct (Nat.eq_dec H 1%nat) as [-> | Hne].
  - assert (k = O) by lia. subst k. cbn [INR]. lra.
  - assert (HH : 2 <= INR H) by (apply (le_INR 2%nat H); lia).
    replace (15 / 60.0) with (1 / 4) by lra.
    replace 0.25 with (1 / 4) by lra.
    field. lra.
Qed.

Lemma mpc_time_grid_witness :
  gekko.time (mpc_model optimizer_calibrated [600 * 4; 600 * 4] (600 * 4))
  = map (fun k => INR k * 0.25) (seq 0 2).
Proof.
  exact (mpc_time_grid (Ok calibration_two_rows) 0.5 price_two_steps
           inflow_two_steps 2 optimizer_calibrated [600 * 4; 600 * 4] (600 * 4)
           optimizer_calibrated_init).
Defined.

Section DeclaredModel.
Variable volume_file : res (list (R * R)).
Variable current_L1 : R.
Variables price_forecast inflow_forecast : pd.Series R.
Variable H : nat.
Variable self : OptimizationAgent.
Hypothesis calibrated : calibration_ok volume_file.
Hypothesis built :
  OptimizationAgent_init volume_file current_L1 price_forecast inflow_forecast H
  = Ok self.

Lemma built_geometry :
  (forall x, L_interp self (V_interp self x) = x) /\
  (forall x y, x < y -> V_interp self x < V_interp self y).
Proof.
  destruct (init_fields _ _ _ _ _ _ built) as (volume_of & level_of & Hget & ->).
  exact (geometry_consistent _ _ _ calibrated Hget).
Qed.

(** X4: in the declared model the linearised level is 0.5 at the lower
    volume bound and 30 at the upper one; for a volume within its bounds
    it stays within 0.5..30, and with a flow within 100..10000 the power
    of the objective lies between 3.746875 and 1379.53125 kW, so every
    step's cost has the sign of its price. *)
Theorem mpc_level_and_power_within_bounds (F1_h : list R) (F1_h_0 : R) :
  let m := mpc_model self F1_h F1_h_0 in
  gekko.L1 m (gekko.lb (gekko.V m)) = 0.5 /\
  gekko.L1 m (gekko.ub (gekko.V m)) = 30 /\
  (forall V F2,
     gekko.lb (gekko.V m) <= V <= gekko.ub (gekko.V m) ->
     gekko.lb (gekko.F2 m) <= F2 <= gekko.ub (gekko.F2 m) ->
     0.5 <= gekko.L1 m V <= 30 /\
     3.746875 <= gekko.P m F2 (gekko.L1 m V) <= 1379.53125).
Proof.
  destruct built_geometry as (_ & Hmono).
  pose proof (Hmono 0.5 30.0 ltac:(lra)) as Hlt.
  cbv zeta. cbn [mpc_model gekko.L1 gekko.V gekko.F2 gekko.P gekko.lb gekko.ub].
  unfold TUNNEL_CONSTANTS.L1_MIN, TUNNEL_CONSTANTS.L1_MAX.
  set (lo := V_interp self 0.5) in *. set (hi := V_interp self 30.0) in *.
  assert (Hd : 0 < hi - lo) by lra.
  assert (Hlevel : forall V, 0.5 + (30.0 - 0.5) * (V - lo) / (hi - lo)
                             = 0.5 + 29.5 * ((V - lo) / (hi - lo)))
    by (intros V; unfold Rdiv; lra).
  split; [rewrite Hlevel; replace ((lo - lo) / (hi - lo)) with 0 by (field; lra); lra |].
  split; [rewrite Hlevel; replace ((hi - lo) / (hi - lo)) with 1 by (field; lra); lra |].
  intros V F2 HV HF2. rewrite Hlevel.
  set (t := (V - lo) / (hi - lo)).
  assert (Ht : 0 <= t <= 1).
  { unfold t. split.
    - apply Rmult_le_pos; [lra | left; apply Rinv_0_lt_compat; exact Hd].
    - apply (Rmult_le_reg_r (hi - lo)); [exact Hd |].
      replace ((V - lo) / (hi - lo) * (hi - lo)) with (V - lo) by (field; lra).
      lra. }
  split; [lra |].
  assert (Hpoly : forall Q L : R,
             calculate_power Q L = 0.00340625 * Q * (41 - L)).
  { intros Q L. unfold calculate_power, TUNNEL_CONSTANTS.L2_LEVEL. lra. }
  rewrite Hpoly. split; nra.
Qed.

End DeclaredModel.

Lemma mpc_level_and_power_within_bounds_witness :
  let m := mpc_model optimizer_calibrated [600 * 4; 600 * 4] (600 * 4) in
  0.5 <= gekko.L1 m (gekko.lb (gekko.V m)) <= 30 /\
  3.746875 <= gekko.P m (600 * 4) (gekko.L1 m (gekko.lb (gekko.V m)))
           <= 1379.53125.
Proof.
  pose proof (call_linear_increasing [] (0, 0) (30, 300000) 0.5 30.0
                calibration_two_rows_increasing ltac:(lra)) as Hmono.
  fold calibration_two_rows in Hmono.
  refine (proj2 (proj2 (mpc_level_and_power_within_bounds
            (Ok calibration_two_rows) 0.5 price_two_steps inflow_two_steps 2
            optimizer_calibrated _ optimizer_calibrated_init
            [600 * 4; 600 * 4] (600 * 4))) _ (600 * 4) _ _).
  - split; [exact calibration_two_rows_increasing | cbn; lia].
  - cbn -[call_linear calibration_two_rows].
    unfold TUNNEL_CONSTANTS.L1_MIN, TUNNEL_CONSTANTS.L1_MAX. lra.
  - cbn. lra.
Defined.


(** ** utils/helpers.py: column names *)

Lemma code_ascii_of_nat (n : nat) : (n < 256)%nat -> code (Ascii.ascii_of_nat n) = n.
Proof. intros Hn. unfold code. apply Ascii.nat_ascii_embedding. exact Hn. Qed.

Lemma str_lower_codes (s : list Ascii.ascii) :
  is_ascii s ->
  Forall (fun c => (code c < 128 /\ ~ (65 <= code c <= 90))%nat) (str_lower s).
Proof.
  intros Hs. unfold str_lower. apply List.Forall_map.
  eapply List.Forall_impl; [| exact Hs]. intros c Hc. cbn beta in *.
  unfold lower_char.
  destruct ((65 <=? code c) && (code c <=? 90))%nat eqn:E.
  - apply andb_true_iff in E. destruct E as (E1 & E2).
    apply Nat.leb_le in E1, E2.
    rewrite code_ascii_of_nat by lia. lia.
  - apply andb_false_iff in E.
    destruct E as [E | E]; apply Nat.leb_gt in E; lia.
Qed.

Lemma str_replace_codes (P : nat -> Prop) (old new : nat) (s : list Ascii.ascii) :
  (new < 256)%nat -> new <> old -> P new ->
  Forall (fun c => P (code c)) s ->
  Forall (fun c => P (code c) /\ code c <> old) (str_replace old new s).
Proof.
  intros Hnew Hne HP Hs. unfold str_replace. apply List.Forall_map.
  eapply List.Forall_impl; [| exact Hs]. intros c Hc. cbn beta in *.
  destruct (code c =? old)%nat eqn:E.
  - rewrite code_ascii_of_nat by exact Hnew. split; [exact HP | exact Hne].
  - apply Nat.eqb_neq in E. split; [exact Hc | exact E].
Qed.

Lemma str_remove_codes (P : nat -> Prop) (old : nat) (s : list Ascii.ascii) :
  Forall (fun c => P (code c)) s ->
  Forall (fun c => P (code c) /\ code c <> old) (str_remove old s).
Proof.
  intros Hs. unfold str_remove. apply List.Forall_forall. intros c Hc.
  apply filter_In in Hc. destruct Hc as (Hin & Hne).
  rewrite List.Forall_forall in Hs. split; [apply Hs, Hin |].
  apply negb_true_iff, Nat.eqb_neq in Hne. exact Hne.
Qed.

Lemma str_before_codes (P : nat -> Prop) (sep : nat) (s : list Ascii.ascii) :
  Forall (fun c => P (code c)) s ->
  Forall (fun c => P (code c) /\ code c <> sep) (str_before sep s).
Proof.
  induction s as [| c s IH]; intros Hs; [constructor |].
  inversion Hs as [| ? ? Hc Hs']; subst. cbn [str_before].
  destruct (code c =? sep)%nat eqn:E; [constructor |].
  apply Nat.eqb_neq in E. constructor; [split; assumption | apply IH, Hs'].
Qed.

Lemma str_lstrip_suffix (s : list Ascii.ascii) :
  exists pre, s = pre ++ str_lstrip s.
Proof.
  induction s as [| c s IH]; [exists []; reflexivity |].
  cbn [str_lstrip]. destruct (is_space c).
  - destruct IH as [pre E]. exists (c :: pre). cbn. f_equal. exact E.
  - exists []. reflexivity.
Qed.

Lemma str_lstrip_head (s : list Ascii.ascii) (c : Ascii.ascii) (t : list Ascii.ascii) :
  str_lstrip s = c :: t -> is_space c = false.
Proof.
  induction s as [| d s IH]; [discriminate |].
  cbn [str_lstrip]. destruct (is_space d) eqn:E; [exact IH |].
  intros H. injection H as <- <-. exact E.
Qed.

Lemma str_lstrip_fixed (s : list Ascii.ascii) :
  (forall c t, s = c :: t -> is_space c = false) -> str_lstrip s = s.
Proof.
  destruct s as [| c s]; [reflexivity |]. intros H.
  cbn [str_lstrip]. rewrite (H c s eq_refl). reflexivity.
Qed.

Lemma str_strip_codes (P : Ascii.ascii -> Prop) (s : list Ascii.ascii) :
  Forall P s -> Forall P (str_strip s).
Proof.
  intros Hs. unfold str_strip.
  destruct (str_lstrip_suffix s) as [p1 E1].
  destruct (str_lstrip_suffix (rev (str_lstrip s))) as [p2 E2].
  rewrite E1 in Hs. apply List.Forall_app in Hs. destruct Hs as (_ & Hs).
  apply List.Forall_rev in Hs. rewrite E2 in Hs.
  apply List.Forall_app in Hs. destruct Hs as (_ & Hs).
  apply List.Forall_rev. exact Hs.
Qed.

(** A stripped string neither starts nor ends with a character [strip]
    removes. *)
Lemma str_strip_ends (s : list Ascii.ascii) :
  (forall c t, str_strip s = c :: t -> is_space c = false) /\
  (forall c t, str_strip s = t ++ [c] -> is_space c = false).
Proof.
  unfold str_strip. set (y := str_lstrip (rev (str_lstrip s))).
  assert (Hhead : forall c t, y = c :: t -> is_space c = false)
    by (intros c t; apply str_lstrip_head).
  assert (Hlast : forall c t, y = t ++ [c] -> is_space c = false).
  { intros c t Hy.
    destruct (str_lstrip_suffix (rev (str_lstrip s))) as [pre E].
    fold y in E. rewrite Hy in E.
    assert (E' : str_lstrip s = c :: rev (pre ++ t)).
    { rewrite <- (rev_involutive (str_lstrip s)), E, app_assoc.
      rewrite rev_app_distr. reflexivity. }
    apply str_lstrip_head in E'. exact E'. }
  split.
  - intros c t E. apply (Hlast c (rev t)).
    rewrite <- (rev_involutive y), E. reflexivity.
  - intros c t E. apply (Hhead c (rev t)).
    rewrite <- (rev_involutive y), E, rev_app_distr. reflexivity.
Qed.

Lemma str_strip_fixed (s : list Ascii.ascii) :
  (forall c t, s = c :: t -> is_space c = false) ->
  (forall c t, s = t ++ [c] -> is_space c = false) ->
  str_strip s = s.
Proof.
  intros Hhead Hlast. unfold str_strip.
  rewrite (str_lstrip_fixed s Hhead).
  rewrite (str_lstrip_fixed (rev s)); [apply rev_involutive |].
  intros c t E. apply (Hlast c (rev t)).
  rewrite <- (rev_involutive s), E. reflexivity.
Qed.

Lemma map_fixed {A : Type} (f : A -> A) (P : A -> Prop) (s : list A) :
  (forall c, P c -> f c = c) -> Forall P s -> map f s = s.
Proof.
  intros Hf Hs. induction Hs as [| c s Hc Hs IH]; [reflexivity |].
  cbn. rewrite (Hf c Hc), IH. reflexivity.
Qed.

Lemma filter_fixed {A : Type} (f : A -> bool) (P : A -> Prop) (s : list A) :
  (forall c, P c -> f c = true) -> Forall P s -> List.filter f s = s.
Proof.
  intros Hf Hs. induction Hs as [| c s Hc Hs IH]; [reflexivity |].
  cbn. rewrite (Hf c Hc), IH. reflexivity.
Qed.

Lemma str_before_fixed (sep : nat) (s : list Ascii.ascii) :
  Forall (fun c => code c <> sep) s -> str_before sep s = s.
Proof.
  intros Hs. induction Hs as [| c s Hc Hs IH]; [reflexivity |].
  cbn [str_before]. apply Nat.eqb_neq in Hc. rewrite Hc, IH. reflexivity.
Qed.

Lemma clean_col_chars_codes (col : list Ascii.ascii) :
  is_ascii col -> Forall (fun c => clean_code (code c)) (clean_col_chars col).
Proof.
  intros Hcol. unfold clean_col_chars.
  apply str_strip_codes.
  pose proof (str_lower_codes col Hcol) as H1.
  set (P1 := fun n => (n < 128 /\ ~ (65 <= n <= 90))%nat).
  set (P2 := fun n => P1 n /\ n <> 32%nat).
  set (P3 := fun n => P2 n /\ n <> 58%nat).
  set (P4 := fun n => P3 n /\ n <> 46%nat).
  set (P5 := fun n => P4 n /\ n <> 45%nat).
  apply (str_replace_codes P1 32 95) in H1; [| lia | lia | unfold P1; lia].
  apply (str_remove_codes P2 58) in H1.
  apply (str_remove_codes P3 46) in H1.
  apply (str_replace_codes P4 45 95) in H1;
    [| lia | lia | unfold P4, P3, P2, P1; lia].
  apply (str_before_codes P5 40) in H1.
  eapply List.Forall_impl; [| exact H1].
  intros c Hc. cbn beta in Hc. unfold P5, P4, P3, P2, P1 in Hc.
  unfold clean_code. lia.
Qed.

Lemma clean_col_chars_fixed (r : list Ascii.ascii) :
  Forall (fun c => clean_code (code c)) r ->
  (forall c t, r = c :: t -> is_space c = false) ->
  (forall c t, r = t ++ [c] -> is_space c = false) ->
  clean_col_chars r = r.
Proof.
  intros Hr Hhead Hlast. unfold clean_col_chars, str_lower, str_replace, str_remove.
  rewrite (map_fixed lower_char (fun c => clean_code (code c)) r); [| | exact Hr].
  2:{ intros c Hc. unfold lower_char, clean_code in *.
      destruct ((65 <=? code c) && (code c <=? 90))%nat eqn:E; [| reflexivity].
      apply andb_true_iff in E. destruct E as (E1 & E2).
      apply Nat.leb_le in E1, E2. lia. }
  rewrite (map_fixed _ (fun c => clean_code (code c)) r); [| | exact Hr].
  2:{ intros c Hc. unfold clean_code in Hc.
      destruct (code c =? 32)%nat eqn:E; [apply Nat.eqb_eq in E; lia | reflexivity]. }
  rewrite (filter_fixed _ (fun c => clean_code (code c)) r); [| | exact Hr].
  2:{ intros c Hc. unfold clean_code in Hc.
      apply negb_true_iff, Nat.eqb_neq. lia. }
  rewrite (filter_fixed _ (fun c => clean_code (code c)) r); [| | exact Hr].
  2:{ intros c Hc. unfold clean_code in Hc.
      apply negb_true_iff, Nat.eqb_neq. lia. }
  rewrite (map_fixed _ (fun c => clean_code (code c)) r); [| | exact Hr].
  2:{ intros c Hc. unfold clean_code in Hc.
      destruct (code c =? 45)%nat eqn:E; [apply Nat.eqb_eq in E; lia | reflexivity]. }
  rewrite str_before_fixed.
  - apply str_strip_fixed; assumption.
  - eapply List.Forall_impl; [| exact Hr]. intros c Hc. unfold clean_code in Hc. lia.
Qed.

(** X6: for a header of ASCII characters, the cleaned column name
    consists of ASCII characters other than upper-case letters, the
    space, ':', '.', '-' and '('; it neither starts nor ends with a
    character [strip] removes; and cleaning it again changes nothing. *)
Theorem clean_col_name_normal_form (col : string) :
  is_ascii (String.list_ascii_of_string col) ->
  let r := String.list_ascii_of_string (clean_col_name col) in
  Forall (fun c => clean_code (code c)) r /\
  (forall c t, r = c :: t -> is_space c = false) /\
  (forall c t, r = t ++ [c] -> is_space c = false) /\
  clean_col_name (clean_col_name col) = clean_col_name col.
Proof.
  intros Hcol. cbv zeta. unfold clean_col_name.
  rewrite !String.list_ascii_of_string_of_list_ascii.
  pose proof (clean_col_chars_codes _ Hcol) as Hcodes.
  destruct (str_strip_ends
              (str_before 40
                 (str_replace 45 95
                    (str_remove 46
                       (str_remove 58
                          (str_replace 32 95
                             (str_lower (String.list_ascii_of_string col))))))))
    as (Hhead & Hlast).
  fold (clean_col_chars (String.list_ascii_of_string col)) in Hhead, Hlast.
  split; [exact Hcodes |]. split; [exact Hhead |]. split; [exact Hlast |].
  rewrite clean_col_chars_fixed; [reflexivity | assumption ..].
Qed.

(** The headers the program relies on: the index, the level read by the
    cycle and the two forecast targets.  A space at the end of a header is
    turned into an underscore before [strip] could remove it. *)
Example clean_col_name_headers :
  clean_col_name "Time stamp" = "time_stamp" /\
  clean_col_name "Water level in tunnel L2 (m)" = "water_level_in_tunnel_l2_" /\
  clean_col_name "Water level in tunnel L2" = "water_level_in_tunnel_l2" /\
  clean_col_name "Inflow to tunnel F1" = "inflow_to_tunnel_f1" /\
  clean_col_name "Electricity price 1: high" = "electricity_price_1_high".
Proof. repeat split; vm_compute; reflexivity. Qed.

Lemma clean_col_name_normal_form_witness :
  clean_col_name (clean_col_name "Electricity price 1: high")
  = clean_col_name "Electricity price 1: high".
Proof.
  refine (proj2 (proj2 (proj2
            (clean_col_name_normal_form "Electricity price 1: high" _)))).
  unfold is_ascii. vm_compute. repeat constructor.
Defined.

(** ** agents/inflow_agent.py: the weather forecast *)

(** X7: the weather forecast raises IndexError on an empty history,
    whatever the service gave; otherwise it returns at most [n_steps]
    rows, all with time stamps of the forecast window (the [n_steps]
    quarter hours after the last history row), and when the service or the
    resampling failed exactly one row of zero rain and zero snow per time
    stamp of the window. *)
Theorem fetch_weather_forecast_window (self : InflowAgent)
    (weather_15min : res (list (Z * (R * R)))) (n_steps : nat) :
  (pd.index (inflow_history_df self) = [] ->
   fetch_weather_forecast self weather_15min n_steps = Raise IndexError) /\
  (forall last_op_time,
     last (pd.index (inflow_history_df self)) = Some last_op_time ->
     let window := pd.date_range (last_op_time + pd.minutes15) n_steps in
     exists rows,
       fetch_weather_forecast self weather_15min n_steps = Ok rows /\
       (length rows <= n_steps)%nat /\
       Forall (fun r => fst r ∈ window) rows /\
       (forall e, weather_15min = Raise e ->
                  rows = map (fun t => (t, (0, 0))) window)).
Proof.
  unfold fetch_weather_forecast. split.
  - intros Hempty. rewrite Hempty. cbn.
    destruct weather_15min as [rows | e]; reflexivity.
  - intros last_op_time Hlast. cbv zeta. unfold pd.iloc_last. rewrite Hlast.
    destruct weather_15min as [rows | e]; cbn [rbind try_except].
    + eexists. split; [reflexivity |]. split; [| split].
      * rewrite length_take. lia.
      * apply List.Forall_forall. intros r Hr.
        apply list_elem_of_In, elem_of_take in Hr.
        destruct Hr as (i & Hr & _).
        apply list_elem_of_lookup_2, list_elem_of_In, filter_In in Hr.
        destruct Hr as (_ & Hr). apply bool_decide_eq_true_1 in Hr. exact Hr.
      * intros e He. discriminate.
    + eexists. split; [reflexivity |]. split; [| split].
      * rewrite length_map, date_range_length. lia.
      * apply List.Forall_forall. intros r Hr.
        apply in_map_iff in Hr. destruct Hr as (t & <- & Ht).
        apply list_elem_of_In. exact Ht.
      * intros e' _. reflexivity.
Qed.

Lemma fetch_weather_forecast_window_witness :
  exists rows,
    fetch_weather_forecast inflow_agent_two_rows (Raise OtherError) 3 = Ok rows /\
    (length rows <= 3)%nat /\
    Forall (fun r => fst r ∈ pd.date_range (900 + pd.minutes15) 3) rows /\
    rows = map (fun t => (t, (0, 0))) (pd.date_range (900 + pd.minutes15) 3).
Proof.
  destruct (proj2 (fetch_weather_forecast_window inflow_agent_two_rows
                     (Raise OtherError) 3) 900%Z eq_refl)
    as (rows & Hrows & Hlen & Hwin & Hzero).
  exists rows. repeat split; try assumption.
  apply (Hzero OtherError). reflexivity.
Defined.

(** ** agents/inflow_agent.py: the weather does not reach the forecast *)

Lemma for_each_ext {S X : Type} (body1 body2 : X -> S -> res S) (xs : list X) :
  (forall x s, In x xs -> body1 x s = body2 x s) ->
  forall s, for_each xs body1 s = for_each xs body2 s.
Proof.
  induction xs as [| x xs IH]; intros Hext s; [reflexivity |].
  cbn [for_each]. rewrite (Hext x s) by (left; reflexivity).
  destruct (body2 x s) as [s' | e]; cbn [rbind]; [| reflexivity].
  apply IH. intros y t Hy. apply Hext. right. exact Hy.
Qed.

Lemma add_weather_cell X_pred weather_forecast (i : nat) (c : string) :
  c <> "rain_mm" -> c <> "snow_cm" ->
  pd.cell (add_weather X_pred weather_forecast) i c = pd.cell X_pred i c.
Proof.
  intros Hr Hs. unfold add_weather.
  destruct weather_forecast as [rows | e]; [| reflexivity].
  destruct (align _ _ _); [| reflexivity].
  destruct (align _ _ _);
    rewrite ?setitem_cell_other by assumption; reflexivity.
Qed.

Lemma iloc_cell_add_weather X_pred weather_forecast (i : nat) (c : string) :
  c ∈ pd.columns X_pred -> c <> "rain_mm" -> c <> "snow_cm" ->
  iloc_cell (add_weather X_pred weather_forecast) i c = iloc_cell X_pred i c.
Proof.
  intros Hc Hr Hs. unfold iloc_cell, pd.nrows.
  rewrite add_weather_index, add_weather_cell by assumption.
  rewrite (bool_decide_eq_true_2 _ Hc).
  rewrite (bool_decide_eq_true_2 _ (add_weather_columns _ _ _ Hc)).
  reflexivity.
Qed.

Lemma current_features_add_weather features last_values idx weather_forecast i :
  let X_pred := with_calendar (pd.mkDataFrame idx [] (fun _ _ => None)) in
  current_features features last_values (add_weather X_pred weather_forecast) i
  = current_features features last_values X_pred i.
Proof.
  cbv zeta. unfold current_features.
  rewrite !iloc_cell_add_weather;
    first [reflexivity | discriminate
          | apply with_calendar_has_hour | apply with_calendar_has_dayofweek].
Qed.

(** X8: the inflow forecast does not depend on the weather forecast: for
    every two outcomes of the weather fetch (rows of any number and
    content, or an exception) [forecast_inflow] returns the same series or
    raises the same exception; the weather columns are added to the
    prediction table and never read. *)
Theorem forecast_inflow_ignores_weather (Regressor : Type)
    (fit : pd.DataFrame R -> list R -> res Regressor)
    (predict : Regressor -> list (string * option R) -> R)
    (self : InflowAgent) (weather1 weather2 : res (list (Z * (R * R))))
    (n_steps : nat) :
  forecast_inflow Regressor fit predict self weather1 n_steps
  = forecast_inflow Regressor fit predict self weather2 n_steps.
Proof.
  unfold forecast_inflow.
  destruct (with_lags _ _) as [df_hist | e]; cbn [rbind]; [| reflexivity].
  destruct (pd.getitem_cols _ _) as [X_train | e]; cbn [rbind]; [| reflexivity].
  destruct (pd.getitem _ _) as [y_train | e]; cbn [rbind]; [| reflexivity].
  destruct (fit _ _) as [model | e]; cbn [rbind]; [| reflexivity].
  destruct (pd.iloc_last _) as [last_op_time | e]; cbn [rbind]; [| reflexivity].
  destruct (pd.iloc_last_to_dict _) as [last_values | e]; cbn [rbind];
    [| reflexivity].
  rewrite !add_weather_index.
  erewrite for_each_ext; [reflexivity |].
  intros i [lv acc] _.
  rewrite !current_features_add_weather. reflexivity.
Qed.

(** ** The training table: calendar columns, lag columns, [dropna] *)

Lemma filter_seq_from (f : nat -> bool) (k n : nat) :
  (forall i, (i < k)%nat -> (i < n)%nat -> f i = false) ->
  (forall i, (k <= i)%nat -> (i < n)%nat -> f i = true) ->
  List.filter f (seq 0 n) = seq k (n - k).
Proof.
  intros Hlow Hhigh. destruct (le_lt_dec n k) as [Hnk | Hkn].
  - replace (n - k)%nat with O by lia. cbn [seq].
    apply filter_nil_of_all_false. intros i Hi. apply in_seq in Hi.
    apply Hlow; lia.
  - replace n with (k + (n - k))%nat at 1 by lia.
    rewrite seq_app, List.filter_app. cbn [Nat.add].
    rewrite filter_nil_of_all_false.
    + cbn [app]. apply forallb_filter_id. apply forallb_forall.
      intros i Hi. apply in_seq in Hi. apply Hhigh; lia.
    + intros i Hi. apply in_seq in Hi. apply Hlow; lia.
Qed.

Lemma map_nth_seq_drop {A : Type} (l : list A) (d : A) (k : nat) :
  map (fun i => nth i l d) (seq k (length l - k)) = drop k l.
Proof.
  revert l. induction k as [| k IH]; intros l.
  - rewrite Nat.sub_0_r, drop_0.
    induction l as [| a l IHl]; [reflexivity |].
    cbn [length seq map nth]. f_equal.
    rewrite <- seq_shift, map_map. exact IHl.
  - destruct l as [| a l]; [reflexivity |].
    cbn [length drop Nat.sub]. rewrite <- seq_shift, map_map. cbn [nth].
    apply IH.
Qed.

Lemma map_lookup {A B : Type} (f : A -> B) (l : list A) (i : nat) (x : A) :
  l !! i = Some x -> map f l !! i = Some (f x).
Proof.
  revert i. induction l as [| a l IH]; intros i H; [destruct i; discriminate |].
  destruct i as [| i]; cbn in *; [congruence | apply IH, H].
Qed.

Lemma col_values_lookup_lt {A : Type} (df : pd.DataFrame A) (c : string) (i : nat) :
  (i < pd.nrows df)%nat -> pd.col_values df c !! i = Some (pd.cell df i c).
Proof.
  intros Hi. unfold pd.col_values.
  apply (map_lookup (fun i => pd.cell df i c)).
  rewrite lookup_seq_lt by exact Hi. reflexivity.
Qed.

Lemma shift_lookup (lag i : nat) (xs : list (option R)) :
  (lag <= i)%nat -> (i < length xs)%nat ->
  pd.shift lag xs !! i = xs !! (i - lag)%nat.
Proof.
  intros Hle Hlen. unfold pd.shift.
  rewrite lookup_take_lt by exact Hlen.
  rewrite lookup_app_r by (rewrite length_replicate; exact Hle).
  rewrite length_replicate. reflexivity.
Qed.

(** One lag column: its cell in row [i >= lag] is the target cell [lag]
    rows earlier. *)
Lemma lag_column_cell (df : pd.DataFrame (option R)) (target_col c : string)
    (lag i : nat) :
  (lag <= i)%nat -> (i < pd.nrows df)%nat ->
  pd.cell (pd.setitem df c (pd.shift lag (pd.col_values df target_col))) i c
  = pd.cell df (i - lag) target_col.
Proof.
  intros Hle Hi. apply setitem_cell_same.
  rewrite shift_lookup by (rewrite ?col_values_length; assumption).
  apply col_values_lookup_lt. lia.
Qed.

Lemma with_lags_cells (target_col : string) (df df' : pd.DataFrame (option R))
    (i : nat) :
  with_lags target_col df = Ok df' ->
  (forall k, k <> lag_column target_col 1 -> k <> lag_column target_col 4 ->
             k <> lag_column target_col 24 -> pd.cell df' i k = pd.cell df i k) /\
  ((i < pd.nrows df)%nat ->
   ((1 <= i)%nat ->
    pd.cell df' i (lag_column target_col 1) = pd.cell df (i - 1) target_col) /\
   ((4 <= i)%nat ->
    pd.cell df' i (lag_column target_col 4) = pd.cell df (i - 4) target_col) /\
   ((24 <= i)%nat ->
    pd.cell df' i (lag_column target_col 24) = pd.cell df (i - 24) target_col)).
Proof.
  intros H. unfold with_lags in H. cbn [for_each] in H.
  apply rbind_Ok in H. destruct H as (df1 & H1 & H).
  apply rbind_Ok in H1. destruct H1 as (col1 & Hc1 & H1). injection H1 as <-.
  apply rbind_Ok in H. destruct H as (df2 & H2 & H).
  apply rbind_Ok in H2. destruct H2 as (col2 & Hc2 & H2). injection H2 as <-.
  apply rbind_Ok in H. destruct H as (df3 & H3 & H).
  apply rbind_Ok in H3. destruct H3 as (col3 & Hc3 & H3). injection H3 as <-.
  injection H as <-.
  unfold pd.getitem in Hc1, Hc2, Hc3.
  destruct (bool_decide _) in Hc1; [injection Hc1 as <- | discriminate].
  destruct (bool_decide _) in Hc2; [injection Hc2 as <- | discriminate].
  destruct (bool_decide _) in Hc3; [injection Hc3 as <- | discriminate].
  change (Z.to_nat 1) with 1%nat. change (Z.to_nat 4) with 4%nat.
  change (Z.to_nat 24) with 24%nat.
  set (df1 := pd.setitem df (lag_column target_col 1)
                (pd.shift 1 (pd.col_values df target_col))).
  set (df2 := pd.setitem df1 (lag_column target_col 4)
                (pd.shift 4 (pd.col_values df1 target_col))).
  assert (T1 : forall j, pd.cell df1 j target_col = pd.cell df j target_col).
  { intros j. unfold df1. apply setitem_cell_other.
    intros E. symmetry in E. exact (lag_column_ne_target _ _ E). }
  assert (T2 : forall j, pd.cell df2 j target_col = pd.cell df j target_col).
  { intros j. unfold df2. rewrite setitem_cell_other; [apply T1 |].
    intros E. symmetry in E. exact (lag_column_ne_target _ _ E). }
  split.
  - intros k K1 K4 K24.
    rewrite setitem_cell_other by exact K24.
    unfold df2. rewrite setitem_cell_other by exact K4.
    unfold df1. rewrite setitem_cell_other by exact K1. reflexivity.
  - intros Hi. split; [| split]; intros Hle.
    + rewrite setitem_cell_other by lag_ne.
      unfold df2. rewrite setitem_cell_other by lag_ne.
      unfold df1. apply lag_column_cell; assumption.
    + rewrite setitem_cell_other by lag_ne.
      unfold df2. rewrite lag_column_cell by assumption. apply T1.
    + rewrite lag_column_cell by assumption. apply T2.
Qed.

Lemma contains_lag_hour : contains "lag" "hour" = false.
Proof. reflexivity. Qed.

Lemma contains_lag_dayofweek : contains "lag" "dayofweek" = false.
Proof. reflexivity. Qed.

Lemma lag_column_ne_hour (target_col : string) (lag : Z) :
  "hour" <> lag_column target_col lag.
Proof.
  intros E. pose proof (lag_column_contains_lag target_col lag) as C.
  rewrite <- E in C. discriminate.
Qed.

Lemma lag_column_ne_dayofweek (target_col : string) (lag : Z) :
  "dayofweek" <> lag_column target_col lag.
Proof.
  intros E. pose proof (lag_column_contains_lag target_col lag) as C.
  rewrite <- E in C. discriminate.
Qed.

Lemma with_calendar_cells (df : pd.DataFrame (option R)) (i : nat) (t : Z) :
  (forall k, k <> "hour" -> k <> "dayofweek" ->
             pd.cell (with_calendar df) i k = pd.cell df i k) /\
  (pd.index df !! i = Some t ->
   pd.cell (with_calendar df) i "hour" = Some (IZR (pd.hour t)) /\
   pd.cell (with_calendar df) i "dayofweek" = Some (IZR (pd.dayofweek t))).
Proof.
  unfold with_calendar. split.
  - intros k Kh Kd. rewrite !setitem_cell_other by assumption. reflexivity.
  - intros Ht. split.
    + rewrite setitem_cell_other by discriminate.
      apply setitem_cell_same.
      apply (map_lookup (fun t => Some (IZR (pd.hour t)))). exact Ht.
    + apply setitem_cell_same. cbn [pd.setitem pd.index].
      apply (map_lookup (fun t => Some (IZR (pd.dayofweek t)))). exact Ht.
Qed.

(** The training rows both forecasters build: the history from its 25th
    row on, each row with the target 1, 4 and 24 rows earlier and the
    hour and week day of its own time stamp. *)
Lemma lagged_rows (target_col : string) (history_df : pd.DataFrame R)
    (df' : pd.DataFrame (option R)) :
  with_lags target_col (with_calendar (pd.copy history_df)) = Ok df' ->
  target_col <> "hour" -> target_col <> "dayofweek" ->
  let out := pd.dropna df' in
  pd.index out = drop 24 (pd.index history_df) /\
  forall i, (i < pd.nrows history_df - 24)%nat ->
    pd.cell out i (lag_column target_col 1)
      = pd.cell history_df (i + 23) target_col /\
    pd.cell out i (lag_column target_col 4)
      = pd.cell history_df (i + 20) target_col /\
    pd.cell out i (lag_column target_col 24)
      = pd.cell history_df i target_col /\
    pd.cell out i "hour"
      = IZR (pd.hour (nth (i + 24) (pd.index history_df) 0%Z)) /\
    pd.cell out i "dayofweek"
      = IZR (pd.dayofweek (nth (i + 24) (pd.index history_df) 0%Z)) /\
    (forall k, k <> "hour" -> k <> "dayofweek" ->
               k <> lag_column target_col 1 -> k <> lag_column target_col 4 ->
               k <> lag_column target_col 24 ->
               pd.cell out i k = pd.cell history_df (i + 24) k).
Proof.
  intros Hok Hh Hd. cbv zeta.
  set (df := with_calendar (pd.copy history_df)) in *.
  assert (Ht : target_col ∈ pd.columns df).
  { destruct (decide (target_col ∈ pd.columns df)) as [Ht | Ht]; [exact Ht |].
    rewrite with_lags_missing_target in Hok by exact Ht. discriminate. }
  destruct (with_lags_Ok target_col df Ht)
    as (df'' & Hok' & Hidx & _ & _ & _ & H24 & Hnone).
  rewrite Hok in Hok'. injection Hok' as <-.
  assert (Hn : pd.nrows df' = pd.nrows history_df)
    by (unfold pd.nrows; rewrite Hidx; reflexivity).
  assert (Hkept : List.filter (pd.row_complete df') (seq 0 (pd.nrows df'))
                  = seq 24 (pd.nrows history_df - 24)).
  { rewrite Hn. apply filter_seq_from.
    - intros i Hi Hin. unfold pd.row_complete.
      apply not_true_is_false. intros Hall. rewrite forallb_forall in Hall.
      assert (Hin24 : In (lag_column target_col 24) (pd.columns df'))
        by (apply list_elem_of_In; exact H24).
      specialize (Hall _ Hin24). apply bool_decide_eq_true_1 in Hall.
      rewrite Hnone in Hall by assumption. destruct Hall as [x Hx]. discriminate.
    - intros i Hi Hin. unfold pd.row_complete. apply forallb_forall.
      intros c _. apply bool_decide_eq_true_2.
      apply (with_lags_rows_complete target_col df df'); [| exact Hok | exact Hi].
      intros j k. apply with_calendar_cell_is_Some.
      intros k'. eexists. reflexivity. }
  split.
  { unfold pd.dropna. cbn [pd.index]. rewrite Hkept, Hidx.
    change (pd.index df) with (pd.index history_df).
    apply map_nth_seq_drop. }
  intros i Hi.
  assert (Hcell : forall c, pd.cell (pd.dropna df') i c
                            = default 0 (pd.cell df' (24 + i) c)).
  { intros c. unfold pd.dropna. cbn [pd.cell]. rewrite Hkept.
    rewrite lookup_seq_lt by exact Hi. reflexivity. }
  destruct (with_lags_cells target_col df df' (24 + i) Hok) as (Hother & Hlags).
  destruct Hlags as (L1 & L4 & L24);
    [change (pd.nrows df) with (pd.nrows history_df); lia |].
  assert (Htarget : forall j, pd.cell df j target_col
                              = Some (pd.cell history_df j target_col)).
  { intros j. unfold df.
    rewrite (proj1 (with_calendar_cells _ j 0%Z)) by assumption. reflexivity. }
  assert (Hti : pd.index (pd.copy history_df) !! (24 + i)%nat
                = Some (nth (i + 24) (pd.index history_df) 0%Z)).
  { cbn [pd.copy pd.index]. replace (i + 24)%nat with (24 + i)%nat by lia.
    destruct (lookup_lt_is_Some_2 (pd.index history_df) (24 + i)) as [t Ht'];
      [unfold pd.nrows in Hi; lia |].
    rewrite Ht'. f_equal. symmetry. apply nth_lookup_Some. exact Ht'. }
  destruct (proj2 (with_calendar_cells (pd.copy history_df) (24 + i) _) Hti)
    as (Hhour & Hdow).
  rewrite !Hcell.
  rewrite L1, L4, L24 by lia. rewrite !Htarget.
  rewrite (Hother "hour") by apply lag_column_ne_hour.
  rewrite (Hother "dayofweek") by apply lag_column_ne_dayofweek.
  fold df in Hhour, Hdow. rewrite Hhour, Hdow. cbn [default].
  replace (24 + i - 1)%nat with (i + 23)%nat by lia.
  replace (24 + i - 4)%nat with (i + 20)%nat by lia.
  replace (24 + i - 24)%nat with i by lia.
  repeat (split; [reflexivity |]).
  intros k Kh Kd K1 K4 K24. rewrite Hcell, Hother by assumption.
  unfold df. rewrite (proj1 (with_calendar_cells _ _ 0%Z)) by assumption.
  cbn [pd.copy pd.cell default]. replace (24 + i)%nat with (i + 24)%nat by lia.
  reflexivity.
Qed.

(** ** agents/price_agent.py: [_create_features] *)

(** X11: [_create_features] raises KeyError when the table lacks the
    target column; otherwise it returns the table without its first 24
    rows (whatever their number), each remaining row keeping its time
    stamp and its own cells and carrying the target value 1, 4 and 24
    rows earlier in the three lag columns and the hour and week day of
    its time stamp in the calendar columns.  The target column is assumed
    not to be named hour or dayofweek. *)
Theorem create_features_rows (self : PriceAgent) (df : pd.DataFrame R) :
  let target_col := price_target_col self in
  target_col <> "hour" -> target_col <> "dayofweek" ->
  (target_col ∉ pd.columns df ->
   _create_features self df = Raise (KeyError target_col)) /\
  (target_col ∈ pd.columns df ->
   exists out,
     _create_features self df = Ok out /\
     pd.index out = drop 24 (pd.index df) /\
     pd.nrows out = (pd.nrows df - 24)%nat /\
     (forall k, k ∈ pd.columns df -> k ∈ pd.columns out) /\
     (forall k, k ∈ ["hour"; "dayofweek"; lag_column target_col 1;
                     lag_column target_col 4; lag_column target_col 24] ->
                k ∈ pd.columns out) /\
     forall i, (i < pd.nrows df - 24)%nat ->
       pd.cell out i (lag_column target_col 1) = pd.cell df (i + 23) target_col /\
       pd.cell out i (lag_column target_col 4) = pd.cell df (i + 20) target_col /\
       pd.cell out i (lag_column target_col 24) = pd.cell df i target_col /\
       pd.cell out i "hour" = IZR (pd.hour (nth (i + 24) (pd.index df) 0%Z)) /\
       pd.cell out i "dayofweek"
         = IZR (pd.dayofweek (nth (i + 24) (pd.index df) 0%Z)) /\
       (forall k, k <> "hour" -> k <> "dayofweek" ->
                  k <> lag_column target_col 1 -> k <> lag_column target_col 4 ->
                  k <> lag_column target_col 24 ->
                  pd.cell out i k = pd.cell df (i + 24) k)).
Proof.
  cbv zeta. intros Hh Hd. unfold _create_features. split.
  - intros Ht. rewrite with_lags_missing_target; [reflexivity |].
    intros Hin. unfold with_calendar in Hin.
    apply setitem_columns_inv in Hin. destruct Hin as [Hin | E]; [| tauto].
    apply setitem_columns_inv in Hin. destruct Hin as [Hin | E]; tauto.
  - intros Ht.
    assert (Htd : price_target_col self ∈ pd.columns (with_calendar (pd.copy df)))
      by (apply with_calendar_columns, copy_columns, Ht).
    destruct (with_lags_Ok _ _ Htd) as (df' & Hok & Hidx & Hcols & C1 & C4 & C24 & _).
    rewrite Hok. cbn [rbind]. eexists. split; [reflexivity |].
    destruct (lagged_rows _ _ _ Hok Hh Hd) as (Hindex & Hcells).
    split; [exact Hindex |].
    split; [unfold pd.nrows; rewrite Hindex, length_drop; reflexivity |].
    split; [intros k Hk; apply Hcols, with_calendar_columns, copy_columns, Hk |].
    split; [| exact Hcells].
    intros k Hk. cbn [pd.dropna pd.columns].
    repeat (apply elem_of_cons in Hk; destruct Hk as [-> | Hk]);
      [apply Hcols, with_calendar_has_hour
      | apply Hcols, with_calendar_has_dayofweek
      | exact C1 | exact C4 | exact C24
      | apply elem_of_nil in Hk; contradiction].
Qed.

Lemma create_features_rows_witness :
  exists out,
    _create_features price_agent_26_rows history_26_rows = Ok out /\
    pd.index out = drop 24 (pd.date_range 0 26) /\
    pd.cell out 1 (lag_column "electricity_price_1_high" 1) = INR 24 /\
    pd.cell out 1 (lag_column "electricity_price_1_high" 24) = INR 1.
Proof.
  destruct (create_features_rows price_agent_26_rows history_26_rows)
    as (_ & H); [discriminate | discriminate |].
  destruct H as (out & Hout & Hidx & _ & _ & _ & Hcells).
  { apply list_elem_of_In. cbn. right. left. reflexivity. }
  exists out. split; [exact Hout |]. split; [exact Hidx |].
  destruct (Hcells 1%nat) as (H1 & _ & H24 & _); [vm_compute; lia |].
  split; [exact H1 | exact H24].
Defined.

(** ** The forecast loops as a recursion *)

Lemma fed_back_length predict1 target_col v ts :
  length (fed_back predict1 target_col v ts) = length ts.
Proof.
  revert v. induction ts as [| t ts IH]; intros v; [reflexivity |].
  cbn [fed_back length]. rewrite IH. reflexivity.
Qed.

Lemma first_then_fed_back_length predict1 target_col a b c ts :
  length (first_then_fed_back predict1 target_col a b c ts) = length ts.
Proof.
  destruct ts as [| t ts]; [reflexivity |].
  cbn [first_then_fed_back length]. rewrite fed_back_length. reflexivity.
Qed.

(** After a pass of the lag update on a state without keys for lags 23
    and 3, all three lags hold the fresh prediction. *)
Lemma update_lags_fed_back (target_col : string) (next_value : R)
    (last_values : gmap string R) :
  last_values !! lag_column target_col 23 = None ->
  last_values !! lag_column target_col 3 = None ->
  is_Some (last_values !! lag_column target_col 24) ->
  is_Some (last_values !! lag_column target_col 4) ->
  let after := update_lags target_col next_value last_values in
  after !! lag_column target_col 1 = Some next_value /\
  after !! lag_column target_col 4 = Some next_value /\
  after !! lag_column target_col 24 = Some next_value /\
  after !! lag_column target_col 23 = None /\
  after !! lag_column target_col 3 = None.
Proof.
  intros H23 H3 H24 H4. cbv zeta.
  rewrite update_lags_no_predecessor by assumption.
  repeat split.
  - apply lookup_insert_eq.
  - rewrite lookup_insert_ne by lag_ne. apply lookup_insert_eq.
  - rewrite !lookup_insert_ne by lag_ne. apply lookup_insert_eq.
  - rewrite !lookup_insert_ne by lag_ne. exact H23.
  - rewrite !lookup_insert_ne by lag_ne. exact H3.
Qed.

(** The feature row of a step: the three lag values of the state, then
    the hour and the week day of the step's time stamp. *)
Lemma current_features_step (target_col : string) (a b c : R)
    (last_values : gmap string R) (idx : list Z) (i : nat) (t : Z) :
  last_values !! lag_column target_col 1 = Some a ->
  last_values !! lag_column target_col 4 = Some b ->
  last_values !! lag_column target_col 24 = Some c ->
  idx !! i = Some t ->
  current_features (feature_columns target_col) last_values
    (with_calendar (pd.mkDataFrame idx [] (fun _ _ => None))) i
  = Ok (step_features target_col a b c t).
Proof.
  intros Ha Hb Hc Ht. unfold current_features, lag_features, feature_columns.
  cbn [List.filter]. rewrite contains_lag_hour, contains_lag_dayofweek.
  rewrite !lag_column_contains_lag. cbn [for_each].
  rewrite Ha. cbn [rbind dict_set]. rewrite Hb. cbn [rbind dict_set].
  rewrite bool_decide_eq_false_2 by lag_ne.
  rewrite Hc. cbn [rbind dict_set].
  rewrite !bool_decide_eq_false_2 by lag_ne.
  set (X_pred := with_calendar _).
  assert (Hi : (i < pd.nrows X_pred)%nat).
  { unfold X_pred, pd.nrows. rewrite with_calendar_index. cbn [pd.index].
    apply lookup_lt_Some in Ht. exact Ht. }
  rewrite (iloc_cell_Ok X_pred i "hour" Hi (with_calendar_has_hour _)).
  rewrite (iloc_cell_Ok X_pred i "dayofweek" Hi (with_calendar_has_dayofweek _)).
  destruct (proj2 (with_calendar_cells
                     (pd.mkDataFrame idx [] (fun _ _ => None)) i t) Ht)
    as (Hhour & Hdow).
  fold X_pred in Hhour, Hdow. rewrite Hhour, Hdow.
  cbn [rbind dict_set].
  rewrite !(bool_decide_eq_false_2 (lag_column target_col _ = "hour"))
    by (intros E; symmetry in E; exact (lag_column_ne_hour _ _ E)).
  cbn [dict_set].
  rewrite !(bool_decide_eq_false_2 (lag_column target_col _ = "dayofweek"))
    by (intros E; symmetry in E; exact (lag_column_ne_dayofweek _ _ E)).
  reflexivity.
Qed.

Section ForecastLoop.
Variable predict1 : list (string * option R) -> R.
Variable target_col : string.
Variable g : R -> R.
Variable idx : list Z.
Variable body : nat -> gmap string R * list R -> res (gmap string R * list R).
Hypothesis body_eq : forall i last_values acc,
  body i (last_values, acc)
  = (feats <-- current_features (feature_columns target_col) last_values
                 (with_calendar (pd.mkDataFrame idx [] (fun _ _ => None))) i ;;
     Ok (update_lags target_col (predict1 feats) last_values,
         acc ++ [g (predict1 feats)])).

Lemma forecast_step (a b c : R) (last_values : gmap string R) (acc : list R)
    (i : nat) (t : Z) :
  last_values !! lag_column target_col 1 = Some a ->
  last_values !! lag_column target_col 4 = Some b ->
  last_values !! lag_column target_col 24 = Some c ->
  idx !! i = Some t ->
  let v := predict1 (step_features target_col a b c t) in
  body i (last_values, acc)
  = Ok (update_lags target_col v last_values, acc ++ [g v]).
Proof.
  intros Ha Hb Hc Ht. cbv zeta. rewrite body_eq.
  rewrite (current_features_step target_col a b c last_values idx i t)
    by assumption.
  reflexivity.
Qed.

Lemma forecast_loop_fed_back (ts : list Z) :
  forall (k n : nat) (last_values : gmap string R) (acc : list R) (v : R),
    drop k idx = ts -> n = length ts ->
    last_values !! lag_column target_col 1 = Some v ->
    last_values !! lag_column target_col 4 = Some v ->
    last_values !! lag_column target_col 24 = Some v ->
    last_values !! lag_column target_col 23 = None ->
    last_values !! lag_column target_col 3 = None ->
    exists last_values',
      for_each (seq k n) body (last_values, acc)
      = Ok (last_values', acc ++ map g (fed_back predict1 target_col v ts)).
Proof.
  induction ts as [| t ts IH]; intros k n lv acc v Hdrop -> H1 H4 H24 H23 H3.
  - exists lv. cbn. rewrite app_nil_r. reflexivity.
  - assert (Ht : idx !! k = Some t).
    { rewrite <- (Nat.add_0_r k), <- lookup_drop, Hdrop. reflexivity. }
    assert (Hdrop' : drop (S k) idx = ts).
    { rewrite (drop_S _ _ _ Ht) in Hdrop. injection Hdrop as E. exact E. }
    cbn [length seq for_each fed_back].
    rewrite (forecast_step v v v lv acc k t) by assumption.
    cbn [rbind].
    set (v' := predict1 (step_features target_col v v v t)).
    destruct (update_lags_fed_back target_col v' lv H23 H3)
      as (U1 & U4 & U24 & U23 & U3); [eexists; eassumption .. |].
    destruct (IH (S k) (length ts) _ (acc ++ [g v']) v' Hdrop' eq_refl
                U1 U4 U24 U23 U3) as (lv' & Hloop).
    exists lv'. rewrite Hloop. cbn [map]. rewrite <- app_assoc. reflexivity.
Qed.

Lemma forecast_loop_first_from (ts : list Z) (a b c : R)
    (last_values : gmap string R) (n : nat) :
  drop 0 idx = ts -> n = length ts ->
  last_values !! lag_column target_col 1 = Some a ->
  last_values !! lag_column target_col 4 = Some b ->
  last_values !! lag_column target_col 24 = Some c ->
  last_values !! lag_column target_col 23 = None ->
  last_values !! lag_column target_col 3 = None ->
  exists last_values',
    for_each (seq 0 n) body (last_values, [])
    = Ok (last_values',
          map g (first_then_fed_back predict1 target_col a b c ts)).
Proof.
  intros Hdrop -> H1 H4 H24 H23 H3.
  destruct ts as [| t ts].
  - exists last_values. reflexivity.
  - cbn [length seq for_each first_then_fed_back].
    assert (Ht : idx !! O = Some t).
    { rewrite <- (Nat.add_0_r 0), <- lookup_drop, Hdrop. reflexivity. }
    assert (Hdrop' : drop 1 idx = ts).
    { rewrite (drop_S _ _ _ Ht) in Hdrop. injection Hdrop as E. exact E. }
    rewrite (forecast_step a b c last_values [] O t) by assumption.
    cbn [rbind].
    set (v := predict1 (step_features target_col a b c t)).
    destruct (update_lags_fed_back target_col v last_values H23 H3)
      as (U1 & U4 & U24 & U23 & U3); [eexists; eassumption .. |].
    destruct (forecast_loop_fed_back ts 1 (length ts) _ ([] ++ [g v]) v
                Hdrop' eq_refl U1 U4 U24 U23 U3) as (lv' & Hloop).
    exists lv'. rewrite Hloop. reflexivity.
Qed.

Lemma forecast_loop_first (a b c : R) (last_values : gmap string R) (n : nat) :
  n = length idx ->
  last_values !! lag_column target_col 1 = Some a ->
  last_values !! lag_column target_col 4 = Some b ->
  last_values !! lag_column target_col 24 = Some c ->
  last_values !! lag_column target_col 23 = None ->
  last_values !! lag_column target_col 3 = None ->
  exists last_values',
    for_each (seq 0 n) body (last_values, [])
    = Ok (last_values',
          map g (first_then_fed_back predict1 target_col a b c idx)).
Proof. apply forecast_loop_first_from. apply drop_0. Qed.
End ForecastLoop.

(** ** The training table of a history without feature columns *)

Lemma setitem_columns_fresh {A : Type} (df : pd.DataFrame A) c vals :
  c ∉ pd.columns df -> pd.columns (pd.setitem df c vals) = pd.columns df ++ [c].
Proof.
  intros Hc. unfold pd.setitem. cbn [pd.columns].
  rewrite bool_decide_eq_false_2 by exact Hc. reflexivity.
Qed.

Lemma not_elem_of_history_app (cols extra : list string) (c : string) :
  (forall k, k ∈ cols -> is_feature k = false) ->
  is_feature c = true -> c ∉ extra -> c ∉ cols ++ extra.
Proof.
  intros Hnf Hc Hextra Hin. apply elem_of_app in Hin.
  destruct Hin as [Hin | Hin]; [| exact (Hextra Hin)].
  apply Hnf in Hin. congruence.
Qed.

Ltac fresh_column :=
  let H := fresh in
  intros H;
  repeat (apply elem_of_cons in H; destruct H as [H | H]);
  first [ exact (lag_column_ne_hour _ _ (eq_sym H))
        | exact (lag_column_ne_dayofweek _ _ (eq_sym H))
        | (apply lag_column_inj in H; lia)
        | discriminate H
        | (apply elem_of_nil in H; exact H) ].

Lemma last_drop_lt {A : Type} (l : list A) (k : nat) :
  (k < length l)%nat -> last (drop k l) = last l.
Proof.
  intros Hk. rewrite !last_lookup, lookup_drop, length_drop. f_equal. lia.
Qed.

Lemma lagged_table_columns (target_col : string) (history_df : pd.DataFrame R)
    (df' : pd.DataFrame (option R)) :
  with_lags target_col (with_calendar (pd.copy history_df)) = Ok df' ->
  (forall c, c ∈ pd.columns history_df -> is_feature c = false) ->
  pd.columns df' = pd.columns history_df ++ feature_columns target_col /\
  List.filter is_feature (pd.columns df') = feature_columns target_col.
Proof.
  intros H Hnf.
  assert (Hcols : pd.columns df'
                  = pd.columns history_df ++ feature_columns target_col).
  { unfold with_lags in H. cbn [for_each] in H.
    apply rbind_Ok in H. destruct H as (df1 & H1 & H).
    apply rbind_Ok in H1. destruct H1 as (col1 & _ & H1). injection H1 as <-.
    apply rbind_Ok in H. destruct H as (df2 & H2 & H).
    apply rbind_Ok in H2. destruct H2 as (col2 & _ & H2). injection H2 as <-.
    apply rbind_Ok in H. destruct H as (df3 & H3 & H).
    apply rbind_Ok in H3. destruct H3 as (col3 & _ & H3). injection H3 as <-.
    injection H as <-.
    assert (C0 : pd.columns (with_calendar (pd.copy history_df))
                 = pd.columns history_df ++ ["hour"; "dayofweek"]).
    { unfold with_calendar.
      assert (Ch : pd.columns (pd.setitem (pd.copy history_df) "hour"
                     (map (fun t => Some (IZR (pd.hour t)))
                          (pd.index (pd.copy history_df))))
                   = pd.columns history_df ++ ["hour"]).
      { rewrite setitem_columns_fresh; [reflexivity |].
        cbn [pd.copy pd.columns].
        rewrite <- (app_nil_r (pd.columns history_df)).
        apply not_elem_of_history_app; [exact Hnf | reflexivity | fresh_column]. }
      rewrite setitem_columns_fresh; rewrite Ch.
      - rewrite <- app_assoc. reflexivity.
      - apply not_elem_of_history_app; [exact Hnf | reflexivity | fresh_column]. }
    rewrite setitem_columns_fresh; rewrite setitem_columns_fresh;
      rewrite ?setitem_columns_fresh; rewrite ?C0; rewrite <- ?app_assoc;
      try (apply not_elem_of_history_app;
           [exact Hnf | apply lag_column_is_feature | cbn [app]; fresh_column]).
    reflexivity. }
  split; [exact Hcols |].
  rewrite Hcols, List.filter_app.
  rewrite filter_nil_of_all_false
    by (intros c Hc; apply Hnf, list_elem_of_In, Hc).
  unfold feature_columns. cbn [app List.filter].
  change (is_feature "hour") with true.
  change (is_feature "dayofweek") with true.
  rewrite !lag_column_is_feature. reflexivity.
Qed.

(** What both forecasters start from, for a history of at least 25 rows
    that has the target column and no feature column of its own. *)
Lemma training_table (target_col : string) (history_df : pd.DataFrame R) :
  target_col ∈ pd.columns history_df ->
  (forall c, c ∈ pd.columns history_df -> is_feature c = false) ->
  (25 <= pd.nrows history_df)%nat ->
  exists df',
    with_lags target_col (with_calendar (pd.copy history_df)) = Ok df' /\
    List.filter is_feature (pd.columns (pd.dropna df'))
      = feature_columns target_col /\
    pd.index (pd.dropna df') = drop 24 (pd.index history_df) /\
    pd.getitem (pd.dropna df') target_col
      = Ok (drop 24 (pd.col_values history_df target_col)) /\
    last (pd.index (pd.dropna df')) = last (pd.index history_df) /\
    length (pd.index (pd.dropna df')) = S (pd.nrows history_df - 25) /\
    let last_values :=
      pd.row_to_dict
        (pd.mkDataFrame (pd.index (pd.dropna df')) (feature_columns target_col)
           (pd.cell (pd.dropna df')))
        (pd.nrows history_df - 25) in
    last_values !! lag_column target_col 1
      = Some (pd.cell history_df (pd.nrows history_df - 2) target_col) /\
    last_values !! lag_column target_col 4
      = Some (pd.cell history_df (pd.nrows history_df - 5) target_col) /\
    last_values !! lag_column target_col 24
      = Some (pd.cell history_df (pd.nrows history_df - 25) target_col) /\
    last_values !! lag_column target_col 23 = None /\
    last_values !! lag_column target_col 3 = None.
Proof.
  intros Ht Hnf Hn.
  assert (Hh : target_col <> "hour").
  { intros ->. specialize (Hnf _ Ht). discriminate. }
  assert (Hd : target_col <> "dayofweek").
  { intros ->. specialize (Hnf _ Ht). discriminate. }
  assert (Htd : target_col ∈ pd.columns (with_calendar (pd.copy history_df)))
    by (apply with_calendar_columns, copy_columns, Ht).
  destruct (with_lags_Ok _ _ Htd) as (df' & Hok & _ & Hcols & _).
  exists df'. split; [exact Hok |].
  destruct (lagged_rows _ _ _ Hok Hh Hd) as (Hindex & Hcells).
  destruct (lagged_table_columns _ _ _ Hok Hnf) as (_ & Hfeat).
  split; [exact Hfeat |]. split; [exact Hindex |].
  assert (Hlen : length (pd.index (pd.dropna df'))
                 = S (pd.nrows history_df - 25)).
  { rewrite Hindex, length_drop. unfold pd.nrows in *. lia. }
  assert (Hlag : forall lag, target_col <> lag_column target_col lag).
  { intros lag E. symmetry in E. exact (lag_column_ne_target _ _ E). }
  split.
  { unfold pd.getitem. cbn [pd.dropna pd.columns].
    rewrite bool_decide_eq_true_2 by (apply Hcols, Htd). f_equal.
    apply list_eq. intros i. rewrite lookup_drop.
    destruct (le_lt_dec (pd.nrows history_df - 24) i) as [Hi | Hi].
    - rewrite !lookup_ge_None_2;
        [reflexivity
        | rewrite col_values_length; lia
        | rewrite col_values_length; unfold pd.nrows at 1; rewrite Hlen; lia ].
    - rewrite !col_values_lookup_lt
        by (first [lia | unfold pd.nrows at 1; rewrite Hlen; lia]).
      f_equal. destruct (Hcells i Hi) as (_ & _ & _ & _ & _ & Hother).
      rewrite Hother by (first [assumption | apply Hlag]).
      f_equal. lia. }
  split.
  { rewrite Hindex. apply last_drop_lt. unfold pd.nrows in Hn. lia. }
  split; [exact Hlen |].
  cbv zeta. unfold pd.row_to_dict, feature_columns.
  cbn [pd.columns pd.cell map list_to_map foldr fst snd].
  destruct (Hcells (pd.nrows history_df - 25)%nat) as (C1 & C4 & C24 & _);
    [lia |].
  assert (Nh : forall lag, "hour" <> lag_column target_col lag)
    by apply lag_column_ne_hour.
  assert (Nd : forall lag, "dayofweek" <> lag_column target_col lag)
    by apply lag_column_ne_dayofweek.
  repeat split.
  - rewrite !lookup_insert_ne by (first [apply Nh | apply Nd]).
    rewrite lookup_insert_eq, C1. do 2 f_equal. lia.
  - rewrite !lookup_insert_ne by (first [apply Nh | apply Nd | lag_ne]).
    rewrite lookup_insert_eq, C4. do 2 f_equal. lia.
  - rewrite !lookup_insert_ne by (first [apply Nh | apply Nd | lag_ne]).
    rewrite lookup_insert_eq, C24. reflexivity.
  - rewrite !lookup_insert_ne by (first [apply Nh | apply Nd | lag_ne]).
    apply lookup_empty.
  - rewrite !lookup_insert_ne by (first [apply Nh | apply Nd | lag_ne]).
    apply lookup_empty.
Qed.

(** ** agents/price_agent.py: the fallback forecast as a recursion *)

(** X12: for a price history of at least 25 rows that has the target
    column and no feature column of its own (no name containing lag,
    none named hour or dayofweek), [_forecast_with_ml] trains on the
    history from its 25th row on, the training columns being hour,
    dayofweek and the three lags in this order, and raises what [fit]
    raises.  Once fitted it returns, on the [n_steps] quarter hours after
    the last history row, the recursion in which the first prediction is
    made from the target 2, 5 and 25 rows before the end of the history
    (the last observation itself is not used) and every later prediction
    from the previous prediction in all three lag positions; the row given
    to [predict] lists the lags before hour and dayofweek. *)
Theorem price_forecast_fed_back (Regressor : Type)
    (fit : pd.DataFrame R -> list R -> res Regressor)
    (predict : Regressor -> list (string * option R) -> R)
    (self : PriceAgent) (n_steps : nat) :
  let history_df := price_history_df self in
  let target_col := price_target_col self in
  let N := pd.nrows history_df in
  target_col ∈ pd.columns history_df ->
  (forall c, c ∈ pd.columns history_df -> is_feature c = false) ->
  (25 <= N)%nat ->
  exists X_train,
    pd.index X_train = drop 24 (pd.index history_df) /\
    pd.columns X_train = feature_columns target_col /\
    let y_train := drop 24 (pd.col_values history_df target_col) in
    (forall e, fit X_train y_train = Raise e ->
       _forecast_with_ml Regressor fit predict self n_steps = Raise e) /\
    (forall model last_time,
       fit X_train y_train = Ok model ->
       last (pd.index history_df) = Some last_time ->
       let future := pd.date_range (last_time + pd.minutes15) n_steps in
       _forecast_with_ml Regressor fit predict self n_steps
       = Ok (pd.mkSeries future
               (first_then_fed_back (predict model) target_col
                  (pd.cell history_df (N - 2) target_col)
                  (pd.cell history_df (N - 5) target_col)
                  (pd.cell history_df (N - 25) target_col) future)
               "price_forecast_eur_kwh")).
Proof.
  cbv zeta. intros Ht Hnf Hn.
  destruct (training_table _ _ Ht Hnf Hn)
    as (df' & Hok & Hfeat & Hindex & Hy & Hlast & Hlen & L1 & L4 & L24 & L23 & L3).
  exists (pd.mkDataFrame (pd.index (pd.dropna df'))
            (feature_columns (price_target_col self))
            (pd.cell (pd.dropna df'))).
  split; [exact Hindex |]. split; [reflexivity |].
  unfold _forecast_with_ml, _create_features.
  rewrite Hok. cbn [rbind]. rewrite getitem_cols_filter. cbn [rbind].
  rewrite Hfeat, Hy. cbn [rbind].
  set (X_train := pd.mkDataFrame _ _ _).
  assert (Hrows : pd.nrows X_train = S (pd.nrows (price_history_df self) - 25))
    by exact Hlen.
  rewrite Hrows. cbn [Nat.eqb].
  split.
  - intros e He. rewrite He. reflexivity.
  - intros model last_time Hfit Hlt. rewrite Hfit. cbn [rbind].
    unfold pd.iloc_last. rewrite Hlast, Hlt. cbn [rbind].
    unfold pd.iloc_last_to_dict. rewrite Hrows. cbn [rbind].
    subst X_train.
    set (future := pd.date_range (last_time + pd.minutes15) n_steps).
    match goal with
    | |- context [for_each (seq 0 n_steps) ?body ?s0] =>
        destruct (forecast_loop_first (predict model) (price_target_col self)
                    (fun x => x) future body
                    (fun _ _ _ => eq_refl) _ _ _ _ n_steps
                    (eq_sym (date_range_length _ _)) L1 L4 L24 L23 L3)
          as (lv' & Hloop)
    end.
    rewrite Hloop. cbn [rbind snd]. rewrite List.map_id.
    unfold pd.Series_of_list. rewrite with_calendar_index. cbn [pd.index].
    rewrite first_then_fed_back_length, Nat.eqb_refl. reflexivity.
Qed.

Lemma price_forecast_fed_back_witness :
  exists X_train : pd.DataFrame R,
    pd.columns X_train = feature_columns "electricity_price_1_high" /\
    _forecast_with_ml unit fit_any predict_first_plus_one price_agent_26_rows 3
    = Ok (pd.mkSeries (pd.date_range (22500 + pd.minutes15) 3)
            (first_then_fed_back (predict_first_plus_one tt)
               "electricity_price_1_high" (INR 24) (INR 21) (INR 1)
               (pd.date_range (22500 + pd.minutes15) 3))
            "price_forecast_eur_kwh").
Proof.
  destruct (price_forecast_fed_back unit fit_any predict_first_plus_one
              price_agent_26_rows 3)
    as (X_train & _ & Hcols & _ & Hrun).
  - apply list_elem_of_In. cbn. right. left. reflexivity.
  - intros c Hc. apply list_elem_of_In in Hc. cbn in Hc.
    destruct Hc as [<- | [<- | []]]; reflexivity.
  - vm_compute. lia.
  - exists X_train. split; [exact Hcols |].
    apply (Hrun tt 22500%Z); reflexivity.
Defined.

(** ** agents/inflow_agent.py: the forecast as a recursion *)

(** X13: for an inflow history of at least 25 rows that has the target
    column and no feature column of its own, [forecast_inflow] trains on
    the history from its 25th row on and raises what [fit] raises.  Once
    fitted it returns, on the [n_steps] quarter hours after the last
    history row and whatever the weather fetch gave, the predictions of
    the same recursion as the price fallback, each clamped at zero in the
    series; the value fed back into the lags is the prediction before
    clamping. *)
Theorem inflow_forecast_fed_back (Regressor : Type)
    (fit : pd.DataFrame R -> list R -> res Regressor)
    (predict : Regressor -> list (string * option R) -> R)
    (self : InflowAgent) (weather_forecast : res (list (Z * (R * R))))
    (n_steps : nat) :
  let history_df := inflow_history_df self in
  let target_col := inflow_target_col self in
  let N := pd.nrows history_df in
  target_col ∈ pd.columns history_df ->
  (forall c, c ∈ pd.columns history_df -> is_feature c = false) ->
  (25 <= N)%nat ->
  exists X_train,
    pd.index X_train = drop 24 (pd.index history_df) /\
    pd.columns X_train = feature_columns target_col /\
    let y_train := drop 24 (pd.col_values history_df target_col) in
    (forall e, fit X_train y_train = Raise e ->
       forecast_inflow Regressor fit predict self weather_forecast n_steps
       = Raise e) /\
    (forall model last_time,
       fit X_train y_train = Ok model ->
       last (pd.index history_df) = Some last_time ->
       let future := pd.date_range (last_time + pd.minutes15) n_steps in
       forecast_inflow Regressor fit predict self weather_forecast n_steps
       = Ok (pd.mkSeries future
               (map py_max0
                  (first_then_fed_back (predict model) target_col
                     (pd.cell history_df (N - 2) target_col)
                     (pd.cell history_df (N - 5) target_col)
                     (pd.cell history_df (N - 25) target_col) future))
               "inflow_forecast_m3_15min")).
Proof.
  cbv zeta. intros Ht Hnf Hn.
  destruct (training_table _ _ Ht Hnf Hn)
    as (df' & Hok & Hfeat & Hindex & Hy & Hlast & Hlen & L1 & L4 & L24 & L23 & L3).
  exists (pd.mkDataFrame (pd.index (pd.dropna df'))
            (feature_columns (inflow_target_col self))
            (pd.cell (pd.dropna df'))).
  split; [exact Hindex |]. split; [reflexivity |].
  unfold forecast_inflow.
  rewrite Hok. cbn [rbind]. rewrite getitem_cols_filter. cbn [rbind].
  rewrite Hfeat, Hy. cbn [rbind].
  split.
  - intros e He. rewrite He. reflexivity.
  - intros model last_time Hfit Hlt. rewrite Hfit. cbn [rbind].
    unfold pd.iloc_last. rewrite Hlt. cbn [rbind].
    set (X_last := pd.mkDataFrame _ _ _).
    assert (Hrows : pd.nrows X_last = S (pd.nrows (inflow_history_df self) - 25))
      by exact Hlen.
    unfold pd.iloc_last_to_dict. rewrite Hrows. cbn [rbind].
    subst X_last.
    set (future := pd.date_range (last_time + pd.minutes15) n_steps).
    match goal with
    | |- context [for_each (seq 0 n_steps) ?body ?s0] =>
        destruct (forecast_loop_first (predict model) (inflow_target_col self)
                    py_max0 future body
                    (fun i lv acc =>
                       f_equal (fun c => rbind c _)
                         (current_features_add_weather _ lv future
                            weather_forecast i))
                    _ _ _ _ n_steps
                    (eq_sym (date_range_length _ _)) L1 L4 L24 L23 L3)
          as (lv' & Hloop)
    end.
    rewrite Hloop. cbn [rbind snd].
    unfold pd.Series_of_list.
    rewrite add_weather_index, with_calendar_index. cbn [pd.index].
    rewrite length_map, first_then_fed_back_length, Nat.eqb_refl. reflexivity.
Qed.

Lemma inflow_forecast_fed_back_witness :
  exists X_train : pd.DataFrame R,
    pd.columns X_train = feature_columns "inflow_to_tunnel_f1" /\
    forecast_inflow unit fit_any predict_first_plus_one inflow_agent_26_rows
      weather_one_row 3
    = Ok (pd.mkSeries (pd.date_range (22500 + pd.minutes15) 3)
            (map py_max0
               (first_then_fed_back (predict_first_plus_one tt)
                  "inflow_to_tunnel_f1" (INR 24) (INR 21) (INR 1)
                  (pd.date_range (22500 + pd.minutes15) 3)))
            "inflow_forecast_m3_15min").
Proof.
  destruct (inflow_forecast_fed_back unit fit_any predict_first_plus_one
              inflow_agent_26_rows weather_one_row 3)
    as (X_train & _ & Hcols & _ & Hrun).
  - apply list_elem_of_In. cbn. left. reflexivity.
  - intros c Hc. apply list_elem_of_In in Hc. cbn in Hc.
    destruct Hc as [<- | [<- | []]]; reflexivity.
  - vm_compute. lia.
  - exists X_train. split; [exact Hcols |].
    apply (Hrun tt 22500%Z); reflexivity.
Defined.

(** ** agents/price_agent.py: the Nord Pool prices *)

Lemma insert_by_time_perm (p : Z * R) (ps : list (Z * R)) :
  Permutation (insert_by_time p ps) (p :: ps).
Proof.
  induction ps as [| q qs IH]; [reflexivity |].
  cbn [insert_by_time]. destruct (fst p <=? fst q)%Z; [reflexivity |].
  rewrite IH. apply perm_swap.
Qed.

Lemma sort_index_perm (ps : list (Z * R)) : Permutation (sort_index ps) ps.
Proof.
  induction ps as [| p ps IH]; [reflexivity |].
  unfold sort_index. cbn [foldr]. fold (sort_index ps).
  rewrite insert_by_time_perm, IH. reflexivity.
Qed.

Lemma insert_by_time_sorted (p : Z * R) (ps : list (Z * R)) :
  StronglySorted (fun a b => (fst a <= fst b)%Z) ps ->
  StronglySorted (fun a b => (fst a <= fst b)%Z) (insert_by_time p ps).
Proof.
  induction ps as [| q qs IH]; intros Hs.
  - cbn. constructor; constructor.
  - cbn [insert_by_time]. inversion Hs as [| ? ? Hqs Hall]; subst.
    destruct (fst p <=? fst q)%Z eqn:E.
    + apply Z.leb_le in E. constructor; [exact Hs |].
      constructor; [exact E |].
      eapply List.Forall_impl; [| exact Hall]. intros x Hx. cbn beta in *. lia.
    + apply Z.leb_gt in E. constructor; [apply IH; exact Hqs |].
      apply List.Forall_forall. intros x Hx.
      apply (Permutation_in _ (insert_by_time_perm p qs)) in Hx.
      destruct Hx as [<- | Hx]; [lia |].
      rewrite List.Forall_forall in Hall. apply Hall, Hx.
Qed.

Lemma sort_index_sorted (ps : list (Z * R)) :
  StronglySorted (fun a b => (fst a <= fst b)%Z) (sort_index ps).
Proof.
  induction ps as [| p ps IH]; [constructor |].
  unfold sort_index. cbn [foldr]. apply insert_by_time_sorted, IH.
Qed.

Lemma StronglySorted_map_fst (ps : list (Z * R)) :
  StronglySorted (fun a b => (fst a <= fst b)%Z) ps ->
  StronglySorted Z.le (map fst ps).
Proof.
  induction 1 as [| p ps Hs IH Hall]; [constructor |].
  cbn [map]. constructor; [exact IH |].
  apply List.Forall_map. exact Hall.
Qed.

Lemma combine_map_fst_snd {A B : Type} (ps : list (A * B)) :
  combine (map fst ps) (map snd ps) = ps.
Proof.
  induction ps as [| [a b] ps IH]; [reflexivity |]. cbn. rewrite IH. reflexivity.
Qed.

(** X14: when Nord Pool delivers at least [n_steps] entries, and at least
    one, the price forecast is made of them alone, whatever the history
    and the regressor: the series holds [n_steps] of the delivered
    entries with the price divided by 1000, in the order of their time
    stamps, and every entry left out is no earlier than those kept. *)
Theorem nordpool_prices_direct (Regressor : Type)
    (fit : pd.DataFrame R -> list R -> res Regressor)
    (predict : Regressor -> list (string * option R) -> R)
    (self : PriceAgent) (values : list (Z * R)) (n_steps : nat) :
  values <> [] -> (n_steps <= length values)%nat ->
  exists s rest,
    fetch_nordpool_prices Regressor fit predict self (Ok values) n_steps = Ok s /\
    pd.name s = "price_forecast_eur_kwh" /\
    length (pd.s_index s) = n_steps /\
    length (pd.values s) = n_steps /\
    Permutation (map (fun item => (fst item, snd item / 1000.0)) values)
                (combine (pd.s_index s) (pd.values s) ++ rest) /\
    StronglySorted Z.le (pd.s_index s ++ map fst rest).
Proof.
  intros Hne Hlen. unfold fetch_nordpool_prices. cbn [rbind].
  set (price_list := map _ values).
  assert (Hpl : length price_list = length values)
    by (unfold price_list; apply length_map).
  destruct price_list as [| p pl] eqn:E.
  { destruct values; [contradiction | discriminate]. }
  rewrite <- E in *. cbn [rbind].
  set (sorted := sort_index price_list).
  assert (Hsl : length sorted = length values).
  { unfold sorted. rewrite (Permutation_length (sort_index_perm _)). exact Hpl. }
  assert (Htake : length (take n_steps sorted) = n_steps)
    by (rewrite length_take; lia).
  rewrite Htake, Nat.ltb_irrefl. cbn [try_except].
  eexists. exists (drop n_steps sorted).
  split; [reflexivity |]. cbn [pd.name pd.s_index pd.values].
  split; [reflexivity |].
  rewrite !length_map, combine_map_fst_snd, take_drop, <- map_app, take_drop.
  repeat split; try exact Htake.
  - symmetry. apply sort_index_perm.
  - apply StronglySorted_map_fst, sort_index_sorted.
Qed.

Lemma nordpool_prices_direct_witness :
  exists s rest,
    fetch_nordpool_prices unit fit_any predict_minus_one price_agent_26_rows
      (Ok [(1800%Z, 40); (900%Z, 50); (2700%Z, 60)]) 2 = Ok s /\
    pd.name s = "price_forecast_eur_kwh" /\
    length (pd.s_index s) = 2%nat /\
    length (pd.values s) = 2%nat /\
    Permutation (map (fun item : Z * R => (fst item, snd item / 1000.0))
                     [(1800%Z, 40); (900%Z, 50); (2700%Z, 60)])
                (combine (pd.s_index s) (pd.values s) ++ rest) /\
    StronglySorted Z.le (pd.s_index s ++ map fst rest).
Proof.
  apply (nordpool_prices_direct unit fit_any predict_minus_one
           price_agent_26_rows [(1800%Z, 40); (900%Z, 50); (2700%Z, 60)] 2).
  - discriminate.
  - cbn. lia.
Defined.

(** X15: when the Nord Pool fetch raises, or delivers fewer than
    [n_steps] entries (none included), the price forecast is exactly what
    the fallback [_forecast_with_ml] returns or raises: an exception of the
    fallback started inside the [try] only makes the handler run the same
    fallback again. *)
Theorem nordpool_prices_fallback (Regressor : Type)
    (fit : pd.DataFrame R -> list R -> res Regressor)
    (predict : Regressor -> list (string * option R) -> R)
    (self : PriceAgent) (nordpool : res (list (Z * R))) (n_steps : nat) :
  (forall values, nordpool = Ok values -> (length values < n_steps)%nat) ->
  fetch_nordpool_prices Regressor fit predict self nordpool n_steps
  = _forecast_with_ml Regressor fit predict self n_steps.
Proof.
  intros Hshort. unfold fetch_nordpool_prices.
  destruct nordpool as [values | e]; [| reflexivity].
  specialize (Hshort values eq_refl). cbn [rbind].
  set (price_list := map _ values).
  assert (Hpl : length price_list = length values)
    by (unfold price_list; apply length_map).
  destruct price_list as [| p pl] eqn:E; [reflexivity |].
  rewrite <- E in *. cbn [rbind].
  assert (Hlt : (length (take n_steps (sort_index price_list)) <? n_steps)%nat
                = true).
  { apply Nat.ltb_lt. rewrite length_take.
    rewrite (Permutation_length (sort_index_perm _)). lia. }
  rewrite Hlt.
  destruct (_forecast_with_ml _ _ _ _ _); reflexivity.
Qed.

Lemma nordpool_prices_fallback_witness :
  fetch_nordpool_prices unit fit_any predict_first_plus_one price_agent_26_rows
    (Ok [(1800%Z, 40); (900%Z, 50)]) 3
  = _forecast_with_ml unit fit_any predict_first_plus_one price_agent_26_rows 3.
Proof.
  apply nordpool_prices_fallback.
  intros values E. injection E as <-. cbn. lia.
Defined.

Lemma forecast_with_ml_shape (Regressor : Type)
    (fit : pd.DataFrame R -> list R -> res Regressor)
    (predict : Regressor -> list (string * option R) -> R)
    (self : PriceAgent) (n_steps : nat) (s : pd.Series R) :
  _forecast_with_ml Regressor fit predict self n_steps = Ok s ->
  length (pd.values s) = n_steps /\ length (pd.s_index s) = n_steps.
Proof.
  unfold _forecast_with_ml. intros H.
  apply rbind_Ok in H. destruct H as (df_features & _ & H).
  apply rbind_Ok in H. destruct H as (X_train & _ & H).
  apply rbind_Ok in H. destruct H as (y_train & _ & H).
  destruct (pd.nrows X_train =? 0)%nat.
  - apply rbind_Ok in H. destruct H as (prices & _ & H).
    apply rbind_Ok in H. destruct H as (last_price & _ & H).
    apply rbind_Ok in H. destruct H as (last_time & _ & H).
    injection H as <-. unfold pd.Series_of_scalar. cbn [pd.values pd.s_index].
    rewrite length_replicate, date_range_length. split; reflexivity.
  - apply rbind_Ok in H. destruct H as (model & _ & H).
    apply rbind_Ok in H. destruct H as (last_time & _ & H).
    apply rbind_Ok in H. destruct H as (X_last & _ & H).
    apply rbind_Ok in H. destruct H as (last_values & _ & H).
    apply rbind_Ok in H. destruct H as (loop & _ & H).
    unfold pd.Series_of_list in H.
    destruct (_ =? _)%nat eqn:E; [| discriminate].
    apply Nat.eqb_eq in E. injection H as <-. cbn [pd.values pd.s_index].
    rewrite E, with_calendar_index. cbn [pd.index].
    rewrite date_range_length. split; reflexivity.
Qed.

(** X16: every series [fetch_nordpool_prices] returns, from Nord Pool or
    from the fallback, has exactly [n_steps] prices and [n_steps] time
    stamps. *)
Theorem fetch_nordpool_prices_shape (Regressor : Type)
    (fit : pd.DataFrame R -> list R -> res Regressor)
    (predict : Regressor -> list (string * option R) -> R)
    (self : PriceAgent) (nordpool : res (list (Z * R))) (n_steps : nat)
    (s : pd.Series R) :
  fetch_nordpool_prices Regressor fit predict self nordpool n_steps = Ok s ->
  length (pd.values s) = n_steps /\ length (pd.s_index s) = n_steps.
Proof.
  unfold fetch_nordpool_prices. intros H.
  assert (Hml : forall b : res (pd.Series R),
            try_except b (fun _ => _forecast_with_ml Regressor fit predict self
                                     n_steps) = Ok s ->
            b = Ok s \/ _forecast_with_ml Regressor fit predict self n_steps = Ok s).
  { intros [r | e] Hb; cbn in Hb; [left | right]; exact Hb. }
  apply Hml in H. destruct H as [H | H]; [| eapply forecast_with_ml_shape, H].
  apply rbind_Ok in H. destruct H as (values & _ & H).
  apply rbind_Ok in H. destruct H as (prices_15min & _ & H).
  destruct (length (take n_steps prices_15min) <? n_steps)%nat eqn:E;
    [eapply forecast_with_ml_shape, H |].
  apply Nat.ltb_ge in E. injection H as <-. cbn [pd.values pd.s_index].
  rewrite !length_map. rewrite length_take in *. split; lia.
Qed.

Lemma fetch_nordpool_prices_shape_witness :
  length (pd.values price_forecast_96) = 96%nat /\
  length (pd.s_index price_forecast_96) = 96%nat.
Proof.
  exact (fetch_nordpool_prices_shape unit fit_any predict_minus_one
           (mkPriceAgent history_25_rows "electricity_price_1_high"
              TUNNEL_CONSTANTS.NORDPOOL_AREA)
           nordpool_96 96 price_forecast_96 fetch_nordpool_prices_96).
Defined.

(** X17: with a price history of at most 24 rows no training row is
    left and [_forecast_with_ml] does not call the regressor: an empty
    history raises IndexError, and otherwise the forecast is the last
    price of the history repeated on the [n_steps] quarter hours after its
    last time stamp. *)
Theorem price_forecast_short_history (Regressor : Type)
    (fit : pd.DataFrame R -> list R -> res Regressor)
    (predict : Regressor -> list (string * option R) -> R)
    (self : PriceAgent) (n_steps : nat) :
  let history_df := price_history_df self in
  let target_col := price_target_col self in
  target_col ∈ pd.columns history_df ->
  (pd.nrows history_df <= 24)%nat ->
  (pd.index history_df = [] ->
   _forecast_with_ml Regressor fit predict self n_steps = Raise IndexError) /\
  (forall last_time,
     last (pd.index history_df) = Some last_time ->
     _forecast_with_ml Regressor fit predict self n_steps
     = Ok (pd.mkSeries (pd.date_range (last_time + pd.minutes15) n_steps)
             (replicate n_steps
                (pd.cell history_df (pd.nrows history_df - 1) target_col))
             "price_forecast_eur_kwh")).
Proof.
  cbv zeta. intros Ht Hn. unfold _forecast_with_ml, _create_features.
  set (df := with_calendar (pd.copy (price_history_df self))).
  assert (Htd : price_target_col self ∈ pd.columns df)
    by (apply with_calendar_columns, copy_columns, Ht).
  destruct (lagged_history_no_rows _ df Htd Hn)
    as (df' & Hok & _ & Htc & Hempty).
  rewrite Hok. cbn [rbind].
  rewrite getitem_cols_filter. cbn [rbind].
  assert (Hy : pd.getitem (pd.dropna df') (price_target_col self)
               = Ok (pd.col_values (pd.dropna df') (price_target_col self))).
  { unfold pd.getitem. rewrite bool_decide_eq_true_2 by exact Htc. reflexivity. }
  rewrite Hy. cbn [rbind].
  change (pd.nrows (pd.mkDataFrame (pd.index (pd.dropna df')) ?c ?f))
    with (pd.nrows (pd.dropna df')).
  rewrite Hempty. cbn [Nat.eqb].
  unfold pd.getitem. rewrite bool_decide_eq_true_2 by exact Ht. cbn [rbind].
  split.
  - intros Hnil. unfold pd.col_values, pd.nrows. rewrite Hnil. reflexivity.
  - intros last_time Hlast.
    assert (Hpos : (0 < pd.nrows (price_history_df self))%nat).
    { unfold pd.nrows. destruct (pd.index (price_history_df self));
        [discriminate | cbn; lia]. }
    assert (Hlp : last (pd.col_values (price_history_df self)
                          (price_target_col self))
                  = Some (pd.cell (price_history_df self)
                            (pd.nrows (price_history_df self) - 1)
                            (price_target_col self))).
    { rewrite last_lookup, col_values_length.
      replace (Init.Nat.pred (pd.nrows (price_history_df self)))
        with (pd.nrows (price_history_df self) - 1)%nat by lia.
      apply col_values_lookup_lt. lia. }
    unfold pd.iloc_last. rewrite Hlp, Hlast. cbn [rbind].
    unfold pd.Series_of_scalar. rewrite date_range_length. reflexivity.
Qed.

Lemma price_forecast_short_history_witness :
  _forecast_with_ml unit fit_any predict_minus_one
    (mkPriceAgent history_two_rows "inflow_to_tunnel_f1" "FI") 3
  = Ok (pd.mkSeries (pd.date_range (900 + pd.minutes15) 3)
          (replicate 3 (pd.cell history_two_rows (2 - 1) "inflow_to_tunnel_f1"))
          "price_forecast_eur_kwh").
Proof.
  apply (proj2 (price_forecast_short_history unit fit_any predict_minus_one
                  (mkPriceAgent history_two_rows "inflow_to_tunnel_f1" "FI") 3
                  ltac:(apply list_elem_of_In; cbn; right; left; reflexivity)
                  ltac:(cbn; lia))).
  reflexivity.
Defined.

(** ** main.py: the outcomes of a cycle *)

Lemma col_values_nil {A : Type} (df : pd.DataFrame A) (c : string) :
  last (pd.col_values df c) = None -> pd.index df = [].
Proof.
  intros H. apply last_None in H.
  apply (f_equal (@length A)) in H. rewrite col_values_length in H.
  unfold pd.nrows in H. destruct (pd.index df); [reflexivity | discriminate].
Qed.

(** The cycle in one piece: the initialisation, the forecasts, the
    optimizer and the optimisation. *)
Lemma run_optimization_cycle_unfold (Regressor : Type)
    (fit : pd.DataFrame R -> list R -> res Regressor)
    (predict : Regressor -> list (string * option R) -> R)
    (solve : gekko.Model -> res gekko.Solution)
    (data : res (pd.DataFrame R)) (volume_file : res (list (R * R)))
    (nordpool : res (list (Z * R)))
    (weather_forecast : res (list (Z * (R * R)))) :
  run_optimization_cycle Regressor fit predict solve data volume_file nordpool
    weather_forecast
  = match (hist_df <-- data ;;
           level <-- pd.getitem hist_df "water_level_in_tunnel_l2" ;;
           pd.iloc_last level) with
    | Raise e => Ok (InitError e)
    | Ok current_L1 =>
        price_agent <-- PriceAgent_init data ;;
        price_forecast <--
          fetch_nordpool_prices Regressor fit predict price_agent nordpool 96 ;;
        inflow_agent <-- InflowAgent_init data ;;
        inflow_forecast <--
          forecast_inflow Regressor fit predict inflow_agent weather_forecast 96 ;;
        optimizer <-- OptimizationAgent_init volume_file current_L1
                        price_forecast inflow_forecast
                        (length (pd.values price_forecast)) ;;
        optimal_f2_profile <--
          solve_mpc solve optimization_agent_globals optimizer ;;
        match optimal_f2_profile with
        | Some profile =>
            if (pd.nrows profile =? 0)%nat then Raise IndexError
            else Ok (Optimized optimizer optimal_f2_profile)
        | None => Ok (Optimized optimizer optimal_f2_profile)
        end
    end.
Proof.
  unfold run_optimization_cycle, cycle_optimizer.
  destruct (rbind data _) as [current_L1 | e]; [| reflexivity].
  destruct (PriceAgent_init data) as [pa | e]; [| reflexivity]. cbn [rbind].
  destruct (fetch_nordpool_prices _ _ _ _ _ _) as [pf | e]; [| reflexivity].
  cbn [rbind].
  destruct (InflowAgent_init data) as [ia | e]; [| reflexivity]. cbn [rbind].
  destruct (forecast_inflow _ _ _ _ _ _) as [inf | e]; [| reflexivity].
  cbn [rbind].
  destruct (OptimizationAgent_init _ _ _ _ _) as [opt | e]; reflexivity.
Qed.

(** X18: a cycle ends quietly, without building an agent, exactly when
    the current level cannot be read: the data file cannot be loaded, the
    cleaned table has no column water_level_in_tunnel_l2, or it has no
    row.  The outcome then carries the exception of that step, and the
    services, the regressor and the solver play no part in it. *)
Theorem cycle_init_errors (Regressor : Type)
    (fit : pd.DataFrame R -> list R -> res Regressor)
    (predict : Regressor -> list (string * option R) -> R)
    (solve : gekko.Model -> res gekko.Solution)
    (data : res (pd.DataFrame R)) (volume_file : res (list (R * R)))
    (nordpool : res (list (Z * R)))
    (weather_forecast : res (list (Z * (R * R)))) :
  let cycle := run_optimization_cycle Regressor fit predict solve data
                 volume_file nordpool weather_forecast in
  (forall e, data = Raise e -> cycle = Ok (InitError e)) /\
  (forall hist_df, data = Ok hist_df ->
     "water_level_in_tunnel_l2" ∉ pd.columns hist_df ->
     cycle = Ok (InitError (KeyError "water_level_in_tunnel_l2"))) /\
  (forall hist_df, data = Ok hist_df ->
     "water_level_in_tunnel_l2" ∈ pd.columns hist_df ->
     pd.index hist_df = [] ->
     cycle = Ok (InitError IndexError)) /\
  (forall e, cycle = Ok (InitError e) ->
     data = Raise e \/
     exists hist_df, data = Ok hist_df /\
       ("water_level_in_tunnel_l2" ∉ pd.columns hist_df \/
        pd.index hist_df = [])).
Proof.
  cbv zeta. rewrite run_optimization_cycle_unfold.
  split; [| split; [| split]].
  - intros e ->. reflexivity.
  - intros hist_df -> Hc. cbn [rbind]. unfold pd.getitem.
    rewrite bool_decide_eq_false_2 by exact Hc. reflexivity.
  - intros hist_df -> Hc Hnil. cbn [rbind]. unfold pd.getitem.
    rewrite bool_decide_eq_true_2 by exact Hc. cbn [rbind].
    unfold pd.col_values, pd.nrows. rewrite Hnil. reflexivity.
  - intros e H. destruct data as [hist_df | e0]; cbn [rbind] in H.
    + right. exists hist_df. split; [reflexivity |].
      unfold pd.getitem in H. case_bool_decide as Hc; [| left; exact Hc].
      right. cbn [rbind] in H. unfold pd.iloc_last in H.
      destruct (last (pd.col_values hist_df "water_level_in_tunnel_l2"))
        as [current_L1 |] eqn:Hlast; [| eapply col_values_nil, Hlast].
      exfalso.
      destruct (PriceAgent_init _) as [pa | ?]; cbn [rbind] in H; [| discriminate].
      destruct (fetch_nordpool_prices _ _ _ _ _ _) as [pf | ?]; cbn [rbind] in H;
        [| discriminate].
      destruct (InflowAgent_init _) as [ia | ?]; cbn [rbind] in H; [| discriminate].
      destruct (forecast_inflow _ _ _ _ _ _) as [inf | ?]; cbn [rbind] in H;
        [| discriminate].
      destruct (OptimizationAgent_init _ _ _ _ _) as [opt | ?]; cbn [rbind] in H;
        [| discriminate].
      destruct (solve_mpc _ _ _) as [[profile |] | ?]; cbn [rbind] in H;
        try discriminate.
      destruct (pd.nrows profile =? 0)%nat; discriminate.
    + left. injection H as <-. reflexivity.
Qed.

Lemma cycle_init_errors_witness :
  run_optimization_cycle unit fit_any predict_minus_one solve_holding
    (Ok (pd.mkDataFrame [0%Z] ["inflow_to_tunnel_f1"] (fun _ _ => 500)))
    (Raise FileNotFoundError) nordpool_96 weather_one_row
  = Ok (InitError (KeyError "water_level_in_tunnel_l2")).
Proof.
  apply (proj1 (proj2 (cycle_init_errors unit fit_any predict_minus_one
                         solve_holding
                         (Ok (pd.mkDataFrame [0%Z] ["inflow_to_tunnel_f1"]
                                (fun _ _ => 500)))
                         (Raise FileNotFoundError) nordpool_96 weather_one_row))
           _ eq_refl).
  cbn. intros H. apply list_elem_of_In in H. cbn in H.
  destruct H as [H | []]. discriminate.
Defined.

(** X19: whenever a cycle gets as far as building the optimizer, the
    optimizer has a horizon of 96 steps of a quarter hour, 96 prices and
    96 inflows, no inflow being negative, and the cycle then raises
    TypeError out of [solve_mpc], whatever the solver.  So no cycle ends
    with a pump profile: it ends quietly on an initialisation error or it
    raises. *)
Theorem cycle_outcome_shape (Regressor : Type)
    (fit : pd.DataFrame R -> list R -> res Regressor)
    (predict : Regressor -> list (string * option R) -> R)
    (data : res (pd.DataFrame R)) (volume_file : res (list (R * R)))
    (nordpool : res (list (Z * R)))
    (weather_forecast : res (list (Z * (R * R)))) :
  (forall optimizer,
     cycle_optimizer Regressor fit predict data volume_file nordpool
       weather_forecast = Ok (Ready optimizer) ->
     horizon optimizer = 96%nat /\
     dt_h optimizer = 1 / 4 /\
     length (prices optimizer) = 96%nat /\
     length (inflow_15min optimizer) = 96%nat /\
     Forall (fun v => 0 <= v) (inflow_15min optimizer) /\
     forall solve,
       run_optimization_cycle Regressor fit predict solve data volume_file
         nordpool weather_forecast = Raise TypeError) /\
  (forall solve optimizer profile,
     run_optimization_cycle Regressor fit predict solve data volume_file
       nordpool weather_forecast <> Ok (Optimized optimizer profile)).
Proof.
  assert (Hshape : forall optimizer,
            cycle_optimizer Regressor fit predict data volume_file nordpool
              weather_forecast = Ok (Ready optimizer) ->
            horizon optimizer = 96%nat /\
            dt_h optimizer = 1 / 4 /\
            length (prices optimizer) = 96%nat /\
            length (inflow_15min optimizer) = 96%nat /\
            Forall (fun v => 0 <= v) (inflow_15min optimizer)).
  { unfold cycle_optimizer. intros optimizer H.
    destruct (rbind data _) as [current_L1 | e]; [| discriminate].
    apply rbind_Ok in H. destruct H as (price_agent & _ & H).
    apply rbind_Ok in H. destruct H as (pf & Hpf & H).
    apply rbind_Ok in H. destruct H as (inflow_agent & _ & H).
    apply rbind_Ok in H. destruct H as (inf & Hinf & H).
    apply rbind_Ok in H. destruct H as (opt & Hopt & H).
    injection H as <-.
    apply fetch_nordpool_prices_shape in Hpf. destruct Hpf as (Hpl & _).
    apply forecast_inflow_shape in Hinf. destruct Hinf as (Hil & _ & Hpos).
    unfold OptimizationAgent_init in Hopt.
    apply rbind_Ok in Hopt. destruct Hopt as (interp & _ & Hopt).
    injection Hopt as <-.
    cbn [horizon dt_h prices inflow_15min].
    repeat split; try assumption.
    unfold TUNNEL_CONSTANTS.TIMESTEP_MINUTES. lra. }
  assert (Hraise : forall optimizer solve,
            cycle_optimizer Regressor fit predict data volume_file nordpool
              weather_forecast = Ok (Ready optimizer) ->
            run_optimization_cycle Regressor fit predict solve data volume_file
              nordpool weather_forecast = Raise TypeError).
  { intros optimizer solve H.
    destruct (Hshape optimizer H) as (_ & _ & _ & Hlen & _).
    unfold run_optimization_cycle. rewrite H. cbn [rbind].
    rewrite solve_mpc_raises.
    destruct (inflow_15min optimizer); [discriminate | reflexivity]. }
  split.
  - intros optimizer H.
    destruct (Hshape optimizer H) as (H1 & H2 & H3 & H4 & H5).
    repeat (split; [assumption |]).
    intros solve. apply Hraise with optimizer. exact H.
  - intros solve optimizer profile Hrun.
    destruct (cycle_optimizer Regressor fit predict data volume_file nordpool
                weather_forecast) as [[e | opt] | e] eqn:Hstate.
    + unfold run_optimization_cycle in Hrun. rewrite Hstate in Hrun.
      discriminate.
    + rewrite (Hraise opt solve eq_refl) in Hrun. discriminate.
    + unfold run_optimization_cycle in Hrun. rewrite Hstate in Hrun.
      discriminate.
Qed.

Lemma cycle_outcome_shape_witness :
  exists optimizer,
    cycle_optimizer unit fit_any predict_minus_one
      (Ok history_25_rows) (Raise FileNotFoundError) nordpool_96
      weather_one_row = Ok (Ready optimizer) /\
    horizon optimizer = 96%nat /\
    length (inflow_15min optimizer) = 96%nat /\
    run_optimization_cycle unit fit_any predict_minus_one solve_holding
      (Ok history_25_rows) (Raise FileNotFoundError) nordpool_96
      weather_one_row = Raise TypeError.
Proof.
  destruct forecast_inflow_25_rows_returns as [inflow Hinflow].
  destruct (cycle_reaches_optimizer unit fit_any predict_minus_one
              history_25_rows
              (pd.col_values history_25_rows "water_level_in_tunnel_l2") 0.5
              (Raise FileNotFoundError)
              (fun L1 => 10000 * L1 + 350, fun V => (V - 350) / 10000)
              nordpool_96 weather_one_row price_forecast_96 inflow)
    as (optimizer & Hready & _).
  - reflexivity.
  - vm_compute. reflexivity.
  - reflexivity.
  - exact fetch_nordpool_prices_96.
  - exact Hinflow.
  - exists optimizer. split; [exact Hready |].
    destruct (proj1 (cycle_outcome_shape unit fit_any predict_minus_one
                       (Ok history_25_rows) (Raise FileNotFoundError)
                       nordpool_96 weather_one_row) optimizer Hready)
      as (Hh & _ & _ & Hi & _ & Hrun).
    split; [exact Hh |]. split; [exact Hi |]. apply Hrun.
Defined.

Lemma forecast_inflow_needs_25_rows (Regressor : Type)
    (fit : pd.DataFrame R -> list R -> res Regressor)
    (predict : Regressor -> list (string * option R) -> R)
    (self : InflowAgent) (weather_forecast : res (list (Z * (R * R))))
    (n_steps : nat) (s : pd.Series R) :
  forecast_inflow Regressor fit predict self weather_forecast n_steps = Ok s ->
  (25 <= pd.nrows (inflow_history_df self))%nat.
Proof.
  intros H. destruct (le_lt_dec 25 (pd.nrows (inflow_history_df self)))
    as [Hn | Hn]; [exact Hn | exfalso].
  unfold forecast_inflow in H.
  set (df := with_calendar (pd.copy (inflow_history_df self))) in H.
  apply rbind_Ok in H. destruct H as (df' & Hok & H).
  assert (Ht : inflow_target_col self ∈ pd.columns df).
  { destruct (decide (inflow_target_col self ∈ pd.columns df)) as [Ht | Ht];
      [exact Ht |].
    rewrite with_lags_missing_target in Hok by exact Ht. discriminate. }
  assert (Hn' : (pd.nrows df <= 24)%nat).
  { change (pd.nrows df) with (pd.nrows (inflow_history_df self)). lia. }
  destruct (lagged_history_no_rows _ df Ht Hn')
    as (df'' & Hok' & _ & _ & Hempty).
  rewrite Hok in Hok'. injection Hok' as <-.
  apply rbind_Ok in H. destruct H as (X_train & _ & H).
  apply rbind_Ok in H. destruct H as (y_train & _ & H).
  apply rbind_Ok in H. destruct H as (model & _ & H).
  apply rbind_Ok in H. destruct H as (last_op_time & _ & H).
  apply rbind_Ok in H. destruct H as (X_last & HX & H).
  apply rbind_Ok in H. destruct H as (last_values & Hlv & H).
  rewrite getitem_cols_filter in HX. injection HX as <-.
  unfold pd.iloc_last_to_dict in Hlv.
  match type of Hlv with
  | context [pd.nrows ?X] =>
      assert (Hz : pd.nrows X = O) by exact Hempty; rewrite Hz in Hlv
  end.
  discriminate.
Qed.

(** X20: a cycle over a history that has the level column and between 1
    and 24 rows does not end quietly: it raises, whatever Nord Pool, the
    weather service, the regressor and the solver do, because the inflow
    forecast has no training row and nothing in [run_optimization_cycle]
    catches its exception. *)
Theorem cycle_short_history_raises (Regressor : Type)
    (fit : pd.DataFrame R -> list R -> res Regressor)
    (predict : Regressor -> list (string * option R) -> R)
    (solve : gekko.Model -> res gekko.Solution)
    (hist_df : pd.DataFrame R) (volume_file : res (list (R * R)))
    (nordpool : res (list (Z * R)))
    (weather_forecast : res (list (Z * (R * R)))) :
  "water_level_in_tunnel_l2" ∈ pd.columns hist_df ->
  (1 <= pd.nrows hist_df <= 24)%nat ->
  exists e,
    run_optimization_cycle Regressor fit predict solve (Ok hist_df) volume_file
      nordpool weather_forecast = Raise e.
Proof.
  intros Hc Hn. rewrite run_optimization_cycle_unfold. cbn [rbind].
  unfold pd.getitem. rewrite bool_decide_eq_true_2 by exact Hc. cbn [rbind].
  unfold pd.iloc_last.
  destruct (last (pd.col_values hist_df "water_level_in_tunnel_l2"))
    as [current_L1 |] eqn:Hlast.
  - unfold PriceAgent_init, InflowAgent_init. cbn [rbind].
    destruct (fetch_nordpool_prices _ _ _ _ _ _) as [pf | e]; cbn [rbind];
      [| exists e; reflexivity].
    destruct (forecast_inflow _ _ _ _ _ _) as [inf | e] eqn:Hinf; cbn [rbind];
      [| exists e; reflexivity].
    apply forecast_inflow_needs_25_rows in Hinf.
    cbn [inflow_history_df] in Hinf. lia.
  - apply col_values_nil in Hlast. unfold pd.nrows in Hn.
    rewrite Hlast in Hn. cbn in Hn. lia.
Qed.

Lemma cycle_short_history_raises_witness :
  exists e,
    run_optimization_cycle unit fit_any predict_minus_one solve_holding
      (Ok history_two_rows) (Raise FileNotFoundError) nordpool_96
      weather_one_row = Raise e.
Proof.
  apply (cycle_short_history_raises unit fit_any predict_minus_one
           solve_holding history_two_rows).
  - apply list_elem_of_In. cbn. left. reflexivity.
  - cbn. lia.
Defined.

(** ** agents/optimization_agent.py: the level the solver sees *)

Lemma calibration_three_rows_increasing : increasing_table calibration_three_rows.
Proof. cbn. repeat split; lra. Qed.

Lemma optimizer_three_rows_init :
  OptimizationAgent_init (Ok calibration_three_rows) 0.5 price_two_steps
    inflow_two_steps 2 = Ok optimizer_three_rows.
Proof.
  unfold OptimizationAgent_init.
  rewrite geometry_of_table;
    [reflexivity | exact calibration_three_rows_increasing | cbn; lia].
Qed.

(** X21: the level the solver works with (the straight line through the
    volumes of 0.5 m and 30 m) is the level reported in the result table
    (the volume-to-level interpolant) for every volume when the geometry
    is the affine fallback or comes from a table of two rows.  With more
    rows the two differ: on the table (0, 0), (10, 1000), (30, 300000)
    the admissible volume 1000 is reported as 10 m while the solver
    prices it as a level below 1 m. *)
Theorem mpc_linearised_level :
  (forall volume_file current_L1 price_forecast inflow_forecast H self
          F1_h F1_h_0,
     (volume_file = Raise FileNotFoundError \/
      exists p0 p1, volume_file = Ok [p0; p1] /\ increasing_table [p0; p1]) ->
     OptimizationAgent_init volume_file current_L1 price_forecast
       inflow_forecast H = Ok self ->
     forall V, gekko.L1 (mpc_model self F1_h F1_h_0) V = L_interp self V) /\
  (let m := mpc_model optimizer_three_rows [600 * 4; 600 * 4] (600 * 4) in
   gekko.lb (gekko.V m) <= 1000 <= gekko.ub (gekko.V m) /\
   L_interp optimizer_three_rows 1000 = 10 /\
   gekko.L1 m 1000 < 1).
Proof.
  split.
  - intros volume_file current_L1 price_forecast inflow_forecast H self
      F1_h F1_h_0 Hfile Hinit V.
    apply init_fields in Hinit.
    destruct Hinit as (volume_of & level_of & Hget & ->).
    cbn [mpc_model gekko.L1 V_interp L_interp].
    unfold TUNNEL_CONSTANTS.L1_MIN, TUNNEL_CONSTANTS.L1_MAX.
    replace 0.5 with (1 / 2) by lra. replace 30.0 with 30 by lra.
    destruct Hfile as [-> | (p0 & p1 & -> & Hinc)].
    + cbn in Hget. injection Hget as <- <-. field.
    + rewrite geometry_of_table in Hget by (first [exact Hinc | cbn; lia]).
      injection Hget as <- <-.
      destruct Hinc as (Hl & Hv & _). cbn [swap_table map].
      rewrite !call_linear_step by (cbn [fst snd]; lra).
      unfold segment. cbn [fst snd]. field. repeat split; lra.
  - cbv zeta.
    cbn [mpc_model gekko.L1 gekko.V gekko.lb gekko.ub optimizer_three_rows
         V_interp L_interp].
    unfold TUNNEL_CONSTANTS.L1_MIN, TUNNEL_CONSTANTS.L1_MAX,
      calibration_three_rows.
    cbn [swap_table map fst snd].
    rewrite !call_linear_step by (cbn [fst snd]; lra). cbn [fst snd].
    destruct (Rlt_dec 10 0.5) as [Hc | _]; [lra |].
    destruct (Rlt_dec 10 30.0) as [_ | Hc]; [| lra].
    destruct (Rlt_dec 1000 1000) as [Hc | _]; [lra |].
    unfold segment. cbn [fst snd].
    replace ((1000 - 0) / (10 - 0) * (0.5 - 0) + 0) with 50 by lra.
    replace ((300000 - 1000) / (30 - 10) * (30.0 - 10) + 1000) with 300000 by lra.
    replace ((10 - 0) / (1000 - 0) * (1000 - 0) + 0) with 10 by lra.
    repeat split; lra.
Qed.

Lemma mpc_linearised_level_witness :
  gekko.L1 (mpc_model optimizer_calibrated [600 * 4; 600 * 4] (600 * 4)) 150000
  = L_interp optimizer_calibrated 150000.
Proof.
  apply (proj1 mpc_linearised_level (Ok calibration_two_rows) 0.5
           price_two_steps inflow_two_steps 2%nat optimizer_calibrated).
  - right. exists (0, 0), (30, 300000).
    split; [reflexivity | exact calibration_two_rows_increasing].
  - exact optimizer_calibrated_init.
Defined.
